(** * gammapy.cube.models: sky and background model composition

    A shallow embedding of [gammapy/cube/models.py].  Python objects live
    in an arena (a list of objects addressed by their index), so that the
    identity of models, parameters, member lists, maps and arrays, and the
    aliasing between them, is the one the Python code has.  Methods are
    functions in a state-and-exception monad over that arena.

    numpy arrays are modelled by their shape and their row-major buffer,
    with numpy's broadcasting rule; float64 arithmetic is kept abstract
    behind the [Scalar] interface, astropy units behind [Units].

    Embedded: the constructors, [evaluate] and the operators [__add__],
    [__radd__] and [__iadd__] of [SkyModelBase], [SkyModels], [SkyModel],
    [SkyDiffuseCube], [BackgroundModel] and [BackgroundModels].  What
    these call in gammapy.utils.fitting ([Model] with its [copy],
    [Parameter], [Parameters]) and in gammapy.maps ([Map]) is modelled
    from the specification, and marked so.  Left out: the XML readers and
    writers, [__str__] and [__repr__], the [position],
    [evaluation_radius] and [frame] properties, and
    [BackgroundModel.from_skymodel]. *)

From stdpp Require Import base option list strings gmap.

Set Default Proof Using "Type".

(** ** Scalars (float64) and units (astropy.units) *)

Class Scalar (F : Type) := {
  f_zero : F;
  f_one : F;
  f_add : F → F → F;
  f_mul : F → F → F;
  f_div : F → F → F;
  f_pow : F → F → F;      (* np.power *)
  f_neg : F → F;
}.

(** The two facts of float64 arithmetic the tilt identity rests on:
    [pow(x, -0) = 1] for every [x], and [x * 1 = x]. *)
Class ScalarLaws (F : Type) `{Scalar F} := {
  f_pow_neg_zero : ∀ x : F, f_pow x (f_neg f_zero) = f_one;
  f_mul_one_r : ∀ x : F, f_mul x f_one = x;
}.

Class Units (F U : Type) := {
  dimensionless : U;
  deg : U;
  unit_mul : U → U → U;
  unit_div : U → U → U;
  (* [unit_to u v]: the factor converting a value in [u] to [v], when the
     two units are convertible *)
  unit_to : U → U → option F;
}.

(** ** Exceptions *)

Inductive exn :=
  | NotImplementedError
  | ValueError (msg : string)
  | IndexError
  | KeyError
  | UnboundLocalError
  | TypeError
  | AttributeError
  | UnitConversionError
  | RecursionError
  | SystemError.   (* a dangling address: no Python program gets there *)

Inductive outcome (A : Type) :=
  | Return (v : A)
  | Raise (e : exn).
Arguments Return {A} v.
Arguments Raise {A} e.

Definition obind {A B} (o : outcome A) (k : A → outcome B) : outcome B :=
  match o with
  | Return v => k v
  | Raise e => Raise e
  end.

(** ** numpy arrays *)

Section ndarray.
Context {F : Type} `{Scalar F}.

Record ndarray := mk_ndarray { shape : list nat; buffer : list F }.

Definition size (s : list nat) : nat := foldr Nat.mul 1 s.

(** an array is well formed when its buffer has one entry per index *)
Definition wf_ndarray (a : ndarray) : Prop :=
  length (buffer a) = size (shape a).

Definition scalar (x : F) : ndarray := mk_ndarray [] [x].
Definition array1 (xs : list F) : ndarray := mk_ndarray [length xs] xs.

(** all the multi-indices of a shape, in row-major order (np.ndindex) *)
Fixpoint ndindex (s : list nat) : list (list nat) :=
  match s with
  | [] => [[]]
  | n :: s' => i ← seq 0 n; (i ::.) <$> ndindex s'
  end.

(** position of a multi-index in the buffer *)
Fixpoint offset (s idx : list nat) : nat :=
  match s, idx with
  | _ :: s', i :: idx' => i * size s' + offset s' idx'
  | _, _ => 0
  end.

Fixpoint in_range (s idx : list nat) : Prop :=
  match s, idx with
  | [], [] => True
  | n :: s', i :: idx' => i < n ∧ in_range s' idx'
  | _, _ => False
  end.

(** [a[idx]] *)
Definition item (a : ndarray) (idx : list nat) : F :=
  nth (offset (shape a) idx) (buffer a) f_zero.

(** *** Broadcasting

    Shapes are compared from the trailing axis on; two lengths are
    compatible when they are equal or one of them is 1. *)
Definition broadcast_dim (d1 d2 : nat) : option nat :=
  if decide (d1 = d2) then Some d1
  else if decide (d1 = 1) then Some d2
  else if decide (d2 = 1) then Some d1
  else None.

Fixpoint broadcast_rev (r1 r2 : list nat) : option (list nat) :=
  match r1, r2 with
  | [], r | r, [] => Some r
  | d1 :: r1', d2 :: r2' =>
      d ← broadcast_dim d1 d2; r ← broadcast_rev r1' r2'; Some (d :: r)
  end.

Definition broadcast_shapes (s1 s2 : list nat) : option (list nat) :=
  reverse <$> broadcast_rev (reverse s1) (reverse s2).

(** the index into an operand of shape [s] that an index of the
    broadcast result reads: leading axes are dropped, an axis of length
    1 is read at 0 *)
Definition broadcast_index (s idx : list nat) : list nat :=
  zip_with (λ d i, if decide (d = 1) then 0 else i)
           s (drop (length idx - length s) idx).

Definition bitem (a : ndarray) (idx : list nat) : F :=
  item a (broadcast_index (shape a) idx).

Definition broadcast_error : exn :=
  ValueError "operands could not be broadcast together".

(** a binary ufunc *)
Definition broadcast2 (f : F → F → F) (a b : ndarray) : outcome ndarray :=
  match broadcast_shapes (shape a) (shape b) with
  | Some s =>
      Return (mk_ndarray s ((λ idx, f (bitem a idx) (bitem b idx)) <$> ndindex s))
  | None => Raise broadcast_error
  end.

(** a unary ufunc *)
Definition map_ndarray (f : F → F) (a : ndarray) : ndarray :=
  mk_ndarray (shape a) (f <$> buffer a).

Definition np_multiply := broadcast2 f_mul.
Definition np_divide := broadcast2 f_div.
Definition np_add := broadcast2 f_add.

(** [out += b] on arrays: the result must fit the left operand *)
Definition np_iadd (out b : ndarray) : outcome ndarray :=
  obind (np_add out b) (λ r,
    if decide (shape r = shape out) then Return r
    else Raise (ValueError "non-broadcastable output operand")).

(** [a[:, np.newaxis, np.newaxis]] on a 1-d array *)
Definition newaxis2 (a : ndarray) : ndarray :=
  mk_ndarray (shape a ++ [1; 1]) (buffer a).
End ndarray.
Arguments ndarray F : clear implicits.

(** ** Python objects *)

(** an address in the arena *)
Abbreviation loc := nat (only parsing).

Section objects.
Context {F U : Type} `{Scalar F} `{Units F U}.

(** astropy.units.Quantity: an array and a unit *)
Record Quantity := mk_quantity { q_value : ndarray F; q_unit : U }.

(** Modelled from the spec: the [Parameter] of gammapy.utils.fitting, a
    named scalar with a value, a unit, optional bounds and a frozen flag;
    [None] bounds stand for the nan default. *)
Record FitParameter := mk_parameter {
  par_name : string;
  par_value : F;
  par_unit : U;
  par_min : option F;
  par_max : option F;
  par_frozen : bool;
}.

(** [Parameter.quantity] *)
Definition par_quantity (p : FitParameter) : Quantity :=
  mk_quantity (scalar (par_value p)) (par_unit p).

(** Modelled from the spec: the geometry of a [Map] of gammapy.maps, as
    far as the map contract exposes it: axes looked up by name, each with
    its node type, its unit and its bin centers. *)
Record MapAxis := mk_axis {
  axis_name : string;
  node_type : string;
  axis_unit : U;
  axis_center : list F;
}.

Record MapGeom := mk_geom { axes : list MapAxis }.

(** values held by the keyword dictionaries *)
Inductive pyvalue :=
  | PyStr (s : string)
  | PyNum (x : F)
  | PyNone.

Inductive object :=
  | PyList (items : list loc)
  | PyDict (entries : gmap string pyvalue)
  | NdArrayObj (a : ndarray F)
  | ParameterObj (p : FitParameter)
  | MapObj (geom : MapGeom) (data : loc) (unit : U)
  (* a spatial model: its parameters and its [evaluate], which
     [__call__] applies to the parameters' current quantities *)
  | SpatialModelObj (parameters : list loc)
      (evaluate : list Quantity → Quantity → Quantity → outcome Quantity)
  | SpectralModelObj (parameters : list loc)
      (evaluate : list Quantity → Quantity → outcome Quantity)
  | SkyModelObj (name : string) (spatial_model spectral_model : loc)
      (parameters : list loc)
  | SkyDiffuseCubeObj (map norm meta interp_kwargs : loc)
      (parameters : list loc)
  | SkyModelsObj (skymodels : loc) (parameters : list loc)
  | BackgroundModelObj (map norm tilt reference : loc)
      (parameters : list loc)
  | BackgroundModelsObj (models : loc) (parameters : list loc)
  | OtherObj.

(** ** The monad of methods: state and exceptions

    The arena is a [list object]: an object's address is its index, and
    objects are never freed.  An exception leaves the arena as it was
    when it was raised. *)
Definition M (A : Type) : Type := list object → outcome A * list object.

#[export] Instance M_ret : MRet M := λ A v h, (Return v, h).

#[export] Instance M_bind : MBind M := λ A B k m h,
  match m h with
  | (Return v, h') => k v h'
  | (Raise e, h') => (Raise e, h')
  end.

Definition raise {A} (e : exn) : M A := λ h, (Raise e, h).

Definition lift {A} (o : outcome A) : M A := λ h, (o, h).

Definition alloc (o : object) : M loc := λ h, (Return (length h), h ++ [o]).

Definition deref (l : loc) : M object := λ h,
  match h !! l with
  | Some o => (Return o, h)
  | None => (Raise SystemError, h)
  end.

Definition store (l : loc) (o : object) : M () := λ h,
  (Return (), <[l := o]> h).

(** *** Attribute access and the built-in containers *)

(** the entries of a list object (iteration, slicing, [copy]) *)
Definition get_items (l : loc) : M (list loc) :=
  o ← deref l;
  match o with
  | PyList items => mret items
  | _ => raise TypeError
  end.

(** [l += items] on a list object: the object itself is extended *)
Definition list_extend (l : loc) (items : list loc) : M () :=
  old ← get_items l;
  store l (PyList (old ++ items)).

(** [d.setdefault(k, v)] *)
Definition dict_setdefault (d : loc) (k : string) (v : pyvalue) : M () :=
  o ← deref d;
  match o with
  | PyDict entries =>
      match entries !! k with
      | Some _ => mret ()
      | None => store d (PyDict (<[k := v]> entries))
      end
  | _ => raise AttributeError
  end.

Definition get_dict (d : loc) : M (gmap string pyvalue) :=
  o ← deref d;
  match o with
  | PyDict entries => mret entries
  | _ => raise TypeError
  end.

Definition get_array (l : loc) : M (ndarray F) :=
  o ← deref l;
  match o with
  | NdArrayObj a => mret a
  | _ => raise TypeError
  end.

Definition get_parameter (l : loc) : M FitParameter :=
  o ← deref l;
  match o with
  | ParameterObj p => mret p
  | _ => raise AttributeError
  end.

(** Modelled from the spec: the Parameter Container of
    gammapy.utils.fitting that [Model.__init__] builds from the list its
    constructor is given, an ordered, deduplicated aggregation of
    parameters.  Identity is what makes two entries the same parameter:
    each parameter object is kept once, at the place where it first
    occurs, and under the name it has. *)
Definition Parameters_init (parameters : list loc) : list loc :=
  foldl (λ unique p, if decide (p ∈ unique) then unique else unique ++ [p])
    [] parameters.

(** Modelled from the spec: [Model.parameters] of gammapy.utils.fitting
    reads the container back; iterating it or reading its [.parameters]
    yields its entries in order. *)
Definition model_parameters (o : object) : option (list loc) :=
  match o with
  | SpatialModelObj ps _ | SpectralModelObj ps _
  | SkyModelObj _ _ _ ps | SkyDiffuseCubeObj _ _ _ _ ps | SkyModelsObj _ ps
  | BackgroundModelObj _ _ _ _ ps | BackgroundModelsObj _ ps => Some ps
  | _ => None
  end.

Definition get_parameters (l : loc) : M (list loc) :=
  o ← deref l;
  match model_parameters o with
  | Some ps => mret ps
  | None => raise AttributeError
  end.

(** Modelled from the spec: [Parameters.__getitem__] by name (the
    container's name-indexed lookup): the first entry of that name. *)
Fixpoint parameters_getitem (ps : list loc) (name : string) : M FitParameter :=
  match ps with
  | [] => raise IndexError
  | l :: ps' =>
      p ← get_parameter l;
      if decide (par_name p = name) then mret p
      else parameters_getitem ps' name
  end.

(** *** Quantities *)

Definition quantity_mul (a b : Quantity) : outcome Quantity :=
  obind (np_multiply (q_value a) (q_value b)) (λ v,
    Return (mk_quantity v (unit_mul (q_unit a) (q_unit b)))).

Definition quantity_div (a b : Quantity) : outcome Quantity :=
  obind (np_divide (q_value a) (q_value b)) (λ v,
    Return (mk_quantity v (unit_div (q_unit a) (q_unit b)))).

(** [q.to_value(u)] *)
Definition to_value (q : Quantity) (u : U) : outcome (ndarray F) :=
  match unit_to (q_unit q) u with
  | Some s => Return (map_ndarray (λ x, f_mul x s) (q_value q))
  | None => Raise UnitConversionError
  end.

(** [q.to(u)] *)
Definition quantity_to (q : Quantity) (u : U) : outcome Quantity :=
  obind (to_value q u) (λ v, Return (mk_quantity v u)).

(** [out += q] on quantities: [q] is brought to the unit of [out] *)
Definition quantity_iadd (out q : Quantity) : outcome Quantity :=
  obind (to_value q (q_unit out)) (λ v,
  obind (np_iadd (q_value out) v) (λ r,
    Return (mk_quantity r (q_unit out)))).

(** *** Maps (gammapy.maps, outside this module) *)

(** Modelled from the spec: [geom.get_axis_by_name], the axis lookup by
    name of the map contract. *)
Definition get_axis_by_name (geom : MapGeom) (name : string) : outcome MapAxis :=
  match list_find (λ ax, axis_name ax = name) (axes geom) with
  | Some (_, ax) => Return ax
  | None => Raise KeyError
  end.

Definition get_map (l : loc) : M (MapGeom * loc * U) :=
  o ← deref l;
  match o with
  | MapObj geom data unit => mret (geom, data, unit)
  | _ => raise AttributeError
  end.

(** Modelled from the spec: [Map.copy(data=...)], a new map object with
    the same geometry and unit and the data it is given. *)
Definition Map_copy (m : loc) (data : ndarray F) : M loc :=
  '(geom, _, unit) ← get_map m;
  d ← alloc (NdArrayObj data);
  alloc (MapObj geom d unit).

(** Modelled from the spec: [vals += other] on maps, accumulating the
    data of [other] into the data array of [vals]. *)
Definition Map_iadd (vals other : loc) : M loc :=
  '(_, d, _) ← get_map vals;
  '(_, d', _) ← get_map other;
  a ← get_array d;
  b ← get_array d';
  r ← lift (np_iadd a b);
  store d (NdArrayObj r);;
  mret vals.

(** the coordinate record [{"lon": .., "lat": .., "energy": ..}] *)
Record Coord := mk_coord {
  coord_lon : ndarray F;
  coord_lat : ndarray F;
  coord_energy : Quantity;
}.

(** a query point: longitude, latitude, energy and the energy's unit *)
Definition point : Type := F * F * F * U.

(** what the map's interpolator does inside the map's domain, and where
    that domain ends, is left open *)
Class Interpolator := {
  in_domain : MapGeom → point → bool;
  interpolate : MapGeom → ndarray F → option pyvalue → point → F;
}.
Context `{!Interpolator}.

Definition coord_point (coord : Coord) (idx : list nat) : point :=
  (bitem (coord_lon coord) idx, bitem (coord_lat coord) idx,
   bitem (q_value (coord_energy coord)) idx, q_unit (coord_energy coord)).

(** Modelled from the spec: [Map.interp_by_coord(coord, interp,
    fill_value)] of gammapy.maps.  The three coordinate arrays are
    broadcast together; a point outside the map's domain gets the fill
    value when one is configured, every other point is interpolated with
    the configured mode. *)
Definition interp_by_coord (geom : MapGeom) (data : ndarray F) (coord : Coord)
    (interp fill_value : option pyvalue) : outcome (ndarray F) :=
  match broadcast_shapes (shape (coord_lon coord)) (shape (coord_lat coord))
          ≫= broadcast_shapes (shape (q_value (coord_energy coord))) with
  | Some s =>
      Return (mk_ndarray s ((λ idx,
        let pt := coord_point coord idx in
        match fill_value with
        | Some (PyNum x) =>
            if in_domain geom pt then interpolate geom data interp pt else x
        | _ => interpolate geom data interp pt
        end) <$> ndindex s))
  | None => Raise broadcast_error
  end.

(** ** class SkyModels(SkyModelBase) *)

(** the loop of the collections' constructors:
    [for model in models: for p in model.parameters: parameters.append(p)] *)
Fixpoint collect_parameters (models parameters : list loc) : M (list loc) :=
  match models with
  | [] => mret parameters
  | model :: models' =>
      ps ← get_parameters model;
      collect_parameters models' (foldl (λ acc p, acc ++ [p]) parameters ps)
  end.

(** [SkyModels.__init__]: the list object it is given becomes the member
    list *)
Definition SkyModels_init (skymodels : loc) : M loc :=
  items ← get_items skymodels;
  parameters ← collect_parameters items [];
  alloc (SkyModelsObj skymodels (Parameters_init parameters)).

Definition get_skymodels (self : loc) : M loc :=
  o ← deref self;
  match o with
  | SkyModelsObj skymodels _ => mret skymodels
  | _ => raise AttributeError
  end.

(** the two [isinstance] tests of the sky-side operators: the members to
    add when [skymodel] is a [SkyModels], [skymodel] itself when it is a
    [SkyModel] or a [SkyDiffuseCube] *)
Definition sky_operand (skymodel : loc) : M (list loc) :=
  o ← deref skymodel;
  match o with
  | SkyModelsObj skymodels _ => get_items skymodels
  | SkyModelObj _ _ _ _ | SkyDiffuseCubeObj _ _ _ _ _ => mret [skymodel]
  | _ => raise NotImplementedError
  end.

(** [SkyModelBase.__add__] *)
Definition SkyModelBase_add (self skymodel : loc) : M loc :=
  skymodels ← alloc (PyList [self]);
  items ← sky_operand skymodel;
  list_extend skymodels items;;
  SkyModels_init skymodels.

(** [SkyModels.__iadd__] *)
Definition SkyModels_iadd (self skymodel : loc) : M loc :=
  items ← sky_operand skymodel;
  skymodels ← get_skymodels self;
  list_extend skymodels items;;
  mret self.

(** [SkyModels.__add__] *)
Definition SkyModels_add (self skymodel : loc) : M loc :=
  own ← get_skymodels self;
  items ← get_items own;
  skymodels ← alloc (PyList items);
  items' ← sky_operand skymodel;
  list_extend skymodels items';;
  SkyModels_init skymodels.

(** [self.__add__(skymodel)] as Python resolves it: [SkyModels] overrides
    the method of the base class *)
Definition sky_add (self skymodel : loc) : M loc :=
  o ← deref self;
  match o with
  | SkyModelsObj _ _ => SkyModels_add self skymodel
  | SkyModelObj _ _ _ _ | SkyDiffuseCubeObj _ _ _ _ _ =>
      SkyModelBase_add self skymodel
  | _ => raise AttributeError
  end.

(** [SkyModelBase.__radd__], inherited by the three sky classes *)
Definition SkyModelBase_radd (self model : loc) : M loc :=
  sky_add self model.

(** ** class SkyModel(SkyModelBase) *)

(** [SkyModel.__init__] *)
Definition SkyModel_init (spatial_model spectral_model : loc) (name : string)
    : M loc :=
  sp ← get_parameters spatial_model;
  se ← get_parameters spectral_model;
  alloc (SkyModelObj name spatial_model spectral_model
           (Parameters_init (sp ++ se))).

(** the current quantities of a list of parameters *)
Fixpoint parameter_quantities (ps : list loc) : M (list Quantity) :=
  match ps with
  | [] => mret []
  | l :: ps' =>
      p ← get_parameter l;
      qs ← parameter_quantities ps';
      mret (par_quantity p :: qs)
  end.

(** [spatial_model(lon, lat)] *)
Definition call_spatial (model : loc) (lon lat : Quantity) : M Quantity :=
  o ← deref model;
  match o with
  | SpatialModelObj ps evaluate =>
      qs ← parameter_quantities ps;
      lift (evaluate qs lon lat)
  | _ => raise TypeError
  end.

(** [spectral_model(energy)] *)
Definition call_spectral (model : loc) (energy : Quantity) : M Quantity :=
  o ← deref model;
  match o with
  | SpectralModelObj ps evaluate =>
      qs ← parameter_quantities ps;
      lift (evaluate qs energy)
  | _ => raise TypeError
  end.

(** [SkyModel.evaluate] *)
Definition SkyModel_evaluate (self : loc) (lon lat energy : Quantity)
    : M Quantity :=
  o ← deref self;
  match o with
  | SkyModelObj _ spatial_model spectral_model _ =>
      val_spatial ← call_spatial spatial_model lon lat;
      val_spectral ← call_spectral spectral_model energy;
      lift (quantity_mul val_spatial val_spectral)
  | _ => raise AttributeError
  end.

(** ** class SkyDiffuseCube(SkyModelBase) *)

Definition dquote : string := String (Ascii.ascii_of_nat 34) EmptyString.

Definition center_error : exn :=
  ValueError ("Need a map with energy axis node_type=" +:+ dquote +:+
              "center" +:+ dquote).

(** [SkyDiffuseCube.__init__]; [None] for [meta] and [interp_kwargs] is
    the default argument *)
Definition SkyDiffuseCube_init (map : loc) (norm : F)
    (meta interp_kwargs : option loc) : M loc :=
  '(geom, _, _) ← get_map map;
  axis ← lift (get_axis_by_name geom "energy");
  if decide (node_type axis ≠ "center") then raise center_error
  else
    norm ← alloc (ParameterObj
              (mk_parameter "norm" norm dimensionless None None false));
    meta ← match meta with
           | None => alloc (PyDict ∅)
           | Some meta => mret meta
           end;
    interp_kwargs ← match interp_kwargs with
                    | None => alloc (PyDict ∅)
                    | Some interp_kwargs => mret interp_kwargs
                    end;
    dict_setdefault interp_kwargs "interp" (PyStr "linear");;
    dict_setdefault interp_kwargs "fill_value" (PyNum f_zero);;
    alloc (SkyDiffuseCubeObj map norm meta interp_kwargs
             (Parameters_init [norm])).

(** [SkyDiffuseCube.evaluate] *)
Definition SkyDiffuseCube_evaluate (self : loc) (lon lat energy : Quantity)
    : M Quantity :=
  o ← deref self;
  match o with
  | SkyDiffuseCubeObj map _ _ interp_kwargs parameters =>
      lon_deg ← lift (to_value lon deg);
      lat_deg ← lift (to_value lat deg);
      let coord := mk_coord lon_deg lat_deg energy in
      '(geom, d, unit) ← get_map map;
      data ← get_array d;
      kwargs ← get_dict interp_kwargs;
      val ← lift (interp_by_coord geom data coord
                    (kwargs !! "interp") (kwargs !! "fill_value"));
      norm ← parameters_getitem parameters "norm";
      mret (mk_quantity (map_ndarray (f_mul (par_value norm)) val) unit)
  | _ => raise AttributeError
  end.

(** ** [SkyModels.evaluate], with the dispatch of [skymodel.evaluate] on
    the class of the member.  [depth] is the room left on the call stack:
    a collection nested deeper than that ends in a [RecursionError]. *)

Fixpoint accumulate (evaluate : loc → M Quantity) (skymodels : list loc)
    (out : Quantity) : M Quantity :=
  match skymodels with
  | [] => mret out
  | skymodel :: skymodels' =>
      val ← evaluate skymodel;
      out ← lift (quantity_iadd out val);
      accumulate evaluate skymodels' out
  end.

Definition SkyModels_evaluate_with (evaluate : loc → M Quantity) (self : loc)
    : M Quantity :=
  skymodels ← get_skymodels self;
  items ← get_items skymodels;
  match items with
  | [] => raise IndexError
  | first :: rest =>
      out ← evaluate first;
      accumulate evaluate rest out
  end.

Fixpoint sky_evaluate (depth : nat) (lon lat energy : Quantity) (model : loc)
    : M Quantity :=
  match depth with
  | 0 => raise RecursionError
  | S depth' =>
      o ← deref model;
      match o with
      | SkyModelObj _ _ _ _ => SkyModel_evaluate model lon lat energy
      | SkyDiffuseCubeObj _ _ _ _ _ =>
          SkyDiffuseCube_evaluate model lon lat energy
      | SkyModelsObj _ _ =>
          SkyModels_evaluate_with (sky_evaluate depth' lon lat energy) model
      | BackgroundModelObj _ _ _ _ _ | BackgroundModelsObj _ _ =>
          raise TypeError
      | _ => raise AttributeError
      end
  end.

Definition SkyModels_evaluate (depth : nat) (self : loc)
    (lon lat energy : Quantity) : M Quantity :=
  SkyModels_evaluate_with (sky_evaluate depth lon lat energy) self.

(** ** class BackgroundModel(Model) *)

Definition edges_error : exn :=
  ValueError ("Need an integrated map, energy axis node_type=" +:+ dquote +:+
              "edges" +:+ dquote).

(** [BackgroundModel.__init__]; [reference] is the quantity the
    constructor's argument denotes ("1 TeV" by default) *)
Definition BackgroundModel_init (background : loc) (norm tilt : F)
    (reference : F * U) : M loc :=
  '(geom, _, _) ← get_map background;
  axis ← lift (get_axis_by_name geom "energy");
  if decide (node_type axis ≠ "edges") then raise edges_error
  else
    norm ← alloc (ParameterObj
              (mk_parameter "norm" norm dimensionless (Some f_zero) None false));
    tilt ← alloc (ParameterObj
              (mk_parameter "tilt" tilt dimensionless None None true));
    reference ← alloc (ParameterObj
              (mk_parameter "reference" reference.1 reference.2 None None true));
    alloc (BackgroundModelObj background norm tilt reference
             (Parameters_init [norm; tilt; reference])).

Definition get_background (self : loc) : M (loc * list loc) :=
  o ← deref self;
  match o with
  | BackgroundModelObj map _ _ _ parameters => mret (map, parameters)
  | _ => raise AttributeError
  end.

(** [BackgroundModel.energy_center] *)
Definition energy_center (self : loc) : M Quantity :=
  '(map, _) ← get_background self;
  '(geom, _, _) ← get_map map;
  energy_axis ← lift (get_axis_by_name geom "energy");
  let energy :=
    mk_quantity (array1 (axis_center energy_axis)) (axis_unit energy_axis) in
  mret (mk_quantity (newaxis2 (q_value energy)) (q_unit energy)).

(** [BackgroundModel.evaluate] *)
Definition BackgroundModel_evaluate (self : loc) : M loc :=
  '(map, parameters) ← get_background self;
  norm ← parameters_getitem parameters "norm";
  tilt ← parameters_getitem parameters "tilt";
  reference ← parameters_getitem parameters "reference";
  center ← energy_center self;
  ratio ← lift (quantity_div center (par_quantity reference));
  ratio ← lift (quantity_to ratio dimensionless);
  let tilt_factor :=
    map_ndarray (λ x, f_pow x (f_neg (par_value tilt))) (q_value ratio) in
  '(_, d, _) ← get_map map;
  data ← get_array d;
  back_values ←
    lift (np_multiply (map_ndarray (f_mul (par_value norm)) data) tilt_factor);
  Map_copy map back_values.

(** ** class BackgroundModels(Model) *)

(** [BackgroundModels.__init__] *)
Definition BackgroundModels_init (models : loc) : M loc :=
  items ← get_items models;
  parameters ← collect_parameters items [];
  alloc (BackgroundModelsObj models (Parameters_init parameters)).

Definition get_models (self : loc) : M loc :=
  o ← deref self;
  match o with
  | BackgroundModelsObj models _ => mret models
  | _ => raise AttributeError
  end.

(** the two [isinstance] tests of the background-side operators *)
Definition background_operand (model : loc) : M (list loc) :=
  o ← deref model;
  match o with
  | BackgroundModelsObj models _ => get_items models
  | BackgroundModelObj _ _ _ _ _ => mret [model]
  | _ => raise NotImplementedError
  end.

(** [BackgroundModel.__add__] *)
Definition BackgroundModel_add (self model : loc) : M loc :=
  models ← alloc (PyList [self]);
  items ← background_operand model;
  list_extend models items;;
  BackgroundModels_init models.

(** [BackgroundModels.__iadd__] *)
Definition BackgroundModels_iadd (self model : loc) : M loc :=
  items ← background_operand model;
  models ← get_models self;
  list_extend models items;;
  mret self.

(** *** Deep copies *)

(** the objects an object holds, slot after slot *)
Definition references (o : object) : list loc :=
  match o with
  | PyList items => items
  | MapObj _ data _ => [data]
  | SpatialModelObj parameters _ | SpectralModelObj parameters _ => parameters
  | SkyModelObj _ spatial_model spectral_model parameters =>
      spatial_model :: spectral_model :: parameters
  | SkyDiffuseCubeObj map norm meta interp_kwargs parameters =>
      map :: norm :: meta :: interp_kwargs :: parameters
  | SkyModelsObj models parameters | BackgroundModelsObj models parameters =>
      models :: parameters
  | BackgroundModelObj map norm tilt reference parameters =>
      map :: norm :: tilt :: reference :: parameters
  | PyDict _ | NdArrayObj _ | ParameterObj _ | OtherObj => []
  end.

(** an object of the same class and the same values, holding the objects
    [rs] in its slots *)
Definition with_references (o : object) (rs : list loc) : object :=
  match o, rs with
  | PyList _, _ => PyList rs
  | MapObj geom _ unit, [data] => MapObj geom data unit
  | SpatialModelObj _ evaluate, _ => SpatialModelObj rs evaluate
  | SpectralModelObj _ evaluate, _ => SpectralModelObj rs evaluate
  | SkyModelObj name _ _ _, spatial_model :: spectral_model :: parameters =>
      SkyModelObj name spatial_model spectral_model parameters
  | SkyDiffuseCubeObj _ _ _ _ _,
    map :: norm :: meta :: interp_kwargs :: parameters =>
      SkyDiffuseCubeObj map norm meta interp_kwargs parameters
  | SkyModelsObj _ _, models :: parameters => SkyModelsObj models parameters
  | BackgroundModelsObj _ _, models :: parameters =>
      BackgroundModelsObj models parameters
  | BackgroundModelObj _ _ _ _ _,
    map :: norm :: tilt :: reference :: parameters =>
      BackgroundModelObj map norm tilt reference parameters
  | _, _ => o
  end.

(** the copies of the objects [xs], one after the other *)
Fixpoint deepcopy_all (copy : loc → gmap loc loc → M (loc * gmap loc loc))
    (xs : list loc) (memo : gmap loc loc) : M (list loc * gmap loc loc) :=
  match xs with
  | [] => mret ([], memo)
  | x :: xs' =>
      '(y, memo) ← copy x memo;
      '(ys, memo) ← deepcopy_all copy xs' memo;
      mret (y :: ys, memo)
  end.

(** [copy.deepcopy(x, memo)]: an object that has a copy in [memo] is
    given that copy; otherwise a new object is made and entered in
    [memo], the objects [x] holds are copied in turn, and the new object
    is filled with their copies.  [fuel] bounds the nesting of the calls;
    each call that goes on enters one more object in [memo]. *)
Fixpoint deepcopy (fuel : nat) (x : loc) (memo : gmap loc loc)
    : M (loc * gmap loc loc) :=
  match memo !! x with
  | Some y => mret (y, memo)
  | None =>
      match fuel with
      | 0 => raise RecursionError
      | S fuel' =>
          o ← deref x;
          y ← alloc OtherObj;
          '(rs, memo) ←
            deepcopy_all (deepcopy fuel') (references o) (<[x := y]> memo);
          store y (with_references o rs);;
          mret (y, memo)
      end
  end.

(** Modelled from the spec: [Model.copy] of gammapy.utils.fitting, outside
    this module: a deep copy of the model, [copy.deepcopy(self)].  The
    copy is a new object that holds copies of everything the model holds
    (for a collection its member list, the members, their maps and their
    parameters), an object that is held twice being copied once.  The
    fuel is one more than the number of objects of the arena, which the
    nesting of the calls does not exceed. *)
Definition Model_copy (self : loc) : M loc := λ h,
  ('(y, _) ← deepcopy (S (length h)) self ∅; mret y) h.

(** [BackgroundModels.__add__] *)
Definition BackgroundModels_add (self model : loc) : M loc :=
  model_ ← Model_copy self;
  BackgroundModels_iadd model_ model.

(** the loop of [BackgroundModels.evaluate]:
    [for idx, model in enumerate(self.models)]; [vals] is [None] as long
    as the local variable is unbound *)
Fixpoint accumulate_maps (evaluate : loc → M loc) (idx : nat)
    (models : list loc) (vals : option loc) : M (option loc) :=
  match models with
  | [] => mret vals
  | model :: models' =>
      vals ← (if decide (idx = 0) then evaluate model
              else
                match vals with
                | Some vals => other ← evaluate model; Map_iadd vals other
                | None => raise UnboundLocalError
                end);
      accumulate_maps evaluate (S idx) models' (Some vals)
  end.

Definition BackgroundModels_evaluate_with (evaluate : loc → M loc)
    (self : loc) : M loc :=
  models ← get_models self;
  items ← get_items models;
  vals ← accumulate_maps evaluate 0 items None;
  match vals with
  | Some vals => mret vals
  | None => raise UnboundLocalError
  end.

(** [model.evaluate()] on a member, by its class *)
Fixpoint background_evaluate (depth : nat) (model : loc) : M loc :=
  match depth with
  | 0 => raise RecursionError
  | S depth' =>
      o ← deref model;
      match o with
      | BackgroundModelObj _ _ _ _ _ => BackgroundModel_evaluate model
      | BackgroundModelsObj _ _ =>
          BackgroundModels_evaluate_with (background_evaluate depth') model
      | SkyModelObj _ _ _ _ | SkyDiffuseCubeObj _ _ _ _ _ | SkyModelsObj _ _ =>
          raise TypeError
      | _ => raise AttributeError
      end
  end.

(** [BackgroundModels.evaluate] *)
Definition BackgroundModels_evaluate (depth : nat) (self : loc) : M loc :=
  BackgroundModels_evaluate_with (background_evaluate depth) self.

(** ** Reading the arena *)

(** the member list of a collection, as a list of addresses *)
Definition members (h : list object) (c : loc) : option (list loc) :=
  match h !! c with
  | Some (SkyModelsObj l _) | Some (BackgroundModelsObj l _) =>
      match h !! l with
      | Some (PyList items) => Some items
      | _ => None
      end
  | _ => None
  end.

(** what an operand of the sky-side operators contributes: a leaf counts
    as its own single member *)
Definition sky_members (h : list object) (x : loc) : option (list loc) :=
  match h !! x with
  | Some (SkyModelObj _ _ _ _) | Some (SkyDiffuseCubeObj _ _ _ _ _) => Some [x]
  | Some (SkyModelsObj _ _) => members h x
  | _ => None
  end.

Definition background_members (h : list object) (x : loc)
    : option (list loc) :=
  match h !! x with
  | Some (BackgroundModelObj _ _ _ _ _) => Some [x]
  | Some (BackgroundModelsObj _ _) => members h x
  | _ => None
  end.

(** the aggregated parameter list of a model *)
Definition parameters_of (h : list object) (m : loc) : option (list loc) :=
  h !! m ≫= model_parameters.

(** the concatenation of the members' parameter lists, in member order:
    what the constructor of a collection hands to the container *)
Definition concat_parameters (h : list object) (items : list loc)
    : option (list loc) :=
  mjoin <$> mapM (parameters_of h) items.

(** the aggregation invariant of a collection: its parameter list is
    the container of the concatenation of its current members' parameter
    lists *)
Definition aggregated (h : list object) (c : loc) : Prop :=
  match members h c with
  | Some items =>
      is_Some (parameters_of h c) ∧
      parameters_of h c = Parameters_init <$> concat_parameters h items
  | None => False
  end.

Definition is_model (h : list object) (m : loc) : Prop :=
  is_Some (parameters_of h m).

Definition is_sky_leaf (h : list object) (m : loc) : Prop :=
  match h !! m with
  | Some (SkyModelObj _ _ _ _) | Some (SkyDiffuseCubeObj _ _ _ _ _) => True
  | _ => False
  end.

Definition is_background_leaf (h : list object) (m : loc) : Prop :=
  match h !! m with
  | Some (BackgroundModelObj _ _ _ _ _) => True
  | _ => False
  end.

Definition is_sky_collection (h : list object) (c : loc) : Prop :=
  match h !! c with
  | Some (SkyModelsObj _ _) => True
  | _ => False
  end.

Definition is_background_collection (h : list object) (c : loc) : Prop :=
  match h !! c with
  | Some (BackgroundModelsObj _ _) => True
  | _ => False
  end.

(** an arena whose objects hold objects of the arena only *)
Definition closed (h : list object) : Prop :=
  Forall (λ o, Forall (λ r, r < length h) (references o)) h.

#[export] Instance closed_dec (h : list object) : Decision (closed h).
Proof. unfold closed. apply _. Defined.

(** [σ] sends objects of [h] to deep copies of them in [h']: new objects
    of the same class and values, which hold the copies of what the
    originals hold; two objects have two copies *)
Definition deep_copies (h h' : list object) (σ : gmap loc loc) : Prop :=
  (∀ x y, σ !! x = Some y →
     length h ≤ y ∧
     ∃ o rs, h !! x = Some o ∧ h' !! y = Some (with_references o rs) ∧
             Forall2 (λ r r', σ !! r = Some r') (references o) rs) ∧
  (∀ x x' y, σ !! x = Some y → σ !! x' = Some y → x = x').

(** a deep copy of objects of [h0] under way in [h]: [memo] holds the
    copies made so far, all of them new and no two the same; the copy of
    an object outside [pending] is filled already *)
Definition copying (h0 h : list object) (memo : gmap loc loc)
    (pending : loc → Prop) : Prop :=
  h0 `prefix_of` h ∧
  (∀ x y, memo !! x = Some y → x < length h0 ∧ length h0 ≤ y < length h) ∧
  (∀ x x' y, memo !! x = Some y → memo !! x' = Some y → x = x') ∧
  (∀ x y, memo !! x = Some y →
     pending x ∨
     ∃ o rs, h0 !! x = Some o ∧ h !! y = Some (with_references o rs) ∧
             Forall2 (λ r r', memo !! r = Some r') (references o) rs).


(** the outcome [r] of an operator run in [h] is a new collection of the
    given family with member list [items], its parameters aggregated, and
    nothing that was in [h] has changed *)
Definition yields_collection (family : list object → loc → Prop)
    (r : outcome loc * list object) (h : list object) (items : list loc)
    : Prop :=
  ∃ c h', r = (Return c, h') ∧ h !! c = None ∧ h `prefix_of` h' ∧
          family h' c ∧ members h' c = Some items ∧ aggregated h' c.

(** [a.data[idx] = v] through a map object: a write into its data
    array *)
Definition Map_setitem (m : loc) (idx : list nat) (v : F) : M () :=
  '(_, d, _) ← get_map m;
  a ← get_array d;
  store d (NdArrayObj
    (mk_ndarray (shape a) (<[offset (shape a) idx := v]> (buffer a)))).

(** the data array of a map *)
Definition map_data (h : list object) (m : loc) : option (ndarray F) :=
  match h !! m with
  | Some (MapObj _ d _) =>
      match h !! d with
      | Some (NdArrayObj a) => Some a
      | _ => None
      end
  | _ => None
  end.

Definition parameter_value (h : list object) (p : loc) : option F :=
  match h !! p with
  | Some (ParameterObj p) => Some (par_value p)
  | _ => None
  end.
End objects.

(** ** Further methods and observers *)

Section more_methods.
Context {F U : Type} `{Scalar F} `{Units F U} `{!Interpolator (F:=F) (U:=U)}.
#[local] Abbreviation Meth := (M (F:=F) (U:=U)).
#[local] Abbreviation arena := (list (object (F:=F) (U:=U))).

(** [SkyDiffuseCube.copy]: [copy.copy(self)], a new object with the slots
    of [self] *)
Definition SkyDiffuseCube_copy (self : loc) : Meth loc :=
  o ← deref self;
  match o with
  | SkyDiffuseCubeObj _ _ _ _ _ => alloc o
  | _ => raise AttributeError
  end.

(** [SkyDiffuseCube.read], from the map object [m] that [Map.read] has
    returned; [default_unit] is the unit "cm-2 s-1 MeV-1 sr-1".  The class
    is then called with the map alone: norm 1, no meta, no keyword
    dictionary. *)
Definition SkyDiffuseCube_read `{EqDecision U} (default_unit : U) (m : loc)
    : Meth loc :=
  '(geom, d, unit) ← get_map m;
  (if decide (unit = dimensionless)
   then store m (MapObj geom d default_unit)
   else mret ());;
  SkyDiffuseCube_init m f_one None None.

(** Modelled from the spec: assignment to the value of a [Parameter]
    (gammapy.utils.fitting), seen through every container that holds
    the parameter. *)
Definition Parameter_set_value (p : loc) (v : F) : Meth () :=
  par ← get_parameter p;
  store p (ParameterObj
    (mk_parameter (par_name par) v (par_unit par)
                  (par_min par) (par_max par) (par_frozen par))).

(** [out += q] for each [q] in turn, as long as none fails *)
Definition accumulate_quantities (out : Quantity (F:=F) (U:=U))
    (qs : list (Quantity (F:=F) (U:=U))) : outcome (Quantity (F:=F) (U:=U)) :=
  foldl (λ acc q, obind acc (λ out, quantity_iadd out q)) (Return out) qs.

(** a method that only reads the arena: whatever its outcome, the arena
    it leaves is the one it found *)
Definition reads {A} (m : Meth A) : Prop :=
  ∀ h o h', m h = (o, h') → h' = h.

(** an operand the sky-side operators do not know: an object that is
    neither a [SkyModels] nor a [SkyModel] nor a [SkyDiffuseCube] *)
Definition not_sky (h : arena) (x : loc) : Prop :=
  match h !! x with
  | Some (SkyModelsObj _ _) | Some (SkyModelObj _ _ _ _)
  | Some (SkyDiffuseCubeObj _ _ _ _ _) | None => False
  | Some _ => True
  end.

Definition not_background (h : arena) (x : loc) : Prop :=
  match h !! x with
  | Some (BackgroundModelsObj _ _) | Some (BackgroundModelObj _ _ _ _ _)
  | None => False
  | Some _ => True
  end.



(** the unit of a map *)
Definition map_unit (h : arena) (m : loc) : option U :=
  match h !! m with
  | Some (MapObj _ _ unit) => Some unit
  | _ => None
  end.
End more_methods.

(** ** A concrete instance: integer scalars, units as exponents

    A unit is the pair of the exponents of energy and of angle; two units
    convert into each other, with factor 1, when they are equal. *)

#[export] Instance Z_scalar : Scalar Z :=
  {| f_zero := 0%Z; f_one := 1%Z; f_add := Z.add; f_mul := Z.mul;
     f_div := Z.div; f_pow := Z.pow; f_neg := Z.opp |}.

#[export] Instance Z_units : Units Z (Z * Z) :=
  {| dimensionless := (0, 0)%Z; deg := (0, 1)%Z;
     unit_mul := λ u v, (u.1 + v.1, u.2 + v.2)%Z;
     unit_div := λ u v, (u.1 - v.1, u.2 - v.2)%Z;
     unit_to := λ u v, if decide (u = v) then Some 1%Z else None |}.

(** a map whose domain is the longitudes 0 to 1, and which reads 7
    everywhere inside *)
#[export] Instance Z_interpolator : Interpolator (F:=Z) (U:=Z*Z) :=
  {| in_domain := λ _ pt, (0 <=? pt.1.1.1)%Z && (pt.1.1.1 <=? 1)%Z;
     interpolate := λ _ _ _ _, 7%Z |}.

#[export] Instance Z_scalar_laws : ScalarLaws Z.
Proof. split; intros x; cbn; [reflexivity | apply Z.mul_1_r]. Qed.

Module Example.

Abbreviation quantity := (Quantity (F:=Z) (U:=Z*Z)).
Abbreviation arena := (list (object (F:=Z) (U:=Z*Z))).

Definition TeV : Z * Z := (1, 0)%Z.

Definition edges_geom : MapGeom (F:=Z) :=
  mk_geom [mk_axis "energy" "edges" TeV [1; 10]%Z].

Definition center_geom : MapGeom (F:=Z) :=
  mk_geom [mk_axis "energy" "center" TeV [1; 10]%Z].

(** a spatial model of uniform density 2 per square degree over two
    positions, and a flat spectrum of flux 3 over two energies *)
Definition uniform (qs : list quantity) (lon lat : quantity)
    : outcome quantity :=
  Return (mk_quantity (mk_ndarray [2] [2; 2]%Z) (0, -2)%Z).

Definition flat (qs : list quantity) (energy : quantity)
    : outcome quantity :=
  Return (mk_quantity (mk_ndarray [2; 1] [3; 3]%Z) (-1, 0)%Z).

(** a spectrum over three energies, which does not fit two positions *)
Definition flat3 (qs : list quantity) (energy : quantity)
    : outcome quantity :=
  Return (mk_quantity (mk_ndarray [3] [3; 3; 3]%Z) (-1, 0)%Z).

(** the arena before any model is built: an integrated map (0) and a
    template map (2) with their arrays, two parameters, a spatial model
    (6), two spectral models (7, 8) *)
Definition base : arena :=
  [ MapObj edges_geom 1 (0, 0)%Z;
    NdArrayObj (mk_ndarray [2; 1; 2] [1; 2; 3; 4]%Z);
    MapObj center_geom 3 (-1, -2)%Z;
    NdArrayObj (mk_ndarray [2; 1; 2] [5; 6; 7; 8]%Z);
    ParameterObj (mk_parameter "lon_0" 0%Z (0, 1)%Z None None false);
    ParameterObj (mk_parameter "amplitude" 3%Z (-1, 0)%Z None None false);
    SpatialModelObj [4] uniform;
    SpectralModelObj [5] flat;
    SpectralModelObj [5] flat3 ].

(** the arena a method leaves, whatever its outcome *)
Definition after {A} (m : M (F:=Z) (U:=Z*Z) A)
    (h : arena) : arena :=
  (m h).2.

(** two factorised sky models (9, 10) and a template cube (14) *)
Definition sky : arena :=
  Eval vm_compute in
    after (SkyModel_init 6 7 "a";; SkyModel_init 6 8 "b";;
           SkyDiffuseCube_init 2 1%Z None None) base.

(** two background models (12, 16) on the integrated map, the first with
    tilt 0 and the second with tilt -1 *)
Definition background : arena :=
  Eval vm_compute in
    after (BackgroundModel_init 0 2%Z 0%Z (1%Z, TeV);;
           BackgroundModel_init 0 3%Z (-1)%Z (1%Z, TeV)) base.

(** the collection [SkyModels([a])] (16, its member list at 15) *)
Definition sky_collection : arena :=
  Eval vm_compute in
    after (l ← alloc (PyList [9]); SkyModels_init l) sky.

(** the collection [BackgroundModels([12])] (18, its member list at 17) *)
Definition background_collection : arena :=
  Eval vm_compute in
    after (l ← alloc (PyList [12]); BackgroundModels_init l) background.

(** the member list [[9; 10; 14]] (15), not yet in a collection *)
Definition sky_list : arena := sky ++ [PyList [9; 10; 14]].

(** an empty [SkyModels] (10) and an empty [BackgroundModels] (12) *)
Definition empty : arena :=
  Eval vm_compute in
    after (l ← alloc (PyList []); SkyModels_init l;;
           l' ← alloc (PyList []); BackgroundModels_init l') base.

(** sky and background models side by side: on top of [sky_collection], a
    background model (20) and the collection [BackgroundModels([20])]
    (22, its member list at 21) *)
Definition mixed : arena :=
  Eval vm_compute in
    after (b ← BackgroundModel_init 0 2%Z 0%Z (1%Z, TeV);
           l ← alloc (PyList [b]); BackgroundModels_init l) sky_collection.

(** the collection [SkyModels([a, cube])] (16, its member list at 15) *)
Definition sky_pair : arena :=
  Eval vm_compute in
    after (l ← alloc (PyList [9; 14]); SkyModels_init l) sky.


(** the member list [[12; 16]] of background models (17), not yet in a
    collection *)
Definition background_list : arena := background ++ [PyList [12; 16]].

(** a list (15) with the integrated map between two sky models *)
Definition broken_list : arena := sky ++ [PyList [9; 0; 10]].

(** a keyword dictionary of the caller (9), asking for nearest-neighbour
    interpolation *)
Definition with_kwargs : arena :=
  base ++ [PyDict {[ "interp" := PyStr "nearest" ]}].

(** a template map that was read without a unit (0) *)
Definition unitless : arena :=
  [ MapObj center_geom 1 (0, 0)%Z;
    NdArrayObj (mk_ndarray [2; 1; 2] [5; 6; 7; 8]%Z) ].

(** the unit "cm-2 s-1 MeV-1 sr-1" in the example's units *)
Definition default_unit : Z * Z := (-1, -2)%Z.

(** a query point: two positions, two energies *)
Definition lon : quantity :=
  mk_quantity (mk_ndarray [2] [0; 1]%Z) (0, 1)%Z.
Definition lat : quantity :=
  mk_quantity (mk_ndarray [2] [0; 0]%Z) (0, 1)%Z.
Definition energy : quantity :=
  mk_quantity (mk_ndarray [2; 1] [1; 10]%Z) TeV.

(** two positions, the second one off the map *)
Definition lon_far : quantity :=
  mk_quantity (mk_ndarray [2] [0; 5]%Z) (0, 1)%Z.

End Example.

(** * Properties *)

(** ** Arrays and broadcasting *)

Section ndarray_facts.
Context {F : Type} `{Scalar F}.
Implicit Types (s idx : list nat) (a b : ndarray F).

Lemma length_ndindex s : length (ndindex s) = size s.
Proof.
  induction s as [|n s IH]; [done|]. cbn [ndindex size foldr].
  fold (size s). generalize 0 as k.
  induction n as [|n IHn]; intros k; [done|].
  cbn [seq]. rewrite bind_cons, length_app, length_fmap, IH, IHn. lia.
Qed.

Lemma in_range_length s idx : in_range s idx → length idx = length s.
Proof.
  revert idx; induction s as [|n s IH]; intros [|i idx]; cbn; try tauto.
  intros [_ ?]. f_equal. auto.
Qed.

Lemma offset_lt s idx : in_range s idx → offset s idx < size s.
Proof.
  revert idx; induction s as [|n s IH]; intros [|i idx]; cbn; try tauto.
  - lia.
  - intros [Hi Hr]. specialize (IH _ Hr). fold (size s). nia.
Qed.

Lemma ndindex_cons_lookup n k s i idx :
  i < n → in_range s idx →
  (∀ idx', in_range s idx' → ndindex s !! offset s idx' = Some idx') →
  (j ← seq k n; (j ::.) <$> ndindex s) !! (i * size s + offset s idx)
  = Some ((k + i) :: idx).
Proof.
  intros Hi Hr IH. revert k i Hi.
  induction n as [|n IHn]; intros k i Hi; [lia|].
  cbn [seq]. rewrite bind_cons.
  pose proof (offset_lt _ _ Hr) as Hlt.
  destruct i as [|i].
  - rewrite lookup_app_l by (rewrite length_fmap, length_ndindex; lia).
    rewrite list_lookup_fmap, Nat.mul_0_l, Nat.add_0_l, (IH _ Hr).
    cbn. by rewrite Nat.add_0_r.
  - rewrite lookup_app_r by (rewrite length_fmap, length_ndindex; lia).
    rewrite length_fmap, length_ndindex.
    replace (S i * size s + offset s idx - size s)
      with (i * size s + offset s idx) by lia.
    rewrite IHn by lia. do 2 f_equal. lia.
Qed.

Lemma ndindex_lookup s idx :
  in_range s idx → ndindex s !! offset s idx = Some idx.
Proof.
  revert idx; induction s as [|n s IH]; intros [|i idx]; cbn [in_range];
    try tauto.
  intros [Hi Hr]. cbn [ndindex offset].
  by rewrite (ndindex_cons_lookup n 0 s i idx Hi Hr IH).
Qed.

(** reading a computed buffer back at an index *)
Lemma item_tabulate s (g : list nat → F) idx :
  in_range s idx → item (mk_ndarray s (g <$> ndindex s)) idx = g idx.
Proof.
  intros Hr. unfold item; cbn [shape buffer].
  apply nth_lookup_Some. rewrite list_lookup_fmap.
  by rewrite (ndindex_lookup _ _ Hr).
Qed.

Lemma item_broadcast2 f a b r idx :
  broadcast2 f a b = Return r → in_range (shape r) idx →
  item r idx = f (bitem a idx) (bitem b idx).
Proof.
  unfold broadcast2. destruct (broadcast_shapes _ _) as [s|]; [|done].
  intros [= <-]; cbn [shape]. apply item_tabulate.
Qed.

Lemma broadcast2_shape f a b r :
  broadcast2 f a b = Return r →
  broadcast_shapes (shape a) (shape b) = Some (shape r).
Proof.
  unfold broadcast2. destruct (broadcast_shapes _ _) as [s|]; [|done].
  by intros [= <-].
Qed.

(** shapes that do not fit raise numpy's broadcasting error *)
Lemma broadcast2_error f a b :
  broadcast_shapes (shape a) (shape b) = None →
  broadcast2 f a b = Raise broadcast_error.
Proof. unfold broadcast2. by intros ->. Qed.

Lemma broadcast_index_in_range s idx :
  in_range s idx → broadcast_index s idx = idx.
Proof.
  intros Hr. unfold broadcast_index.
  rewrite (in_range_length _ _ Hr), Nat.sub_diag, drop_0.
  revert idx Hr; induction s as [|n s IH]; intros [|i idx]; cbn [in_range];
    try tauto.
  intros [Hi Hr]. cbn [zip_with]. rewrite (IH _ Hr). case_decide; [|done].
  f_equal; lia.
Qed.

Lemma bitem_in_range a idx : in_range (shape a) idx → bitem a idx = item a idx.
Proof. intros Hr. unfold bitem. by rewrite broadcast_index_in_range. Qed.

Lemma bitem_scalar x idx : bitem (scalar x) idx = x.
Proof. reflexivity. Qed.

(** the buffer of a well-formed array lists its items in index order *)
Lemma tabulate_items_aux s (l : list F) base :
  base + size s ≤ length l →
  (λ idx, nth (base + offset s idx) l f_zero) <$> ndindex s
  = take (size s) (drop base l).
Proof.
  revert base; induction s as [|n s IH]; intros base Hlen.
  - cbn in *. rewrite Nat.add_0_r.
    destruct (drop base l) as [|x l'] eqn:Hd.
    { apply (f_equal length) in Hd. rewrite length_drop in Hd. cbn in Hd. lia. }
    cbn. rewrite take_0. f_equal.
    apply nth_lookup_Some. by rewrite <-(Nat.add_0_r base), <-lookup_drop, Hd.
  - cbn [ndindex size foldr] in *. fold (size s) in *.
    assert (Hgen : ∀ k m, base + (k + m) * size s ≤ length l →
      (λ idx, nth (base + offset (n :: s) idx) l f_zero) <$>
        (i ← seq k m; (i ::.) <$> ndindex s)
      = take (m * size s) (drop (base + k * size s) l)).
    { intros k m; revert k; induction m as [|m IHm]; intros k Hk; [done|].
      cbn [seq]. rewrite bind_cons, fmap_app, IHm by lia.
      rewrite <-list_fmap_compose.
      erewrite (list_fmap_ext _ (λ idx, nth (base + k * size s + offset s idx) l f_zero));
        [|intros ? idx' _; cbn; f_equal; lia].
      rewrite IH by nia.
      replace (S m * size s) with (size s + m * size s) by lia.
      rewrite <-take_take_drop, drop_drop. do 3 f_equal. lia. }
    specialize (Hgen 0 n). rewrite Nat.add_0_r in Hgen. apply Hgen. lia.
Qed.

Lemma tabulate_items a :
  wf_ndarray a → item a <$> ndindex (shape a) = buffer a.
Proof.
  intros Hwf.
  pose proof (tabulate_items_aux (shape a) (buffer a) 0) as Haux.
  cbn in Haux. unfold item. rewrite Haux by (rewrite Hwf; lia).
  rewrite drop_0, <-Hwf. apply firstn_all.
Qed.

Lemma ndindex_in_range s idx : idx ∈ ndindex s → in_range s idx.
Proof.
  revert idx; induction s as [|n s IH]; intros idx; cbn [ndindex].
  - by intros ->%list_elem_of_singleton.
  - intros (i & (idx' & -> & Hidx')%list_elem_of_fmap & Hi%elem_of_seq)%list_elem_of_bind.
    split; [lia | by apply IH].
Qed.

Lemma wf_tabulate s (g : list nat → F) : wf_ndarray (mk_ndarray s (g <$> ndindex s)).
Proof. unfold wf_ndarray; cbn. by rewrite length_fmap, length_ndindex. Qed.

Lemma wf_map_ndarray f a : wf_ndarray a → wf_ndarray (map_ndarray f a).
Proof. unfold wf_ndarray; cbn. by rewrite length_fmap. Qed.

Lemma item_map_ndarray f a idx :
  wf_ndarray a → in_range (shape a) idx →
  item (map_ndarray f a) idx = f (item a idx).
Proof.
  intros Hwf Hr. unfold item; cbn [map_ndarray shape buffer].
  pose proof (offset_lt _ _ Hr) as Hlt. rewrite <-Hwf in Hlt.
  destruct (lookup_lt_is_Some_2 _ _ Hlt) as [x Hx].
  rewrite (nth_lookup_Some _ _ _ _ Hx).
  apply nth_lookup_Some. by rewrite list_lookup_fmap, Hx.
Qed.

Lemma broadcast_dim_diag d : broadcast_dim d d = Some d.
Proof. unfold broadcast_dim. by rewrite decide_True. Qed.

Lemma broadcast_dim_1_r d : broadcast_dim d 1 = Some d.
Proof. unfold broadcast_dim. repeat case_decide; congruence. Qed.

(** a scalar fits every shape *)
Lemma broadcast_shapes_nil_r s : broadcast_shapes s [] = Some s.
Proof.
  unfold broadcast_shapes. cbn [reverse rev_append].
  replace (broadcast_rev (reverse s) []) with (Some (reverse s))
    by by destruct (reverse s).
  cbn. by rewrite reverse_involutive.
Qed.

(** a cube and a column along its first axis *)
Lemma broadcast_shapes_column n y x :
  broadcast_shapes [n; y; x] [n; 1; 1] = Some [n; y; x].
Proof.
  unfold broadcast_shapes. cbn.
  by rewrite !broadcast_dim_1_r, broadcast_dim_diag.
Qed.

Lemma bitem_column a n k j i :
  shape a = [n; 1; 1] → k < n → bitem a [k; j; i] = nth k (buffer a) f_zero.
Proof.
  intros Hs Hk. unfold bitem, item, broadcast_index. rewrite Hs. cbn.
  f_equal. repeat case_decide; try done; lia.
Qed.
End ndarray_facts.

(** * The parameter container *)

Section container_facts.
Implicit Types ps acc : list nat.

(** the loop of the container, from the entries [acc] it holds already *)
Lemma Parameters_loop_spec acc ps :
  NoDup acc →
  ∃ new,
    foldl (λ unique p, if decide (p ∈ unique) then unique else unique ++ [p])
      acc ps = acc ++ new ∧
    NoDup (acc ++ new) ∧ new `sublist_of` ps ∧
    ∀ p, p ∈ acc ++ new ↔ p ∈ acc ∨ p ∈ ps.
Proof.
  revert acc. induction ps as [|p ps IH]; intros acc Hacc; cbn [foldl].
  - exists []. rewrite app_nil_r. split_and!; [done..|].
    intros p. rewrite elem_of_nil. tauto.
  - destruct (decide (p ∈ acc)) as [Hin|Hnin].
    + destruct (IH acc Hacc) as (new & -> & Hnd & Hsub & Hel).
      exists new. split_and!; [done | done | by apply sublist_cons |].
      intros q. rewrite Hel, elem_of_cons.
      split; [tauto|]. intros [?|[->|?]]; tauto.
    + destruct (IH (acc ++ [p])) as (new & -> & Hnd & Hsub & Hel).
      { apply NoDup_app. split_and!; [done | | apply NoDup_singleton].
        intros q Hq ->%list_elem_of_singleton. done. }
      exists (p :: new). rewrite <-app_assoc in *. cbn [app] in *.
      split_and!; [done | done | by apply sublist_skip |].
      intros q. rewrite Hel, elem_of_app, list_elem_of_singleton, elem_of_cons.
      tauto.
Qed.

(** the container holds each parameter once *)
Lemma Parameters_init_NoDup ps : NoDup (Parameters_init ps).
Proof.
  destruct (Parameters_loop_spec [] ps (NoDup_nil_2)) as (new & Heq & Hnd & _).
  unfold Parameters_init. by rewrite Heq.
Qed.

(** it holds the parameters it was given, and no other *)
Lemma Parameters_init_elem_of ps p : p ∈ Parameters_init ps ↔ p ∈ ps.
Proof.
  destruct (Parameters_loop_spec [] ps (NoDup_nil_2)) as (new & Heq & _ & _ & Hel).
  unfold Parameters_init. rewrite Heq, Hel, elem_of_nil. tauto.
Qed.

(** in the order in which it was given them *)
Lemma Parameters_init_sublist ps : Parameters_init ps `sublist_of` ps.
Proof.
  destruct (Parameters_loop_spec [] ps (NoDup_nil_2)) as (new & Heq & _ & Hsub & _).
  unfold Parameters_init. by rewrite Heq.
Qed.

(** a list without repetition is kept as it is *)
Lemma Parameters_loop_NoDup acc ps :
  NoDup (acc ++ ps) →
  foldl (λ unique p, if decide (p ∈ unique) then unique else unique ++ [p])
    acc ps = acc ++ ps.
Proof.
  revert acc. induction ps as [|p ps IH]; intros acc Hnd; cbn [foldl].
  - by rewrite app_nil_r.
  - apply NoDup_app in Hnd as (Hacc & Hdisj & Hps).
    apply NoDup_cons in Hps as [Hp Hps].
    rewrite decide_False by (intros Hin; apply (Hdisj p Hin); by left).
    rewrite IH, <-app_assoc; [done|].
    apply NoDup_app. split_and!; [| |done].
    + apply NoDup_app. split_and!; [done | | apply NoDup_singleton].
      intros q Hq ->%list_elem_of_singleton. apply (Hdisj p Hq). by left.
    + intros q [Hq| ->%list_elem_of_singleton]%elem_of_app Hq'.
      * apply (Hdisj q Hq). by right.
      * done.
Qed.

Lemma Parameters_init_NoDup_id ps : NoDup ps → Parameters_init ps = ps.
Proof. intros Hnd. by apply (Parameters_loop_NoDup [] ps). Qed.

(** a parameter that comes again is dropped where it comes again *)
Lemma Parameters_init_snoc ps p :
  Parameters_init (ps ++ [p])
  = if decide (p ∈ ps) then Parameters_init ps else Parameters_init ps ++ [p].
Proof.
  unfold Parameters_init. rewrite foldl_app. cbn [foldl].
  fold (Parameters_init ps).
  destruct (decide (p ∈ ps)) as [Hin|Hnin].
  - by rewrite decide_True by by apply Parameters_init_elem_of.
  - by rewrite decide_False by by rewrite Parameters_init_elem_of.
Qed.

(** the container is the list it was given exactly when no parameter
    comes twice in that list *)
Lemma Parameters_init_id_iff ps : Parameters_init ps = ps ↔ NoDup ps.
Proof.
  split; [|apply Parameters_init_NoDup_id].
  intros <-. apply Parameters_init_NoDup.
Qed.

End container_facts.

(** ** Running methods *)

Section run_facts.
Context {F U : Type} `{Scalar F} `{Units F U}.
Implicit Types (h : list (object (F:=F) (U:=U))) (l c m : loc).

Lemma run_bind {A B} (m : M A) (k : A → M B) h v h' :
  m h = (Return v, h') → (m ≫= k) h = k v h'.
Proof. unfold mbind, M_bind. by intros ->. Qed.

Lemma run_bind_raise {A B} (m : M A) (k : A → M B) h e h' :
  m h = (Raise e, h') → (m ≫= k) h = (Raise e, h').
Proof. unfold mbind, M_bind. by intros ->. Qed.

Lemma run_bind_lift {A B} (v : A) (k : A → M B) h :
  (lift (Return v) ≫= k) h = k v h.
Proof. done. Qed.

Lemma run_bind_lift_raise {A B} e (k : A → M B) h :
  (lift (Raise e) ≫= k) h = (Raise e, h).
Proof. done. Qed.

Lemma run_bind_alloc {B} o (k : loc → M B) h :
  (alloc o ≫= k) h = k (length h) (h ++ [o]).
Proof. done. Qed.

Lemma run_bind_ret {A B} (v : A) (k : A → M B) h : (mret v ≫= k) h = k v h.
Proof. done. Qed.

Lemma run_deref h l o : h !! l = Some o → deref l h = (Return o, h).
Proof. unfold deref. by intros ->. Qed.

Lemma run_get_items h l items :
  h !! l = Some (PyList items) → get_items l h = (Return items, h).
Proof. intros Hl. unfold get_items. by rewrite (run_bind _ _ _ _ _ (run_deref _ _ _ Hl)). Qed.

Lemma run_get_parameters h m ps :
  parameters_of h m = Some ps → get_parameters m h = (Return ps, h).
Proof.
  unfold parameters_of, get_parameters. destruct (h !! m) as [o|] eqn:Hm; [|done].
  cbn. intros Hps. by rewrite (run_bind _ _ _ _ _ (run_deref _ _ _ Hm)), Hps.
Qed.

Lemma run_get_parameter h l p :
  h !! l = Some (ParameterObj p) → get_parameter l h = (Return p, h).
Proof. intros Hl. unfold get_parameter. by rewrite (run_bind _ _ _ _ _ (run_deref _ _ _ Hl)). Qed.

Lemma run_get_map h l geom d unit :
  h !! l = Some (MapObj geom d unit) → get_map l h = (Return (geom, d, unit), h).
Proof. intros Hl. unfold get_map. by rewrite (run_bind _ _ _ _ _ (run_deref _ _ _ Hl)). Qed.

Lemma run_get_array h l a :
  h !! l = Some (NdArrayObj a) → get_array l h = (Return a, h).
Proof. intros Hl. unfold get_array. by rewrite (run_bind _ _ _ _ _ (run_deref _ _ _ Hl)). Qed.

Lemma run_get_dict h l d :
  h !! l = Some (PyDict d) → get_dict l h = (Return d, h).
Proof. intros Hl. unfold get_dict. by rewrite (run_bind _ _ _ _ _ (run_deref _ _ _ Hl)). Qed.

Lemma run_get_skymodels h c l ps :
  h !! c = Some (SkyModelsObj l ps) → get_skymodels c h = (Return l, h).
Proof. intros Hc. unfold get_skymodels. by rewrite (run_bind _ _ _ _ _ (run_deref _ _ _ Hc)). Qed.

Lemma run_get_models h c l ps :
  h !! c = Some (BackgroundModelsObj l ps) → get_models c h = (Return l, h).
Proof. intros Hc. unfold get_models. by rewrite (run_bind _ _ _ _ _ (run_deref _ _ _ Hc)). Qed.

Lemma run_list_extend h l old items :
  h !! l = Some (PyList old) →
  list_extend l items h = (Return (), <[l := PyList (old ++ items)]> h).
Proof.
  intros Hl. unfold list_extend.
  by rewrite (run_bind _ _ _ _ _ (run_get_items _ _ _ Hl)).
Qed.

Lemma bind_inv {A B} (m : M A) (k : A → M B) h o h' :
  (m ≫= k) h = (o, h') →
  (∃ e, m h = (Raise e, h') ∧ o = Raise e) ∨
  (∃ v h1, m h = (Return v, h1) ∧ k v h1 = (o, h')).
Proof.
  unfold mbind, M_bind. destruct (m h) as [[v|e] h1]; intros Hk.
  - right. eauto.
  - left. injection Hk as <- <-. eauto.
Qed.

(** *** Methods that only read the arena *)

Lemma deref_reads {A} l (k : object → M A) h o h' :
  (∀ obj, k obj h = (o, h') → h' = h) →
  (deref l ≫= k) h = (o, h') → h' = h.
Proof.
  intros Hk. unfold mbind, M_bind, deref.
  destruct (h !! l); [apply Hk | by intros [= _ <-]].
Qed.

Lemma get_items_reads l h o h' : get_items l h = (o, h') → h' = h.
Proof.
  apply deref_reads. intros []; unfold mret, M_ret, raise; congruence.
Qed.

Lemma get_array_reads l h o h' : get_array l h = (o, h') → h' = h.
Proof.
  apply deref_reads. intros []; unfold mret, M_ret, raise; congruence.
Qed.

Lemma get_dict_reads l h o h' : get_dict l h = (o, h') → h' = h.
Proof.
  apply deref_reads. intros []; unfold mret, M_ret, raise; congruence.
Qed.

Lemma get_parameter_reads l h o h' : get_parameter l h = (o, h') → h' = h.
Proof.
  apply deref_reads. intros []; unfold mret, M_ret, raise; congruence.
Qed.

Lemma get_map_reads l h o h' : get_map l h = (o, h') → h' = h.
Proof.
  apply deref_reads. intros []; unfold mret, M_ret, raise; congruence.
Qed.

Lemma get_background_reads l h o h' : get_background l h = (o, h') → h' = h.
Proof.
  apply deref_reads. intros []; unfold mret, M_ret, raise; congruence.
Qed.

Lemma lift_reads {A} (r : outcome A) h o h' : lift r h = (o, h') → h' = h.
Proof. unfold lift. congruence. Qed.

Lemma parameters_getitem_reads ps name h o h' :
  parameters_getitem ps name h = (o, h') → h' = h.
Proof.
  induction ps as [|l ps IH]; cbn [parameters_getitem].
  - unfold raise. congruence.
  - intros [(e & ->%get_parameter_reads & _)
           | (p & h1 & ->%get_parameter_reads & Hk)]%bind_inv; [done|].
    case_decide; [|by apply IH]. unfold mret, M_ret in Hk. congruence.
Qed.

Lemma energy_center_reads self h o h' : energy_center self h = (o, h') → h' = h.
Proof.
  unfold energy_center.
  intros [(e & ->%get_background_reads & _)
         | ([map ps] & h1 & ->%get_background_reads & Hk)]%bind_inv; [done|].
  apply bind_inv in Hk
    as [(e & ->%get_map_reads & _)
       | ([[geom d] unit] & h1 & ->%get_map_reads & Hk)]; [done|].
  apply bind_inv in Hk
    as [(e & ->%lift_reads & _) | (axis & h1 & ->%lift_reads & Hk)]; [done|].
  unfold mret, M_ret in Hk. congruence.
Qed.

(** an arena only grows at its end: what an address holds stays *)
Lemma lookup_grow h ext l o : h !! l = Some o → (h ++ ext) !! l = Some o.
Proof. apply lookup_app_l_Some. Qed.

Lemma lookup_fresh h o ext : (h ++ o :: ext) !! length h = Some o.
Proof. by rewrite list_lookup_middle. Qed.

Lemma parameters_of_grow h ext m ps :
  parameters_of h m = Some ps → parameters_of (h ++ ext) m = Some ps.
Proof.
  unfold parameters_of. destruct (h !! m) as [o|] eqn:Hm; [|done].
  by rewrite (lookup_grow _ ext _ _ Hm).
Qed.

Lemma foldl_append (acc ps : list loc) :
  foldl (λ acc p, acc ++ [p]) acc ps = acc ++ ps.
Proof.
  revert acc; induction ps as [|p ps IH]; intros acc; cbn.
  - by rewrite app_nil_r.
  - by rewrite IH, <-app_assoc.
Qed.

(** the constructors' loop concatenates the members' parameter lists *)
Lemma run_collect_parameters h items acc pss :
  Forall2 (λ m ps, parameters_of h m = Some ps) items pss →
  collect_parameters items acc h = (Return (acc ++ mjoin pss), h).
Proof.
  intros Hall; revert acc.
  induction Hall as [|m ps items pss Hm _ IH]; intros acc; cbn.
  - by rewrite app_nil_r.
  - rewrite (run_bind _ _ _ _ _ (run_get_parameters _ _ _ Hm)).
    by rewrite foldl_append, IH, <-app_assoc.
Qed.

Lemma concat_parameters_Some h items pss :
  Forall2 (λ m ps, parameters_of h m = Some ps) items pss →
  concat_parameters h items = Some (mjoin pss).
Proof.
  intros Hall. unfold concat_parameters.
  by rewrite (proj2 (mapM_Some _ _ _) Hall).
Qed.

Lemma Forall2_parameters_grow h ext items pss :
  Forall2 (λ m ps, parameters_of h m = Some ps) items pss →
  Forall2 (λ m ps, parameters_of (h ++ ext) m = Some ps) items pss.
Proof.
  intros Hall. eapply Forall2_impl; [exact Hall|].
  intros m ps. apply parameters_of_grow.
Qed.
(** the container of the one parameter of a template cube holds that
    parameter *)
Lemma SkyDiffuseCube_init_unfold map norm meta interp_kwargs :
  SkyDiffuseCube_init map norm meta interp_kwargs
  = ('(geom, _, _) ← get_map map;
     axis ← lift (get_axis_by_name geom "energy");
     if decide (node_type axis ≠ "center") then raise center_error
     else
       norm ← alloc (ParameterObj
                 (mk_parameter "norm" norm dimensionless None None false));
       meta ← match meta with
              | None => alloc (PyDict ∅)
              | Some meta => mret meta
              end;
       interp_kwargs ← match interp_kwargs with
                       | None => alloc (PyDict ∅)
                       | Some interp_kwargs => mret interp_kwargs
                       end;
       dict_setdefault interp_kwargs "interp" (PyStr "linear");;
       dict_setdefault interp_kwargs "fill_value" (PyNum f_zero);;
       alloc (SkyDiffuseCubeObj map norm meta interp_kwargs [norm])).
Proof. reflexivity. Qed.

(** three parameters made one after the other are three parameters *)
Lemma Parameters_init_three (n : nat) :
  Parameters_init [n; 1 + n; 2 + n] = [n; 1 + n; 2 + n].
Proof.
  apply Parameters_init_NoDup_id.
  rewrite !NoDup_cons, !not_elem_of_cons.
  split_and!; try lia; try apply not_elem_of_nil. apply NoDup_nil_2.
Qed.
End run_facts.

(** ** Constructors and the addition operators *)

Section algebra_facts.
Context {F U : Type} `{Scalar F} `{Units F U}.
Implicit Types (h : list (object (F:=F) (U:=U))) (l c m a b x : loc).
Implicit Types (items : list loc) (pss : list (list loc)).

Lemma members_grow h h' c items :
  h `prefix_of` h' → members h c = Some items → members h' c = Some items.
Proof.
  intros [ext ->]. unfold members.
  destruct (h !! c) as [o|] eqn:Hc; [|done].
  rewrite (lookup_grow _ ext _ _ Hc). intros Hm.
  destruct o; try done;
    match type of Hm with
    | context [h !! ?l] =>
        destruct (h !! l) as [o'|] eqn:Hl; [|done];
        by rewrite (lookup_grow _ ext _ _ Hl)
    end.
Qed.

Lemma sky_members_grow h h' x items :
  h `prefix_of` h' → sky_members h x = Some items →
  sky_members h' x = Some items.
Proof.
  intros Hpre. unfold sky_members.
  destruct (h !! x) as [o|] eqn:Hx; [|done].
  destruct Hpre as [ext ->]. rewrite (lookup_grow _ ext _ _ Hx).
  destruct o; try done. apply members_grow. by exists ext.
Qed.

Lemma background_members_grow h h' x items :
  h `prefix_of` h' → background_members h x = Some items →
  background_members h' x = Some items.
Proof.
  intros Hpre. unfold background_members.
  destruct (h !! x) as [o|] eqn:Hx; [|done].
  destruct Hpre as [ext ->]. rewrite (lookup_grow _ ext _ _ Hx).
  destruct o; try done. apply members_grow. by exists ext.
Qed.

Lemma run_sky_operand h x items :
  sky_members h x = Some items → sky_operand x h = (Return items, h).
Proof.
  unfold sky_members, sky_operand, members.
  destruct (h !! x) as [o|] eqn:Hx; [|done].
  rewrite (run_bind _ _ _ _ _ (run_deref _ _ _ Hx)).
  destruct o; try done.
  - by intros [= <-].
  - by intros [= <-].
  - destruct (h !! skymodels) as [[]|] eqn:Hl; try done.
    intros [= <-]. by apply run_get_items.
Qed.

Lemma run_background_operand h x items :
  background_members h x = Some items →
  background_operand x h = (Return items, h).
Proof.
  unfold background_members, background_operand, members.
  destruct (h !! x) as [o|] eqn:Hx; [|done].
  rewrite (run_bind _ _ _ _ _ (run_deref _ _ _ Hx)).
  destruct o; try done.
  - by intros [= <-].
  - destruct (h !! models) as [[]|] eqn:Hl; try done.
    intros [= <-]. by apply run_get_items.
Qed.

Lemma run_SkyModels_init h l items pss :
  h !! l = Some (PyList items) →
  Forall2 (λ m ps, parameters_of h m = Some ps) items pss →
  SkyModels_init l h
  = (Return (length h), h ++ [SkyModelsObj l (Parameters_init (mjoin pss))]).
Proof.
  intros Hl Hall. unfold SkyModels_init.
  rewrite (run_bind _ _ _ _ _ (run_get_items _ _ _ Hl)).
  by rewrite (run_bind _ _ _ _ _ (run_collect_parameters _ _ [] _ Hall)).
Qed.

Lemma run_BackgroundModels_init h l items pss :
  h !! l = Some (PyList items) →
  Forall2 (λ m ps, parameters_of h m = Some ps) items pss →
  BackgroundModels_init l h
  = (Return (length h), h ++ [BackgroundModelsObj l (Parameters_init (mjoin pss))]).
Proof.
  intros Hl Hall. unfold BackgroundModels_init.
  rewrite (run_bind _ _ _ _ _ (run_get_items _ _ _ Hl)).
  by rewrite (run_bind _ _ _ _ _ (run_collect_parameters _ _ [] _ Hall)).
Qed.

(** a new list object holding [first], extended in place by [items] *)
Lemma run_new_list_extend h first items :
  (l ← alloc (PyList first); list_extend l items;; mret l) h
  = (Return (length h), h ++ [PyList (first ++ items)]).
Proof.
  unfold alloc at 1. unfold mbind at 1, M_bind at 1.
  rewrite (run_bind _ _ _ _ _
    (run_list_extend (h ++ [PyList first]) (length h) first items
       (lookup_fresh _ _ _))).
  unfold mret, M_ret. f_equal.
  rewrite insert_app_r_alt, Nat.sub_diag by lia. done.
Qed.

Lemma run_SkyModelBase_add h a x items ps pss :
  sky_members h x = Some items →
  parameters_of h a = Some ps →
  Forall2 (λ m ps, parameters_of h m = Some ps) items pss →
  SkyModelBase_add a x h
  = (Return (S (length h)),
     h ++ [PyList (a :: items); SkyModelsObj (length h)
             (Parameters_init (ps ++ mjoin pss))]).
Proof.
  intros Hx Ha Hall. unfold SkyModelBase_add, alloc.
  unfold mbind at 1, M_bind at 1.
  assert (Hpre : h `prefix_of` h ++ [PyList [a]]) by by eexists.
  rewrite (run_bind _ _ _ _ _
    (run_sky_operand _ _ _ (sky_members_grow _ _ _ _ Hpre Hx))).
  rewrite (run_bind _ _ _ _ _
    (run_list_extend _ (length h) [a] items (lookup_fresh _ _ _))).
  rewrite insert_app_r_alt, Nat.sub_diag by lia. cbn [list_insert insert app].
  erewrite (run_SkyModels_init _ (length h) (a :: items) (ps :: pss)).
  - rewrite length_app, Nat.add_1_r, <-app_assoc. done.
  - apply lookup_fresh.
  - apply Forall2_parameters_grow. by constructor.
Qed.


Lemma run_SkyModels_add h c x own items pss pss' :
  is_sky_collection h c →
  members h c = Some own →
  sky_members h x = Some items →
  Forall2 (λ m ps, parameters_of h m = Some ps) own pss →
  Forall2 (λ m ps, parameters_of h m = Some ps) items pss' →
  SkyModels_add c x h
  = (Return (S (length h)),
     h ++ [PyList (own ++ items);
           SkyModelsObj (length h)
             (Parameters_init (mjoin pss ++ mjoin pss'))]).
Proof.
  intros Hc Hown Hx Hall Hall'. unfold SkyModels_add.
  unfold is_sky_collection, members in *.
  destruct (h !! c) as [[]|] eqn:Hcc; try done.
  destruct (h !! skymodels) as [[]|] eqn:Hl; try done.
  injection Hown as ->.
  assert (Hget : get_skymodels c h = (Return skymodels, h)).
  { unfold get_skymodels. by rewrite (run_bind _ _ _ _ _ (run_deref _ _ _ Hcc)). }
  rewrite (run_bind _ _ _ _ _ Hget).
  rewrite (run_bind _ _ _ _ _ (run_get_items _ _ _ Hl)).
  unfold alloc. unfold mbind at 1, M_bind at 1.
  assert (Hpre : h `prefix_of` h ++ [PyList own]) by by eexists.
  rewrite (run_bind _ _ _ _ _
    (run_sky_operand _ _ _ (sky_members_grow _ _ _ _ Hpre Hx))).
  rewrite (run_bind _ _ _ _ _
    (run_list_extend _ (length h) own items (lookup_fresh _ _ _))).
  rewrite insert_app_r_alt, Nat.sub_diag by lia. cbn [list_insert insert].
  erewrite (run_SkyModels_init _ (length h) (own ++ items) (pss ++ pss')).
  - rewrite length_app, Nat.add_1_r, <-app_assoc, join_app. done.
  - apply lookup_fresh.
  - apply Forall2_parameters_grow. by apply Forall2_app.
Qed.
End algebra_facts.

(** ** Deep copies *)

Section deepcopy_facts.
Context {F U : Type} `{Scalar F} `{Units F U}.
Implicit Types (h : list (object (F:=F) (U:=U))) (x y l c : loc).
Implicit Types (memo σ : gmap nat nat) (pending : nat → Prop).

Lemma prefix_insert_ge h h' y (o : object (F:=F) (U:=U)) :
  h `prefix_of` h' → length h ≤ y → h `prefix_of` <[y := o]> h'.
Proof.
  intros [k ->] Hy. exists (<[y - length h := o]> k).
  by rewrite insert_app_r_alt.
Qed.


(** a memo over the objects of an arena that misses one of them holds
    fewer entries than the arena *)
Lemma memo_size_bound memo n x :
  (∀ x y, memo !! x = Some y → x < n) → memo !! x = None → x < n →
  base.size memo < n.
Proof.
  intros Hkeys Hx Hlt.
  assert (dom (<[x := 0]> memo) ⊆ (set_seq 0 n : gset nat)) as Hsub.
  { intros z [y Hz]%elem_of_dom. apply elem_of_set_seq.
    destruct (decide (z = x)) as [->|Hne]; [lia|].
    rewrite lookup_insert_ne in Hz by done. apply Hkeys in Hz. lia. }
  apply subseteq_size in Hsub.
  rewrite size_dom, map_size_insert_None, size_set_seq in Hsub by done. lia.
Qed.

Lemma copying_lookup h0 h memo pending x :
  copying h0 h memo pending → x < length h0 → h !! x = h0 !! x.
Proof. intros [[k ->] _] Hx. by apply lookup_app_l. Qed.

(** the copies of a list of objects, given what copying one object
    does *)
Lemma deepcopy_all_spec h0 pending k
    (copy : nat → gmap nat nat → M (F:=F) (U:=U) (nat * gmap nat nat)) :
  (∀ x memo h,
     x < length h0 → copying h0 h memo pending →
     length h0 < k + base.size memo →
     ∃ y memo' h',
       copy x memo h = (Return (y, memo'), h') ∧
       h `prefix_of` h' ∧ memo ⊆ memo' ∧ copying h0 h' memo' pending ∧
       memo' !! x = Some y) →
  ∀ xs memo h,
    Forall (λ x, x < length h0) xs → copying h0 h memo pending →
    length h0 < k + base.size memo →
    ∃ ys memo' h',
      deepcopy_all copy xs memo h = (Return (ys, memo'), h') ∧
      h `prefix_of` h' ∧ memo ⊆ memo' ∧ copying h0 h' memo' pending ∧
      Forall2 (λ x y, memo' !! x = Some y) xs ys.
Proof.
  intros Hcopy xs. induction xs as [|x xs IH]; intros memo h Hxs Hinv Hsize;
    cbn [deepcopy_all].
  - exists [], memo, h. split_and!; [done | done | done | done | constructor].
  - apply Forall_cons in Hxs as [Hx Hxs].
    destruct (Hcopy x memo h Hx Hinv Hsize)
      as (y & memo1 & h1 & Hrun & Hpre & Hsub & Hinv1 & Hy).
    destruct (IH memo1 h1 Hxs Hinv1)
      as (ys & memo2 & h2 & Hrun2 & Hpre2 & Hsub2 & Hinv2 & Hys).
    { pose proof (map_subseteq_size _ _ Hsub). lia. }
    exists (y :: ys), memo2, h2.
    rewrite (run_bind _ _ _ _ _ Hrun). cbn beta iota.
    rewrite (run_bind _ _ _ _ _ Hrun2). cbn beta iota.
    split_and!; [done | by etrans | by etrans | done |].
    constructor; [|done]. exact (lookup_weaken _ _ _ _ Hy Hsub2).
Qed.

(** what an entry of the memo is worth once more has been copied *)
Lemma copying_entry_stable h0 h h' memo memo' x y :
  h `prefix_of` h' → memo ⊆ memo' → y < length h →
  (∃ o rs, h0 !! x = Some o ∧ h !! y = Some (with_references o rs) ∧
           Forall2 (λ r r', memo !! r = Some r') (references o) rs) →
  ∃ o rs, h0 !! x = Some o ∧ h' !! y = Some (with_references o rs) ∧
          Forall2 (λ r r', memo' !! r = Some r') (references o) rs.
Proof.
  intros [k ->] Hsub Hy (o & rs & Hx & Hobj & Hrs).
  exists o, rs.
  split_and!; [done | rewrite lookup_app_l by done; exact Hobj |].
  eapply Forall2_impl; [exact Hrs|]. intros r r' Hr.
  exact (lookup_weaken _ _ _ _ Hr Hsub).
Qed.

Lemma deepcopy_spec h0 :
  closed h0 →
  ∀ fuel pending x memo h,
    x < length h0 → copying h0 h memo pending →
    length h0 < fuel + base.size memo →
    ∃ y memo' h',
      deepcopy fuel x memo h = (Return (y, memo'), h') ∧
      h `prefix_of` h' ∧ memo ⊆ memo' ∧ copying h0 h' memo' pending ∧
      memo' !! x = Some y.
Proof.
  intros Hclosed fuel.
  induction fuel as [|fuel IH]; intros pending x memo h Hx Hinv Hsize;
    cbn [deepcopy]; destruct (memo !! x) as [y|] eqn:Hmemo;
    try (exists y, memo, h; by split_and!).
  - destruct Hinv as (_ & Hrange & _).
    pose proof (memo_size_bound memo (length h0) x
                  (λ x y Hxy, proj1 (Hrange x y Hxy)) Hmemo Hx). lia.
  - destruct (lookup_lt_is_Some_2 h0 x Hx) as [o Ho].
    assert (Hrefs : Forall (λ r, r < length h0) (references o)).
    { unfold closed in Hclosed. rewrite Forall_lookup in Hclosed.
      by eapply Hclosed. }
    assert (Hhx : h !! x = Some o)
      by by rewrite (copying_lookup _ _ _ _ _ Hinv Hx).
    rewrite (run_bind _ _ _ _ _ (run_deref _ _ _ Hhx)).
    rewrite run_bind_alloc.
    destruct Hinv as (Hpre0 & Hrange & Hinj & Hdone).
    assert (Hlen0 : length h0 ≤ length h) by by apply prefix_length.
    (* the state once the new object is made and entered *)
    assert (Hinv1 : copying h0 (h ++ [OtherObj]) (<[x := length h]> memo)
                      (λ z, pending z ∨ z = x)).
    { split_and!.
      - etrans; [exact Hpre0|]. by eexists.
      - intros z y. rewrite length_app. cbn [length].
        destruct (decide (z = x)) as [->|Hne].
        + rewrite lookup_insert_eq. intros [= <-]. lia.
        + rewrite lookup_insert_ne by done. intros Hz%Hrange. lia.
      - intros z z' y.
        destruct (decide (z = x)) as [->|Hne];
          destruct (decide (z' = x)) as [->|Hne']; [done | | |].
        + rewrite lookup_insert_eq, lookup_insert_ne by done.
          intros [= <-] Hz'%Hrange. lia.
        + rewrite lookup_insert_eq, lookup_insert_ne by done.
          intros Hz%Hrange [= <-]. lia.
        + rewrite !lookup_insert_ne by done. apply Hinj.
      - intros z y.
        destruct (decide (z = x)) as [->|Hne]; [by left; right|].
        rewrite lookup_insert_ne by done. intros Hz.
        destruct (Hdone z y Hz) as [Hp|Hcopied]; [by left; left|]. right.
        eapply copying_entry_stable; [by eexists | | | exact Hcopied].
        + by apply insert_subseteq.
        + apply Hrange in Hz. lia. }
    destruct (deepcopy_all_spec h0 (λ z, pending z ∨ z = x) fuel
                (deepcopy fuel) (IH _) (references o)
                (<[x := length h]> memo) (h ++ [OtherObj]) Hrefs Hinv1)
      as (rs & memo2 & h2 & Hrun & Hpre2 & Hsub2 & Hinv2 & Hrs).
    { rewrite map_size_insert_None by done. lia. }
    rewrite (run_bind _ _ _ _ _ Hrun). cbn beta iota.
    unfold store, mbind, M_bind, mret, M_ret.
    assert (Hxy : memo2 !! x = Some (length h)).
    { apply (lookup_weaken _ _ _ _ (lookup_insert_eq _ _ _) Hsub2). }
    assert (Hlen2 : length h < length h2).
    { apply prefix_length in Hpre2. rewrite length_app in Hpre2.
      cbn [length] in Hpre2. lia. }
    destruct Hinv2 as (Hpre02 & Hrange2 & Hinj2 & Hdone2).
    exists (length h), memo2, (<[length h := with_references o rs]> h2).
    split_and!; [done | | | | done].
    + apply prefix_insert_ge; [|done]. etrans; [|exact Hpre2]. by eexists.
    + etrans; [|exact Hsub2]. by apply insert_subseteq.
    + split_and!.
      * by apply prefix_insert_ge.
      * intros z y Hz. rewrite length_insert. by apply Hrange2.
      * done.
      * intros z y Hz.
        destruct (decide (z = x)) as [->|Hne].
        -- right. rewrite Hxy in Hz. injection Hz as <-.
           exists o, rs. split_and!; [done | | done].
           by rewrite list_lookup_insert_eq.
        -- destruct (Hdone2 z y Hz) as [[Hp|Hzx]|Hcopied];
             [by left | done |]. right.
           assert (y ≠ length h).
           { intros ->. apply Hne. by eapply Hinj2. }
           destruct Hcopied as (o' & rs' & Hz0 & Hy & Hrs').
           exists o', rs'. split_and!; [done | | done].
           by rewrite list_lookup_insert_ne.
Qed.

(** [Model.copy] on an object of a closed arena: a deep copy, which
    leaves the arena it found as it was *)
Lemma run_Model_copy h c :
  closed h → c < length h →
  ∃ σ h',
    Model_copy c h = (Return (length h), h') ∧
    h `prefix_of` h' ∧ σ !! c = Some (length h) ∧ deep_copies h h' σ.
Proof.
  intros Hclosed Hc.
  destruct (deepcopy_spec h Hclosed (S (length h)) (λ _, False) c ∅ h Hc)
    as (y & σ & h' & Hrun & Hpre & _ & Hinv & Hy).
  { split_and!; [done | | |]; intros *; by rewrite lookup_empty. }
  { lia. }
  assert (y = length h) as ->.
  { revert Hrun. cbn [deepcopy]. rewrite lookup_empty.
    case_eq (h !! c); [|by intros ?%lookup_ge_None; lia].
    intros o Ho. rewrite (run_bind _ _ _ _ _ (run_deref _ _ _ Ho)).
    rewrite run_bind_alloc. unfold mbind at 1, M_bind at 1.
    destruct (deepcopy_all _ _ _ _) as [[[rs memo]|e] h1]; [|done].
    cbn beta iota. unfold store, mbind, M_bind, mret, M_ret. by intros [= <- _]. }
  exists σ, h'. split_and!; [| done | done |].
  - unfold Model_copy. by rewrite (run_bind _ _ _ _ _ Hrun).
  - destruct Hinv as (_ & Hrange & Hinj & Hdone). split; [|done].
    intros x y Hxy. split; [apply Hrange in Hxy; lia|].
    by destruct (Hdone x y Hxy).
Qed.
End deepcopy_facts.

(** ** Aggregation and the combination algebra *)

Section algebra_claims.
Context {F U : Type} `{Scalar F} `{Units F U}.
Implicit Types (h : list (object (F:=F) (U:=U))) (l c m a b x : loc).
Implicit Types (items own : list loc) (pss : list (list loc)).

Lemma models_parameters h items :
  Forall (is_model h) items →
  ∃ pss, Forall2 (λ m ps, parameters_of h m = Some ps) items pss.
Proof.
  induction 1 as [|m items [ps Hm] _ [pss IH]].
  - exists []. constructor.
  - exists (ps :: pss). by constructor.
Qed.







(** a collection object put at the end of the arena, over a member list
    put just before it *)
Lemma new_sky_collection_yields h items pss :
  Forall2 (λ m ps, parameters_of h m = Some ps) items pss →
  yields_collection is_sky_collection
    (Return (S (length h)),
     h ++ [PyList items;
           SkyModelsObj (length h) (Parameters_init (mjoin pss))]) h items.
Proof.
  intros Hall. eexists (S (length h)), _. split; [done|].
  set (h' := h ++ _).
  assert (Hc : h' !! S (length h)
               = Some (SkyModelsObj (length h) (Parameters_init (mjoin pss)))).
  { unfold h'. rewrite lookup_app_r by lia.
    by replace (S (length h) - length h) with 1 by lia. }
  assert (Hl : h' !! length h = Some (PyList items)) by apply lookup_fresh.
  assert (Hm : members h' (S (length h)) = Some items).
  { unfold members. by rewrite Hc, Hl. }
  split_and!; [| by eexists | | done |].
  - apply lookup_ge_None. lia.
  - unfold is_sky_collection. by rewrite Hc.
  - unfold aggregated. rewrite Hm.
    replace (parameters_of h' (S (length h)))
      with (Some (Parameters_init (mjoin pss)))
      by (unfold parameters_of; by rewrite Hc).
    split; [eauto|].
    by rewrite (concat_parameters_Some h' items pss)
      by by apply Forall2_parameters_grow.
Qed.


Lemma SkyModelBase_add_yields h a x items :
  is_model h a → sky_members h x = Some items → Forall (is_model h) items →
  yields_collection is_sky_collection (SkyModelBase_add a x h) h (a :: items).
Proof.
  intros [ps Ha] Hx [pss Hall]%models_parameters.
  rewrite (run_SkyModelBase_add _ _ _ _ _ _ Hx Ha Hall).
  apply (new_sky_collection_yields _ _ (ps :: pss)). by constructor.
Qed.


Lemma SkyModels_add_yields h c x own items :
  is_sky_collection h c → members h c = Some own →
  sky_members h x = Some items →
  Forall (is_model h) own → Forall (is_model h) items →
  yields_collection is_sky_collection (SkyModels_add c x h) h (own ++ items).
Proof.
  intros Hc Hown Hx [pss Hall]%models_parameters [pss' Hall']%models_parameters.
  rewrite (run_SkyModels_add _ _ _ _ _ _ _ Hc Hown Hx Hall Hall').
  rewrite <-join_app.
  apply (new_sky_collection_yields _ _ (pss ++ pss')). by apply Forall2_app.
Qed.

Lemma run_BackgroundModels_iadd h c l ps own x items :
  h !! c = Some (BackgroundModelsObj l ps) → h !! l = Some (PyList own) →
  background_members h x = Some items →
  BackgroundModels_iadd c x h = (Return c, <[l := PyList (own ++ items)]> h).
Proof.
  intros Hc Hl Hx. unfold BackgroundModels_iadd.
  rewrite (run_bind _ _ _ _ _ (run_background_operand _ _ _ Hx)).
  assert (Hget : get_models c h = (Return l, h)).
  { unfold get_models. by rewrite (run_bind _ _ _ _ _ (run_deref _ _ _ Hc)). }
  rewrite (run_bind _ _ _ _ _ Hget).
  by rewrite (run_bind _ _ _ _ _ (run_list_extend _ _ _ items Hl)).
Qed.

(** [BackgroundModels.__add__]: the deep copy of the left operand,
    extended in place by the members of the right operand *)
Lemma run_BackgroundModels_add h c x l ps own items :
  closed h →
  h !! c = Some (BackgroundModelsObj l ps) → h !! l = Some (PyList own) →
  background_members h x = Some items →
  ∃ σ h1 l' ps' own',
    deep_copies h h1 σ ∧ h `prefix_of` h1 ∧
    σ !! c = Some (length h) ∧ σ !! l = Some l' ∧
    Forall2 (λ r r', σ !! r = Some r') ps ps' ∧
    Forall2 (λ r r', σ !! r = Some r') own own' ∧
    h1 !! length h = Some (BackgroundModelsObj l' ps') ∧
    h1 !! l' = Some (PyList own') ∧
    BackgroundModels_add c x h
    = (Return (length h), <[l' := PyList (own' ++ items)]> h1).
Proof.
  intros Hclosed Hc Hl Hx.
  assert (Hclt : c < length h) by by eapply lookup_lt_Some.
  destruct (run_Model_copy h c Hclosed Hclt)
    as (σ & h1 & Hrun & Hpre & Hσc & Hcopies & Hinj).
  destruct (Hcopies _ _ Hσc) as (_ & o & rs & Ho & Hc' & Hrs).
  rewrite Hc in Ho. injection Ho as <-. cbn [references] in Hrs.
  apply Forall2_cons_inv_l in Hrs as (l' & ps' & Hσl & Hps & ->).
  cbn [with_references] in Hc'.
  destruct (Hcopies _ _ Hσl) as (Hl' & o & own' & Ho & Hlist & Hown').
  rewrite Hl in Ho. injection Ho as <-.
  cbn [references with_references] in Hown', Hlist.
  exists σ, h1, l', ps', own'. split_and!; [done..|].
  unfold BackgroundModels_add. rewrite (run_bind _ _ _ _ _ Hrun).
  apply (run_BackgroundModels_iadd _ _ _ ps' own'); [done | done |].
  by apply (background_members_grow h).
Qed.



(** C2, as the code has it.  Aggregation at construction.  A collection
    built from a member list hands the concatenation of its members'
    parameter lists, in member order, to the parameter container, and a
    [SkyModel] hands it the spatial model's parameters followed by the
    spectral model's.  The container keeps each parameter once, at the
    place where it first comes: the aggregated list holds every
    parameter of the children and no other, under its own address, in
    the order of the concatenation, without repetition, a parameter that
    comes again being dropped where it comes again.  It is the
    concatenation itself exactly when no parameter comes twice in it.
    The children are left as they were. *)
Theorem aggregated_parameters_first_occurrences h :
  (∀ skymodels items pss,
     h !! skymodels = Some (PyList items) →
     Forall2 (λ m ps, parameters_of h m = Some ps) items pss →
     ∃ c h', SkyModels_init skymodels h = (Return c, h') ∧
             h `prefix_of` h' ∧ members h' c = Some items ∧
             parameters_of h' c = Some (Parameters_init (mjoin pss)))
  ∧ (∀ models items pss,
       h !! models = Some (PyList items) →
       Forall2 (λ m ps, parameters_of h m = Some ps) items pss →
       ∃ c h', BackgroundModels_init models h = (Return c, h') ∧
               h `prefix_of` h' ∧ members h' c = Some items ∧
               parameters_of h' c = Some (Parameters_init (mjoin pss)))
  ∧ (∀ spatial_model spectral_model name ps ps',
       parameters_of h spatial_model = Some ps →
       parameters_of h spectral_model = Some ps' →
       ∃ c h', SkyModel_init spatial_model spectral_model name h
               = (Return c, h') ∧
               h `prefix_of` h' ∧
               parameters_of h' c = Some (Parameters_init (ps ++ ps')))
  ∧ (∀ ps : list loc,
       NoDup (Parameters_init ps) ∧
       (∀ p, p ∈ Parameters_init ps ↔ p ∈ ps) ∧
       Parameters_init ps `sublist_of` ps ∧
       (∀ p, Parameters_init (ps ++ [p])
             = if decide (p ∈ ps) then Parameters_init ps
               else Parameters_init ps ++ [p]) ∧
       (Parameters_init ps = ps ↔ NoDup ps)).
Proof.
  split_and!.
  - intros l items pss Hl Hall.
    rewrite (run_SkyModels_init _ _ _ _ Hl Hall).
    eexists _, _. split; [done|]. split; [by eexists|].
    unfold members, parameters_of. rewrite lookup_fresh.
    by rewrite (lookup_grow _ _ _ _ Hl).
  - intros l items pss Hl Hall.
    rewrite (run_BackgroundModels_init _ _ _ _ Hl Hall).
    eexists _, _. split; [done|]. split; [by eexists|].
    unfold members, parameters_of. rewrite lookup_fresh.
    by rewrite (lookup_grow _ _ _ _ Hl).
  - intros sp se name ps ps' Hsp Hse. unfold SkyModel_init.
    rewrite (run_bind _ _ _ _ _ (run_get_parameters _ _ _ Hsp)).
    rewrite (run_bind _ _ _ _ _ (run_get_parameters _ _ _ Hse)).
    eexists _, _. split; [done|]. split; [by eexists|].
    unfold parameters_of. by rewrite lookup_fresh.
  - intros ps. split_and!.
    + apply Parameters_init_NoDup.
    + apply Parameters_init_elem_of.
    + apply Parameters_init_sublist.
    + apply Parameters_init_snoc.
    + apply Parameters_init_id_iff.
Qed.

(** C5, as the code has it.  The reflected handler is the forward
    addition run on its receiver: [a.__radd__(b)] is [a.__add__(b)], so
    the members of the receiver come first and those of the other operand
    follow.  When [b + a] is resolved through [a.__radd__(b)] the right
    operand of the expression is therefore listed first. *)
Theorem reflected_addition_receiver_first h a x own items :
  sky_members h a = Some own → sky_members h x = Some items →
  Forall (is_model h) own → Forall (is_model h) items →
  SkyModelBase_radd a x h = sky_add a x h ∧
  yields_collection is_sky_collection
    (SkyModelBase_radd a x h) h (own ++ items).
Proof.
  intros Ha Hx Hown Hall. split; [done|].
  unfold SkyModelBase_radd, sky_add. unfold sky_members in Ha.
  destruct (h !! a) as [o|] eqn:Hobj; [|done].
  rewrite (run_bind _ _ _ _ _ (run_deref _ _ _ Hobj)).
  destruct o; try done.
  - injection Ha as <-. apply SkyModelBase_add_yields; [|done..].
    by apply Forall_inv in Hown.
  - injection Ha as <-. apply SkyModelBase_add_yields; [|done..].
    by apply Forall_inv in Hown.
  - apply SkyModels_add_yields; try done.
    unfold is_sky_collection. by rewrite Hobj.
Qed.

(** *** In-place extension *)

Lemma run_SkyModels_iadd h c l ps own x items :
  h !! c = Some (SkyModelsObj l ps) → h !! l = Some (PyList own) →
  sky_members h x = Some items →
  SkyModels_iadd c x h = (Return c, <[l := PyList (own ++ items)]> h).
Proof.
  intros Hc Hl Hx. unfold SkyModels_iadd.
  rewrite (run_bind _ _ _ _ _ (run_sky_operand _ _ _ Hx)).
  assert (Hget : get_skymodels c h = (Return l, h)).
  { unfold get_skymodels. by rewrite (run_bind _ _ _ _ _ (run_deref _ _ _ Hc)). }
  rewrite (run_bind _ _ _ _ _ Hget).
  by rewrite (run_bind _ _ _ _ _ (run_list_extend _ _ _ items Hl)).
Qed.


(** [+=] extends the member list and leaves the collection object, with
    the parameter list it got at construction, as it is *)
Lemma SkyModels_iadd_keeps_parameters h c l ps own x items :
  h !! c = Some (SkyModelsObj l ps) → h !! l = Some (PyList own) →
  sky_members h x = Some items →
  ∃ h', SkyModels_iadd c x h = (Return c, h') ∧
        members h' c = Some (own ++ items) ∧ parameters_of h' c = Some ps.
Proof.
  intros Hc Hl Hx. rewrite (run_SkyModels_iadd _ _ _ _ _ _ _ Hc Hl Hx).
  eexists; split; [done|].
  assert (l ≠ c) by (intros ->; congruence).
  assert (l < length h) by by eapply lookup_lt_Some.
  unfold members, parameters_of.
  rewrite list_lookup_insert_ne, Hc by done.
  by rewrite list_lookup_insert_eq.
Qed.

Lemma BackgroundModels_iadd_keeps_parameters h c l ps own x items :
  h !! c = Some (BackgroundModelsObj l ps) → h !! l = Some (PyList own) →
  background_members h x = Some items →
  ∃ h', BackgroundModels_iadd c x h = (Return c, h') ∧
        members h' c = Some (own ++ items) ∧ parameters_of h' c = Some ps.
Proof.
  intros Hc Hl Hx. rewrite (run_BackgroundModels_iadd _ _ _ _ _ _ _ Hc Hl Hx).
  eexists; split; [done|].
  assert (l ≠ c) by (intros ->; congruence).
  assert (l < length h) by by eapply lookup_lt_Some.
  unfold members, parameters_of.
  rewrite list_lookup_insert_ne, Hc by done.
  by rewrite list_lookup_insert_eq.
Qed.
End algebra_claims.

(** ** Construction-time validation and evaluation *)

Section evaluate_claims.
Context {F U : Type} `{Scalar F} `{Units F U} `{!Interpolator (F:=F) (U:=U)}.
Implicit Types (h : list (object (F:=F) (U:=U))) (l c m self : loc).
Implicit Types (lon lat energy : Quantity (F:=F) (U:=U)).

(** C6.  Axis validation.  A template cube built on a map whose energy
    axis has node type "edges", and a background model built on a map
    whose energy axis has node type "center", are refused by the
    constructor with a [ValueError]; nothing is allocated, so there is no
    model to evaluate. *)
Theorem axis_validation_at_construction h map geom d unit axis :
  h !! map = Some (MapObj geom d unit) →
  get_axis_by_name geom "energy" = Return axis →
  (node_type axis = "edges" →
   ∀ norm meta interp_kwargs,
     SkyDiffuseCube_init map norm meta interp_kwargs h
     = (Raise center_error, h))
  ∧ (node_type axis = "center" →
     ∀ norm tilt reference,
       BackgroundModel_init map norm tilt reference h
       = (Raise edges_error, h)).
Proof.
  intros Hmap Haxis. split; intros Hnode *.
  - rewrite SkyDiffuseCube_init_unfold.
    rewrite (run_bind _ _ _ _ _ (run_get_map _ _ _ _ _ Hmap)).
    unfold lift at 1. unfold mbind, M_bind. rewrite Haxis, Hnode.
    by rewrite decide_True.
  - unfold BackgroundModel_init.
    rewrite (run_bind _ _ _ _ _ (run_get_map _ _ _ _ _ Hmap)).
    unfold lift at 1. unfold mbind, M_bind. rewrite Haxis, Hnode.
    by rewrite decide_True.
Qed.

(** C7.  Evaluating an empty collection raises: [SkyModels.evaluate]
    fails on [self.skymodels[0]] with an [IndexError],
    [BackgroundModels.evaluate] on [return vals] with an
    [UnboundLocalError].  No value is returned and the arena is left as
    it was. *)
Theorem empty_collection_evaluation_raises h c :
  members h c = Some [] →
  (is_sky_collection h c →
   ∀ depth lon lat energy,
     SkyModels_evaluate depth c lon lat energy h = (Raise IndexError, h))
  ∧ (is_background_collection h c →
     ∀ depth, BackgroundModels_evaluate depth c h
              = (Raise UnboundLocalError, h)).
Proof.
  unfold members, is_sky_collection, is_background_collection.
  intros Hm. split; intros Hc *;
    destruct (h !! c) as [[]|] eqn:Hcc; try done.
  - destruct (h !! skymodels) as [[]|] eqn:Hl; try done.
    injection Hm as ->.
    unfold SkyModels_evaluate, SkyModels_evaluate_with.
    rewrite (run_bind _ _ _ _ _ (run_get_skymodels _ _ _ _ Hcc)).
    by rewrite (run_bind _ _ _ _ _ (run_get_items _ _ _ Hl)).
  - destruct (h !! models) as [[]|] eqn:Hl; try done.
    injection Hm as ->.
    unfold BackgroundModels_evaluate, BackgroundModels_evaluate_with.
    rewrite (run_bind _ _ _ _ _ (run_get_models _ _ _ _ Hcc)).
    by rewrite (run_bind _ _ _ _ _ (run_get_items _ _ _ Hl)).
Qed.

(** C8.  [SkyModel.evaluate] is the product of the spatial model at
    [(lon, lat)] and of the spectral model at [energy], broadcast
    together: when the two shapes fit, the result has the broadcast shape
    and each of its entries is the product of the entries the two
    operands have there; when they do not, numpy's broadcasting
    [ValueError] is raised.  The arena is not written to: nothing is kept
    from one call to the next. *)
Theorem SkyModel_evaluate_product
    h self name spatial_model spectral_model ps lon lat energy
    val_spatial val_spectral :
  h !! self = Some (SkyModelObj name spatial_model spectral_model ps) →
  call_spatial spatial_model lon lat h = (Return val_spatial, h) →
  call_spectral spectral_model energy h = (Return val_spectral, h) →
  match broadcast_shapes (shape (q_value val_spatial))
                         (shape (q_value val_spectral)) with
  | Some s =>
      ∃ r, SkyModel_evaluate self lon lat energy h = (Return r, h) ∧
           shape (q_value r) = s ∧
           q_unit r = unit_mul (q_unit val_spatial) (q_unit val_spectral) ∧
           ∀ idx, in_range s idx →
             item (q_value r) idx
             = f_mul (bitem (q_value val_spatial) idx)
                     (bitem (q_value val_spectral) idx)
  | None =>
      SkyModel_evaluate self lon lat energy h = (Raise broadcast_error, h)
  end.
Proof.
  intros Hself Hsp Hse. unfold SkyModel_evaluate.
  rewrite (run_bind _ _ _ _ _ (run_deref _ _ _ Hself)).
  rewrite (run_bind _ _ _ _ _ Hsp), (run_bind _ _ _ _ _ Hse).
  unfold lift, quantity_mul, np_multiply, broadcast2.
  destruct (broadcast_shapes _ _) as [s|]; cbn [obind]; [|done].
  eexists. split; [done|]. cbn [q_value q_unit shape]. split_and!; [done..|].
  intros idx Hidx. by rewrite item_tabulate.
Qed.

(** *** The template cube *)

Lemma run_dict_setdefault h d k v entries :
  h !! d = Some (PyDict entries) →
  ∃ h' entries',
    dict_setdefault d k v h = (Return (), h') ∧
    length h' = length h ∧
    h' !! d = Some (PyDict entries') ∧
    entries' !! k = Some (default v (entries !! k)) ∧
    (∀ k', k' ≠ k → entries' !! k' = entries !! k') ∧
    (∀ l, l ≠ d → h' !! l = h !! l).
Proof.
  intros Hd. unfold dict_setdefault.
  rewrite (run_bind _ _ _ _ _ (run_deref _ _ _ Hd)).
  destruct (entries !! k) as [w|] eqn:Hk.
  - exists h, entries. by rewrite Hk.
  - exists (<[d := PyDict (<[k := v]> entries)]> h), (<[k := v]> entries).
    assert (d < length h) by by eapply lookup_lt_Some.
    split_and!; [done | by rewrite length_insert | | | |].
    + by apply list_lookup_insert_eq.
    + by rewrite lookup_insert_eq.
    + intros k' Hk'. by rewrite lookup_insert_ne.
    + intros l Hl. by rewrite list_lookup_insert_ne.
Qed.

(** the end of [SkyDiffuseCube.__init__]: the two [setdefault] and the
    new object *)
Lemma run_defaults_and_object h map pn meta kw given (p : FitParameter) :
  h !! kw = Some (PyDict given) → h !! pn = Some (ParameterObj p) →
  ∃ h' kwargs,
    (dict_setdefault kw "interp" (PyStr "linear");;
     dict_setdefault kw "fill_value" (PyNum f_zero);;
     alloc (SkyDiffuseCubeObj map pn meta kw [pn])) h
    = (Return (length h), h') ∧
    h' !! length h = Some (SkyDiffuseCubeObj map pn meta kw [pn]) ∧
    h' !! pn = Some (ParameterObj p) ∧
    h' !! kw = Some (PyDict kwargs) ∧
    kwargs !! "interp" = Some (default (PyStr "linear") (given !! "interp")) ∧
    kwargs !! "fill_value"
    = Some (default (PyNum f_zero) (given !! "fill_value")).
Proof.
  intros Hkw Hpn.
  assert (pn ≠ kw) by (intros ->; congruence).
  destruct (run_dict_setdefault h kw "interp" (PyStr "linear") given Hkw)
    as (h1 & d1 & Hrun1 & Hlen1 & Hkw1 & Hi1 & Ho1 & Hl1).
  destruct (run_dict_setdefault h1 kw "fill_value" (PyNum f_zero) d1 Hkw1)
    as (h2 & d2 & Hrun2 & Hlen2 & Hkw2 & Hi2 & Ho2 & Hl2).
  exists (h2 ++ [SkyDiffuseCubeObj map pn meta kw [pn]]), d2.
  rewrite (run_bind _ _ _ _ _ Hrun1), (run_bind _ _ _ _ _ Hrun2).
  unfold alloc. rewrite Hlen2, Hlen1. split_and!; [done | | | | |].
  - rewrite <-Hlen1, <-Hlen2. apply lookup_fresh.
  - apply lookup_grow. by rewrite Hl2, Hl1.
  - by apply lookup_grow.
  - by rewrite Ho2, Hi1.
  - rewrite Hi2. by rewrite Ho1.
Qed.

Lemma interp_by_coord_shape geom data coord interp fill_value s :
  broadcast_shapes (shape (coord_lon coord)) (shape (coord_lat coord))
    ≫= broadcast_shapes (shape (q_value (coord_energy coord))) = Some s →
  ∃ val, interp_by_coord geom data coord interp fill_value = Return val ∧
         shape val = s ∧ wf_ndarray val.
Proof.
  intros Hs. unfold interp_by_coord. rewrite Hs.
  eexists. split; [done|]. split; [done|]. apply wf_tabulate.
Qed.

(** outside the map's domain the interpolation gives the fill value *)
Lemma interp_by_coord_outside geom data coord interp x val idx :
  interp_by_coord geom data coord interp (Some (PyNum x)) = Return val →
  in_range (shape val) idx →
  in_domain geom (coord_point coord idx) = false →
  item val idx = x.
Proof.
  unfold interp_by_coord. destruct (_ ≫= _) as [s|]; [|done].
  intros [= <-] Hidx Hout. cbn [shape] in Hidx.
  rewrite item_tabulate by done. cbn. by rewrite Hout.
Qed.

(** C9.  The template cube.  Its constructor leaves in the keyword
    dictionary the interpolation mode and the fill value it was given,
    and "linear" and 0 for those it was not given (all of them when no
    dictionary is passed).  [SkyDiffuseCube.evaluate] converts [lon] and
    [lat] to degrees, interpolates the wrapped map at the coordinate
    record with the mode and the fill value of that dictionary,
    multiplies by the current value of the "norm" parameter and tags the
    result with the map's unit; the arena is not written to.  A query
    point outside the map's domain gets [norm * fill_value], and the
    evaluation returns whenever the three coordinate arrays fit
    together. *)
Theorem SkyDiffuseCube_evaluate_interpolates h :
  (∀ map geom d unit axis norm meta interp_kwargs given,
     h !! map = Some (MapObj geom d unit) →
     get_axis_by_name geom "energy" = Return axis →
     node_type axis = "center" →
     match interp_kwargs with
     | None => given = ∅
     | Some kw => h !! kw = Some (PyDict given)
     end →
     ∃ self h' pn m kw kwargs,
       SkyDiffuseCube_init map norm meta interp_kwargs h = (Return self, h') ∧
       h' !! self = Some (SkyDiffuseCubeObj map pn m kw [pn]) ∧
       h' !! pn = Some (ParameterObj
                    (mk_parameter "norm" norm dimensionless None None false)) ∧
       h' !! kw = Some (PyDict kwargs) ∧
       kwargs !! "interp"
       = Some (default (PyStr "linear") (given !! "interp")) ∧
       kwargs !! "fill_value"
       = Some (default (PyNum f_zero) (given !! "fill_value")))
  ∧ (∀ self map pn meta kw ps geom d unit data kwargs norm
       lon lat energy lon_deg lat_deg,
       h !! self = Some (SkyDiffuseCubeObj map pn meta kw ps) →
       h !! map = Some (MapObj geom d unit) →
       h !! d = Some (NdArrayObj data) →
       h !! kw = Some (PyDict kwargs) →
       parameters_getitem ps "norm" h = (Return norm, h) →
       to_value lon deg = Return lon_deg →
       to_value lat deg = Return lat_deg →
       let coord := mk_coord lon_deg lat_deg energy in
       SkyDiffuseCube_evaluate self lon lat energy h
       = (obind (interp_by_coord geom data coord
                   (kwargs !! "interp") (kwargs !! "fill_value"))
            (λ val, Return (mk_quantity
                      (map_ndarray (f_mul (par_value norm)) val) unit)), h)
       ∧ ∀ x s,
           kwargs !! "fill_value" = Some (PyNum x) →
           broadcast_shapes (shape lon_deg) (shape lat_deg)
             ≫= broadcast_shapes (shape (q_value energy)) = Some s →
           ∃ r, SkyDiffuseCube_evaluate self lon lat energy h = (Return r, h) ∧
                q_unit r = unit ∧ shape (q_value r) = s ∧
                ∀ idx, in_range s idx →
                  in_domain geom (coord_point coord idx) = false →
                  item (q_value r) idx = f_mul (par_value norm) x).
Proof.
  split.
  - intros map geom d unit axis norm meta interp_kwargs given
      Hmap Haxis Hnode Hgiven.
    rewrite SkyDiffuseCube_init_unfold.
    rewrite (run_bind _ _ _ _ _ (run_get_map _ _ _ _ _ Hmap)).
    cbv beta iota. rewrite Haxis, run_bind_lift, Hnode.
    rewrite decide_False by (intros Hne; by apply Hne).
    rewrite run_bind_alloc.
    set (p := mk_parameter "norm" norm dimensionless None None false).
    assert (Hp : ∀ ext, (h ++ ParameterObj p :: ext) !! length h
                        = Some (ParameterObj p))
      by (intros; apply lookup_fresh).
    destruct meta as [m|], interp_kwargs as [kw|];
      repeat (rewrite run_bind_alloc || rewrite run_bind_ret).
    + destruct (run_defaults_and_object (h ++ [ParameterObj p]) map
                  (length h) m kw given p)
        as (h' & kwargs & Hrun & Hself & Hpn & Hkw & Hi & Hf);
        [by apply lookup_grow | apply Hp |].
      rewrite Hrun. eexists _, _, _, _, _, _.
      split_and!; [done | exact Hself | exact Hpn | exact Hkw | done..].
    + subst given.
      destruct (run_defaults_and_object ((h ++ [ParameterObj p]) ++ [PyDict ∅])
                  map (length h) m (length (h ++ [ParameterObj p])) ∅ p)
        as (h' & kwargs & Hrun & Hself & Hpn & Hkw & Hi & Hf);
        [by rewrite lookup_fresh | rewrite <-app_assoc; apply Hp |].
      rewrite Hrun. eexists _, _, _, _, _, _.
      split_and!; [done | exact Hself | exact Hpn | exact Hkw | done..].
    + destruct (run_defaults_and_object ((h ++ [ParameterObj p]) ++ [PyDict ∅])
                  map (length h) (length (h ++ [ParameterObj p])) kw given p)
        as (h' & kwargs & Hrun & Hself & Hpn & Hkw & Hi & Hf);
        [by do 2 apply lookup_grow | rewrite <-app_assoc; apply Hp |].
      rewrite Hrun. eexists _, _, _, _, _, _.
      split_and!; [done | exact Hself | exact Hpn | exact Hkw | done..].
    + subst given.
      destruct (run_defaults_and_object
                  (((h ++ [ParameterObj p]) ++ [PyDict ∅]) ++ [PyDict ∅])
                  map (length h) (length (h ++ [ParameterObj p]))
                  (length ((h ++ [ParameterObj p]) ++ [PyDict ∅])) ∅ p)
        as (h' & kwargs & Hrun & Hself & Hpn & Hkw & Hi & Hf);
        [by rewrite lookup_fresh | rewrite <-!app_assoc; apply Hp |].
      rewrite Hrun. eexists _, _, _, _, _, _.
      split_and!; [done | exact Hself | exact Hpn | exact Hkw | done..].
  - intros self map pn meta kw ps geom d unit data kwargs norm
      lon lat energy lon_deg lat_deg
      Hself Hmap Hd Hkw Hnorm Hlon Hlat coord.
    assert (Hrun : SkyDiffuseCube_evaluate self lon lat energy h
       = (obind (interp_by_coord geom data coord
                   (kwargs !! "interp") (kwargs !! "fill_value"))
            (λ val, Return (mk_quantity
                      (map_ndarray (f_mul (par_value norm)) val) unit)), h)).
    { unfold SkyDiffuseCube_evaluate.
      rewrite (run_bind _ _ _ _ _ (run_deref _ _ _ Hself)).
      rewrite Hlon, run_bind_lift, Hlat, run_bind_lift.
      rewrite (run_bind _ _ _ _ _ (run_get_map _ _ _ _ _ Hmap)).
      cbv beta iota.
      rewrite (run_bind _ _ _ _ _ (run_get_array _ _ _ Hd)).
      rewrite (run_bind _ _ _ _ _ (run_get_dict _ _ _ Hkw)).
      fold coord.
      destruct (interp_by_coord _ _ _ _ _) as [val|e]; [|done].
      rewrite run_bind_lift. by rewrite (run_bind _ _ _ _ _ Hnorm). }
    split; [done|]. intros x s Hfill Hs. rewrite Hrun, Hfill.
    destruct (interp_by_coord_shape geom data coord (kwargs !! "interp")
                (Some (PyNum x)) s Hs) as (val & Hval & Hshape & Hwf).
    rewrite Hval. cbn [obind]. eexists. split; [done|].
    cbn [q_unit q_value map_ndarray shape]. split_and!; [done..|].
    intros idx Hidx Hout. rewrite <-Hshape in Hidx.
    change (item (map_ndarray (f_mul (par_value norm)) val) idx
            = f_mul (par_value norm) x).
    rewrite item_map_ndarray by done.
    by rewrite (interp_by_coord_outside _ _ _ _ _ _ _ Hval Hidx Hout).
Qed.
End evaluate_claims.

(** ** Background model evaluation *)

Section background_claims.
Context {F U : Type} `{Scalar F} `{Units F U}.
Implicit Types (h : list (object (F:=F) (U:=U))) (l c m self : loc).
Implicit Types (norm tilt reference : FitParameter (F:=F) (U:=U)).

Lemma run_get_background h self map pn pt pr ps :
  h !! self = Some (BackgroundModelObj map pn pt pr ps) →
  get_background self h = (Return (map, ps), h).
Proof.
  intros Hs. unfold get_background.
  by rewrite (run_bind _ _ _ _ _ (run_deref _ _ _ Hs)).
Qed.

Lemma run_energy_center h self map pn pt pr ps geom d unit axis :
  h !! self = Some (BackgroundModelObj map pn pt pr ps) →
  h !! map = Some (MapObj geom d unit) →
  get_axis_by_name geom "energy" = Return axis →
  energy_center self h
  = (Return (mk_quantity (newaxis2 (array1 (axis_center axis)))
                         (axis_unit axis)), h).
Proof.
  intros Hs Hm Hax. unfold energy_center.
  rewrite (run_bind _ _ _ _ _ (run_get_background _ _ _ _ _ _ _ Hs)).
  rewrite (run_bind _ _ _ _ _ (run_get_map _ _ _ _ _ Hm)).
  unfold lift, mbind, M_bind. by rewrite Hax.
Qed.

(** the tilt factor [np.power((energy_center / reference).to(""), -tilt)]:
    a column of shape [(n, 1, 1)] *)
Lemma tilt_factor_column (centers : list F) (ref s tilt : F) k :
  k < length centers →
  nth k (buffer (map_ndarray (λ x, f_pow x (f_neg tilt))
           (map_ndarray (λ x, f_mul x s)
              (mk_ndarray [length centers; 1; 1]
                 ((λ idx, f_div (bitem (newaxis2 (array1 centers)) idx)
                                (bitem (scalar ref) idx))
                    <$> ndindex [length centers; 1; 1]))))) f_zero
  = f_pow (f_mul (f_div (nth k centers f_zero) ref) s) (f_neg tilt).
Proof.
  intros Hk. cbn [map_ndarray buffer shape].
  apply nth_lookup_Some. rewrite !list_lookup_fmap.
  assert (Hr : in_range [length centers; 1; 1] [k; 0; 0]) by (cbn; lia).
  pose proof (ndindex_lookup _ _ Hr) as Hidx.
  replace (offset [length centers; 1; 1] [k; 0; 0]) with k in Hidx
    by (cbn; lia).
  rewrite Hidx. cbn [fmap option_fmap option_map].
  rewrite bitem_scalar, (bitem_column _ (length centers)) by done.
  done.
Qed.

Lemma run_BackgroundModel_evaluate
    h self map pn pt pr ps norm tilt reference geom d unit data axis ny nx s :
  h !! self = Some (BackgroundModelObj map pn pt pr ps) →
  parameters_getitem ps "norm" h = (Return norm, h) →
  parameters_getitem ps "tilt" h = (Return tilt, h) →
  parameters_getitem ps "reference" h = (Return reference, h) →
  h !! map = Some (MapObj geom d unit) →
  h !! d = Some (NdArrayObj data) →
  get_axis_by_name geom "energy" = Return axis →
  shape data = [length (axis_center axis); ny; nx] →
  unit_to (unit_div (axis_unit axis) (par_unit reference)) dimensionless
    = Some s →
  let tilt_factor :=
    map_ndarray (λ x, f_pow x (f_neg (par_value tilt)))
      (map_ndarray (λ x, f_mul x s)
         (mk_ndarray [length (axis_center axis); 1; 1]
            ((λ idx, f_div (bitem (newaxis2 (array1 (axis_center axis))) idx)
                           (bitem (scalar (par_value reference)) idx))
               <$> ndindex [length (axis_center axis); 1; 1]))) in
  let scaled := map_ndarray (f_mul (par_value norm)) data in
  BackgroundModel_evaluate self h
  = (Return (S (length h)),
     h ++ [NdArrayObj
             (mk_ndarray (shape data)
                ((λ idx, f_mul (bitem scaled idx) (bitem tilt_factor idx))
                   <$> ndindex (shape data)));
           MapObj geom (length h) unit]).
Proof.
  intros Hs Hn Ht Hr Hm Hd Hax Hshape Hu tilt_factor scaled.
  unfold BackgroundModel_evaluate.
  rewrite (run_bind _ _ _ _ _ (run_get_background _ _ _ _ _ _ _ Hs)).
  rewrite (run_bind _ _ _ _ _ Hn), (run_bind _ _ _ _ _ Ht),
    (run_bind _ _ _ _ _ Hr).
  rewrite (run_bind _ _ _ _ _ (run_energy_center _ _ _ _ _ _ _ _ _ _ _ Hs Hm Hax)).
  unfold quantity_div, np_divide, broadcast2. cbn [q_value q_unit par_quantity].
  replace (shape (newaxis2 (array1 (axis_center axis))))
    with [length (axis_center axis); 1; 1] by done.
  cbn [scalar shape]. rewrite broadcast_shapes_nil_r. cbn [obind].
  rewrite run_bind_lift.
  unfold quantity_to, to_value. cbn [q_value q_unit]. rewrite Hu. cbn [obind].
  rewrite run_bind_lift. cbn [q_value].
  rewrite (run_bind _ _ _ _ _ (run_get_map _ _ _ _ _ Hm)).
  rewrite (run_bind _ _ _ _ _ (run_get_array _ _ _ Hd)).
  unfold np_multiply, broadcast2. cbn [map_ndarray shape].
  rewrite Hshape, broadcast_shapes_column.
  rewrite run_bind_lift.
  unfold Map_copy.
  rewrite (run_bind _ _ _ _ _ (run_get_map _ _ _ _ _ Hm)).
  unfold alloc, mbind, M_bind.
  rewrite length_app, Nat.add_1_r, <-app_assoc. cbn [app].
  subst tilt_factor scaled. unfold map_ndarray. cbn [shape buffer].
  by rewrite Hshape.
Qed.

(** C4.  [BackgroundModel.evaluate] returns a new map with the geometry
    and the unit of the wrapped map; its data has the shape of the
    wrapped data and, at energy bin [k] and pixel [(j, i)], the value
    [norm * data[k, j, i] * (center[k] / reference)^(-tilt)], the ratio
    being converted to a dimensionless number.  With [tilt = 0] the data
    is [norm * data], whatever the reference and the bin centers, given
    that [pow(x, -0) = 1] and [x * 1 = x] in the scalars. *)
Theorem BackgroundModel_evaluate_tilt
    h self map pn pt pr ps norm tilt reference geom d unit data axis ny nx s :
  h !! self = Some (BackgroundModelObj map pn pt pr ps) →
  parameters_getitem ps "norm" h = (Return norm, h) →
  parameters_getitem ps "tilt" h = (Return tilt, h) →
  parameters_getitem ps "reference" h = (Return reference, h) →
  h !! map = Some (MapObj geom d unit) →
  h !! d = Some (NdArrayObj data) →
  wf_ndarray data →
  get_axis_by_name geom "energy" = Return axis →
  shape data = [length (axis_center axis); ny; nx] →
  unit_to (unit_div (axis_unit axis) (par_unit reference)) dimensionless
    = Some s →
  ∃ r h' d' res,
    BackgroundModel_evaluate self h = (Return r, h') ∧
    h !! r = None ∧
    h' !! r = Some (MapObj geom d' unit) ∧
    h' !! d' = Some (NdArrayObj res) ∧
    shape res = shape data ∧
    (∀ k j i, k < length (axis_center axis) → j < ny → i < nx →
       item res [k; j; i]
       = f_mul (f_mul (par_value norm) (item data [k; j; i]))
           (f_pow (f_mul (f_div (nth k (axis_center axis) f_zero)
                                (par_value reference)) s)
                  (f_neg (par_value tilt)))) ∧
    (ScalarLaws F → par_value tilt = f_zero →
       res = map_ndarray (f_mul (par_value norm)) data).
Proof.
  intros Hs Hn Ht Hr Hm Hd Hwf Hax Hshape Hu.
  rewrite (run_BackgroundModel_evaluate _ _ _ _ _ _ _ _ _ _ _ _ _ _ _ _ _ _
             Hs Hn Ht Hr Hm Hd Hax Hshape Hu).
  eexists _, _, (length h), _. split; [done|].
  split; [apply lookup_ge_None; lia|].
  split; [rewrite lookup_app_r by lia;
          by replace (S (length h) - length h) with 1 by lia|].
  split; [apply lookup_fresh|].
  split; [done|].
  assert (Hentry : ∀ idx, in_range (shape data) idx →
    f_mul (bitem (map_ndarray (f_mul (par_value norm)) data) idx)
      (bitem (map_ndarray (λ x, f_pow x (f_neg (par_value tilt)))
         (map_ndarray (λ x, f_mul x s)
            (mk_ndarray [length (axis_center axis); 1; 1]
               ((λ idx, f_div (bitem (newaxis2 (array1 (axis_center axis))) idx)
                              (bitem (scalar (par_value reference)) idx))
                  <$> ndindex [length (axis_center axis); 1; 1])))) idx)
    = f_mul (f_mul (par_value norm) (item data idx))
        (f_pow (f_mul (f_div (nth (default 0 (head idx)) (axis_center axis) f_zero)
                             (par_value reference)) s)
               (f_neg (par_value tilt)))).
  { intros idx Hidx. rewrite bitem_in_range by done.
    rewrite item_map_ndarray by done.
    rewrite Hshape in Hidx.
    destruct idx as [|k [|j [|i [|]]]]; cbn in Hidx; try tauto.
    destruct Hidx as (Hk & Hj & Hi & _).
    rewrite (bitem_column _ (length (axis_center axis))) by done.
    by rewrite tilt_factor_column. }
  split.
  - intros k j i Hk Hj Hi.
    assert (Hidx : in_range (shape data) [k; j; i])
      by (rewrite Hshape; cbn; lia).
    rewrite item_tabulate by done. by rewrite (Hentry _ Hidx).
  - intros Hlaws Htilt.
    transitivity (mk_ndarray (shape data)
                    (f_mul (par_value norm) <$> buffer data)); [|done].
    f_equal.
    assert (Hb : f_mul (par_value norm) <$> buffer data
                 = (λ idx, f_mul (par_value norm) (item data idx))
                     <$> ndindex (shape data)).
    { rewrite <-(tabulate_items data Hwf) at 1.
      by rewrite <-list_fmap_compose. }
    rewrite Hb. apply list_fmap_ext.
    intros n idx Hidx%list_elem_of_lookup_2%ndindex_in_range.
    by rewrite (Hentry _ Hidx), Htilt, f_pow_neg_zero, f_mul_one_r.
Qed.

(** *** What evaluation leaves behind *)

Lemma get_background_inv self h map ps h' :
  get_background self h = (Return (map, ps), h') →
  ∃ pn pt pr, h !! self = Some (BackgroundModelObj map pn pt pr ps).
Proof.
  unfold get_background, mbind, M_bind, deref.
  destruct (h !! self) as [[]|]; unfold mret, M_ret, raise; try done.
  intros [= -> -> _]. eauto.
Qed.

Lemma get_map_inv l h geom d unit h' :
  get_map l h = (Return (geom, d, unit), h') →
  h !! l = Some (MapObj geom d unit).
Proof.
  unfold get_map, mbind, M_bind, deref.
  destruct (h !! l) as [[]|]; unfold mret, M_ret, raise; try done.
  by intros [= -> -> -> _].
Qed.

Lemma get_array_inv l h a h' :
  get_array l h = (Return a, h') → h !! l = Some (NdArrayObj a).
Proof.
  unfold get_array, mbind, M_bind, deref.
  destruct (h !! l) as [[]|]; unfold mret, M_ret, raise; try done.
  by intros [= -> _].
Qed.

(** an evaluation either raises and leaves the arena as it was, or
    appends the new data array and the new map to it *)
Lemma BackgroundModel_evaluate_inv self h o h' :
  BackgroundModel_evaluate self h = (o, h') →
  (∃ e, o = Raise e ∧ h' = h) ∨
  (∃ map pn pt pr ps geom d unit data res,
     h !! self = Some (BackgroundModelObj map pn pt pr ps) ∧
     h !! map = Some (MapObj geom d unit) ∧
     h !! d = Some (NdArrayObj data) ∧
     o = Return (S (length h)) ∧
     h' = h ++ [NdArrayObj res; MapObj geom (length h) unit]).
Proof.
  unfold BackgroundModel_evaluate. intros Hrun.
  apply bind_inv in Hrun
    as [(e & ->%get_background_reads & ->)
       | ([map ps] & h1 & Hself & Hrun)]; [by eauto|].
  pose proof (get_background_reads _ _ _ _ Hself) as ->.
  apply get_background_inv in Hself as (pn & pt & pr & Hself).
  apply bind_inv in Hrun
    as [(e & ->%parameters_getitem_reads & ->)
       | (norm & h1 & ->%parameters_getitem_reads & Hrun)]; [by eauto|].
  apply bind_inv in Hrun
    as [(e & ->%parameters_getitem_reads & ->)
       | (tilt & h1 & ->%parameters_getitem_reads & Hrun)]; [by eauto|].
  apply bind_inv in Hrun
    as [(e & ->%parameters_getitem_reads & ->)
       | (reference & h1 & ->%parameters_getitem_reads & Hrun)]; [by eauto|].
  apply bind_inv in Hrun
    as [(e & ->%energy_center_reads & ->)
       | (center & h1 & ->%energy_center_reads & Hrun)]; [by eauto|].
  apply bind_inv in Hrun
    as [(e & ->%lift_reads & ->)
       | (ratio & h1 & ->%lift_reads & Hrun)]; [by eauto|].
  apply bind_inv in Hrun
    as [(e & ->%lift_reads & ->)
       | (ratio' & h1 & ->%lift_reads & Hrun)]; [by eauto|].
  apply bind_inv in Hrun
    as [(e & ->%get_map_reads & ->)
       | ([[geom d] unit] & h1 & Hmap & Hrun)]; [by eauto|].
  pose proof (get_map_reads _ _ _ _ Hmap) as ->.
  apply bind_inv in Hrun
    as [(e & ->%get_array_reads & ->)
       | (data & h1 & Hdata & Hrun)]; [by eauto|].
  pose proof (get_array_reads _ _ _ _ Hdata) as ->.
  apply get_array_inv in Hdata.
  apply bind_inv in Hrun
    as [(e & ->%lift_reads & ->)
       | (back_values & h1 & ->%lift_reads & Hrun)]; [by eauto|].
  right. unfold Map_copy in Hrun.
  rewrite (run_bind _ _ _ _ _ Hmap) in Hrun.
  apply get_map_inv in Hmap.
  unfold alloc, mbind, M_bind in Hrun. injection Hrun as <- <-.
  rewrite length_app, Nat.add_1_r, <-app_assoc. cbn [app].
  by eauto 15.
Qed.

(** C10.  [BackgroundModel.evaluate] does not change what is there:
    every object of the arena, hence the model, the data array of the
    wrapped map and the norm, tilt and reference parameters, is after the
    call what it was before.  The map it returns is a new object with a
    data array of its own: a write into the returned map's data leaves
    the wrapped map's data as it was. *)
Theorem BackgroundModel_evaluate_frame h self map pn pt pr ps o h' :
  h !! self = Some (BackgroundModelObj map pn pt pr ps) →
  BackgroundModel_evaluate self h = (o, h') →
  (∀ l obj, h !! l = Some obj → h' !! l = Some obj) ∧
  (∀ a, map_data h map = Some a → map_data h' map = Some a) ∧
  (∀ p v, parameter_value h p = Some v → parameter_value h' p = Some v) ∧
  (∀ r, o = Return r →
     h !! r = None ∧ r ≠ map ∧
     ∀ idx v, ∃ h'',
       Map_setitem r idx v h' = (Return (), h'') ∧
       ∀ a, map_data h map = Some a → map_data h'' map = Some a).
Proof.
  intros Hself Hrun.
  assert (Hdata : ∀ h1, (∀ l obj, h !! l = Some obj → h1 !! l = Some obj) →
            ∀ a, map_data h map = Some a → map_data h1 map = Some a).
  { intros h1 Hkeep a. unfold map_data.
    destruct (h !! map) as [[]|] eqn:Hm; try done.
    rewrite (Hkeep _ _ Hm).
    destruct (h !! data) as [[]|] eqn:Hd; try done.
    by rewrite (Hkeep _ _ Hd). }
  assert (Hkeep : ∀ l obj, h !! l = Some obj → h' !! l = Some obj).
  { apply BackgroundModel_evaluate_inv in Hrun
      as [(e & -> & ->) | (? & ? & ? & ? & ? & ? & ? & ? & ? & ? & _ & _ & _ & _ & ->)];
      [done|]. intros l obj. apply lookup_grow. }
  split_and!; [done | by apply Hdata | |].
  - intros p v. unfold parameter_value.
    destruct (h !! p) as [obj|] eqn:Hp; [|done]. by rewrite (Hkeep _ _ Hp).
  - intros r ->.
    apply BackgroundModel_evaluate_inv in Hrun
      as [(e & ? & _) | (map' & ? & ? & ? & ? & geom & d & unit & data & res
                         & Hself' & Hmap & Hd & [= ->] & ->)]; [done|].
    rewrite Hself in Hself'. injection Hself' as <- <- <- <- <-.
    assert (map < length h) by by eapply lookup_lt_Some.
    assert (d < length h) by by eapply lookup_lt_Some.
    split_and!; [apply lookup_ge_None; lia | lia |].
    intros idx v. eexists. split.
    + unfold Map_setitem.
      erewrite run_bind; last first.
      { apply run_get_map. rewrite lookup_app_r by lia.
        by replace (S (length h) - length h) with 1 by lia. }
      cbv beta iota.
      erewrite run_bind; last by (apply run_get_array, lookup_fresh).
      reflexivity.
    + apply Hdata. intros l obj Hl.
      assert (l < length h) by by eapply lookup_lt_Some.
      rewrite list_lookup_insert_ne by lia. by apply lookup_grow.
Qed.
End background_claims.

(** * The theorems at work on the example arena *)

Section examples.
Import Example.



(** C2 fails as stated when members share parameters.  The two sky
    models [9] and [10] are built over the same spatial model and
    spectral models of the same amplitude parameter.  The concatenation
    of the members' parameter lists of [SkyModels([9, 10, 14])] is
    [[4; 5; 4; 5; 11]]; the collection's parameter list is [[4; 5; 11]],
    each parameter once. *)
Lemma aggregated_parameters_concatenation_counterexample :
  ∃ c h', SkyModels_init 15 sky_list = (Return c, h') ∧
          members h' c = Some [9; 10; 14] ∧
          concat_parameters h' [9; 10; 14] = Some [4; 5; 4; 5; 11] ∧
          parameters_of h' c = Some [4; 5; 11] ∧
          parameters_of h' c ≠ concat_parameters h' [9; 10; 14].
Proof.
  eexists _, _. split; [vm_compute; reflexivity|].
  split_and!; [reflexivity | reflexivity | reflexivity | discriminate].
Qed.

(** the collection over [[9; 10; 14]]: the parameters of the shared
    spatial and spectral models come once, where they first come *)
Lemma aggregated_parameters_first_occurrences_witness :
  ∃ c h', SkyModels_init 15 sky_list = (Return c, h') ∧
          sky_list `prefix_of` h' ∧ members h' c = Some [9; 10; 14] ∧
          parameters_of h' c
          = Some (Parameters_init (mjoin [[4; 5]; [4; 5]; [11]])).
Proof.
  apply (proj1 (aggregated_parameters_first_occurrences sky_list)
           15 [9; 10; 14] [[4; 5]; [4; 5]; [11]]);
    [reflexivity | repeat constructor].
Defined.

(** C5 fails as stated.  Take the two distinct sky models [a = 9] and
    [b = 10] and the expression [b + a].  Its forward form [b.__add__(a)]
    lists the left operand first, [[b; a]].  Its reflected form
    [a.__radd__(b)] lists the right operand first, [[a; b]]: it neither
    gives the forward form's result nor keeps the left operand's members
    first. *)
Lemma reflected_addition_order_counterexample :
  is_sky_leaf sky 9 ∧ is_sky_leaf sky 10 ∧
  (∃ c h', SkyModelBase_add 10 9 sky = (Return c, h') ∧
           members h' c = Some [10; 9]) ∧
  (∃ c h', SkyModelBase_radd 9 10 sky = (Return c, h') ∧
           members h' c = Some [9; 10]) ∧
  ¬ (∃ c h', SkyModelBase_radd 9 10 sky = (Return c, h') ∧
             members h' c = Some [10; 9]).
Proof.
  split_and!; [exact I | exact I | | |].
  - eexists _, _. split; [vm_compute; reflexivity | reflexivity].
  - eexists _, _. split; [vm_compute; reflexivity | reflexivity].
  - intros (c & h' & Hrun & Hm).
    vm_compute in Hrun. injection Hrun as <- <-.
    vm_compute in Hm. discriminate Hm.
Qed.

Lemma reflected_addition_receiver_first_witness :
  SkyModelBase_radd 9 10 sky = sky_add 9 10 sky ∧
  yields_collection is_sky_collection (SkyModelBase_radd 9 10 sky) sky [9; 10].
Proof.
  apply (reflected_addition_receiver_first sky 9 10 [9] [10]);
    [reflexivity | reflexivity | |];
    repeat constructor; vm_compute; eauto.
Defined.

(** C3 fails on the code.  [c = SkyModels([a]); c += cube]: the member
    list of [c] becomes [[a; cube]] while its parameter list stays the
    one computed at construction, without the cube's norm; the same on
    the background side.  The aggregation invariant, which held before
    the [+=], does not hold after it. *)
Theorem iadd_parameters_not_aggregated :
  (aggregated sky_collection 16 ∧
   ∃ h', SkyModels_iadd 16 14 sky_collection = (Return 16, h') ∧
         members h' 16 = Some [9; 14] ∧
         parameters_of h' 16 = Some [4; 5] ∧
         concat_parameters h' [9; 14] = Some [4; 5; 11] ∧
         ¬ aggregated h' 16)
  ∧ (aggregated background_collection 18 ∧
     ∃ h', BackgroundModels_iadd 18 16 background_collection = (Return 18, h') ∧
           members h' 18 = Some [12; 16] ∧
           parameters_of h' 18 = Some [9; 10; 11] ∧
           concat_parameters h' [12; 16] = Some [9; 10; 11; 13; 14; 15] ∧
           ¬ aggregated h' 18).
Proof.
  split; (split; [by vm_compute; eauto|]); eexists;
    (split; [vm_compute; reflexivity|]);
    (split_and!; [reflexivity..|]);
    intros Hagg; vm_compute in Hagg; destruct Hagg as [_ Heq];
    discriminate Heq.
Qed.

Lemma axis_validation_at_construction_witness :
  SkyDiffuseCube_init 0 1%Z None None base = (Raise center_error, base)
  ∧ BackgroundModel_init 2 1%Z 0%Z (1%Z, TeV) base = (Raise edges_error, base).
Proof.
  split.
  - by apply (proj1 (axis_validation_at_construction base 0 edges_geom 1
                       (0, 0)%Z (mk_axis "energy" "edges" TeV [1; 10]%Z)
                       eq_refl eq_refl)).
  - by apply (proj2 (axis_validation_at_construction base 2 center_geom 3
                       (-1, -2)%Z (mk_axis "energy" "center" TeV [1; 10]%Z)
                       eq_refl eq_refl)).
Defined.

Lemma empty_collection_evaluation_raises_witness :
  SkyModels_evaluate 3 10 lon lat energy empty = (Raise IndexError, empty)
  ∧ BackgroundModels_evaluate 3 12 empty = (Raise UnboundLocalError, empty).
Proof.
  split.
  - by apply (proj1 (empty_collection_evaluation_raises empty 10 eq_refl)).
  - by apply (proj2 (empty_collection_evaluation_raises empty 12 eq_refl)).
Defined.

(** a uniform density 2 over two positions times a flat flux 3 over two
    energies is 6 at each of the four combinations; a spectrum over three
    energies does not fit the two positions *)
Lemma SkyModel_evaluate_product_witness :
  (∃ r, SkyModel_evaluate 9 lon lat energy sky = (Return r, sky) ∧
        shape (q_value r) = [2; 2] ∧
        q_unit r = (-1, -2)%Z ∧
        ∀ idx, in_range [2; 2] idx → item (q_value r) idx = 6%Z)
  ∧ SkyModel_evaluate 10 lon lat energy sky = (Raise broadcast_error, sky).
Proof.
  split.
  - destruct (SkyModel_evaluate_product sky 9 "a" 6 7 [4; 5] lon lat energy
                _ _ eq_refl eq_refl eq_refl) as (r & Hrun & Hs & Hu & Hitem).
    exists r. split_and!; [done..|].
    intros idx Hidx. rewrite (Hitem idx Hidx).
    destruct idx as [|[|[|]] [|[|[|]] [|]]]; cbn in Hidx; try lia; reflexivity.
  - exact (SkyModel_evaluate_product sky 10 "b" 6 8 [4; 5] lon lat energy
             _ _ eq_refl eq_refl eq_refl).
Defined.

(** the cube built with no keyword dictionary, queried at one position
    on the map and one off it *)
Lemma SkyDiffuseCube_evaluate_interpolates_witness :
  (∃ self h' pn m kw kwargs,
     SkyDiffuseCube_init 2 1%Z None None base = (Return self, h') ∧
     h' !! self = Some (SkyDiffuseCubeObj 2 pn m kw [pn]) ∧
     h' !! pn = Some (ParameterObj
                  (mk_parameter "norm" 1%Z dimensionless None None false)) ∧
     h' !! kw = Some (PyDict kwargs) ∧
     kwargs !! "interp" = Some (PyStr "linear") ∧
     kwargs !! "fill_value" = Some (PyNum 0%Z))
  ∧ ∃ r, SkyDiffuseCube_evaluate 14 lon_far lat energy sky = (Return r, sky) ∧
         q_unit r = (-1, -2)%Z ∧ shape (q_value r) = [2; 2] ∧
         item (q_value r) [0; 1] = 0%Z ∧ item (q_value r) [1; 1] = 0%Z.
Proof.
  split.
  - exact (proj1 (SkyDiffuseCube_evaluate_interpolates base)
             2 center_geom 3 (-1, -2)%Z
             (mk_axis "energy" "center" TeV [1; 10]%Z) 1%Z None None ∅
             eq_refl eq_refl eq_refl eq_refl).
  - destruct (sky !! 13) as [[| kwargs | | | | | | | | | | |]|] eqn:Hkw;
      try discriminate Hkw.
    edestruct (proj2 (SkyDiffuseCube_evaluate_interpolates sky)
                 14 2 11 12 13 [11] center_geom 3 (-1, -2)%Z
                 (mk_ndarray [2; 1; 2] [5; 6; 7; 8]%Z) kwargs
                 (mk_parameter "norm" 1%Z dimensionless None None false)
                 lon_far lat energy)
      as [_ Hout]; [first [exact Hkw | reflexivity] .. |].
    vm_compute in Hkw. injection Hkw as <-.
    destruct (Hout 0%Z [2; 2] eq_refl eq_refl) as (r & Hrun & Hu & Hs & Hitem).
    exists r. split_and!; [done..| |].
    + exact (Hitem [0; 1] ltac:(cbn; lia) eq_refl).
    + exact (Hitem [1; 1] ltac:(cbn; lia) eq_refl).
Defined.

(** the background model of tilt 0 and norm 2 on the data [1 2 3 4] *)
Lemma BackgroundModel_evaluate_tilt_witness :
  ∃ r h', BackgroundModel_evaluate 12 background = (Return r, h') ∧
          background !! r = None ∧
          map_data h' r = Some (mk_ndarray [2; 1; 2] [2; 4; 6; 8]%Z).
Proof.
  edestruct (BackgroundModel_evaluate_tilt background 12 0 9 10 11 [9; 10; 11]
               (mk_parameter "norm" 2%Z dimensionless (Some 0%Z) None false)
               (mk_parameter "tilt" 0%Z dimensionless None None true)
               (mk_parameter "reference" 1%Z TeV None None true)
               edges_geom 1 (0, 0)%Z (mk_ndarray [2; 1; 2] [1; 2; 3; 4]%Z)
               (mk_axis "energy" "edges" TeV [1; 10]%Z) 1 2 1%Z)
    as (r & h' & d' & res & Hrun & Hnew & Hr & Hd & _ & _ & Hid);
    [reflexivity .. |].
  exists r, h'. split_and!; [done..|].
  unfold map_data. rewrite Hr, Hd. f_equal. by apply Hid; [apply _|].
Defined.

Lemma BackgroundModel_evaluate_frame_witness :
  ∃ r h', BackgroundModel_evaluate 16 background = (Return r, h') ∧
          map_data h' 0 = Some (mk_ndarray [2; 1; 2] [1; 2; 3; 4]%Z) ∧
          parameter_value h' 13 = Some 3%Z ∧
          parameter_value h' 14 = Some (-1)%Z ∧
          parameter_value h' 15 = Some 1%Z ∧
          background !! r = None ∧ r ≠ 0 ∧
          ∃ h'', Map_setitem r [0; 0; 0] 100%Z h' = (Return (), h'') ∧
                 map_data h'' 0 = Some (mk_ndarray [2; 1; 2] [1; 2; 3; 4]%Z).
Proof.
  destruct (BackgroundModel_evaluate 16 background) as [[r|e] h'] eqn:Hrun;
    [|vm_compute in Hrun; discriminate Hrun].
  destruct (BackgroundModel_evaluate_frame background 16 0 13 14 15
              [13; 14; 15] (Return r) h' eq_refl Hrun)
    as (_ & Hdata & Hpar & Hret).
  destruct (Hret r eq_refl) as (Hnew & Hne & Hset).
  destruct (Hset [0; 0; 0] 100%Z) as (h'' & Hrun' & Hdata').
  exists r, h'. split_and!; [done | by apply Hdata | by apply Hpar ..
                            | done | done |].
  exists h''. split; [done | by apply Hdata'].
Defined.
End examples.

(** * Further properties of the operators *)

Section more_algebra.
Context {F U : Type} `{Scalar F} `{Units F U}.
Implicit Types (h : list (object (F:=F) (U:=U))) (l c m a b x y self : loc).
Implicit Types (items own : list loc) (pss : list (list loc)).

Lemma run_sky_operand_other h x :
  not_sky h x → sky_operand x h = (Raise NotImplementedError, h).
Proof.
  unfold not_sky, sky_operand, mbind, M_bind, deref.
  by destruct (h !! x) as [[]|].
Qed.

Lemma run_background_operand_other h x :
  not_background h x → background_operand x h = (Raise NotImplementedError, h).
Proof.
  unfold not_background, background_operand, mbind, M_bind, deref.
  by destruct (h !! x) as [[]|].
Qed.

Lemma not_sky_grow h ext x : not_sky h x → not_sky (h ++ ext) x.
Proof.
  unfold not_sky. destruct (h !! x) as [o|] eqn:Hx; [|done].
  by rewrite (lookup_grow _ ext _ _ Hx).
Qed.

Lemma not_background_grow h ext x :
  not_background h x → not_background (h ++ ext) x.
Proof.
  unfold not_background. destruct (h !! x) as [o|] eqn:Hx; [|done].
  by rewrite (lookup_grow _ ext _ _ Hx).
Qed.

(** X1.  The sky-side operators refuse an operand that is neither a sky
    model nor a sky collection (a background model, a map, ...) with
    [NotImplementedError].  Nothing that exists is modified: [__add__]
    only leaves behind the list it had started, and [+=] leaves the
    arena, hence the collection, exactly as it was. *)
Theorem sky_operators_reject_other_operands h x :
  not_sky h x →
  (∀ self, SkyModelBase_add self x h
           = (Raise NotImplementedError, h ++ [PyList [self]]))
  ∧ (∀ self l ps items,
       h !! self = Some (SkyModelsObj l ps) → h !! l = Some (PyList items) →
       SkyModels_add self x h
       = (Raise NotImplementedError, h ++ [PyList items]) ∧
       SkyModels_iadd self x h = (Raise NotImplementedError, h)).
Proof.
  intros Hx. split.
  - intros self. unfold SkyModelBase_add. rewrite run_bind_alloc.
    by rewrite (run_bind_raise _ _ _ _ _
                  (run_sky_operand_other _ _ (not_sky_grow _ _ _ Hx))).
  - intros self l ps items Hself Hl. split.
    + unfold SkyModels_add.
      rewrite (run_bind _ _ _ _ _ (run_get_skymodels _ _ _ _ Hself)).
      rewrite (run_bind _ _ _ _ _ (run_get_items _ _ _ Hl)).
      rewrite run_bind_alloc.
      by rewrite (run_bind_raise _ _ _ _ _
                    (run_sky_operand_other _ _ (not_sky_grow _ _ _ Hx))).
    + unfold SkyModels_iadd.
      by rewrite (run_bind_raise _ _ _ _ _ (run_sky_operand_other _ _ Hx)).
Qed.

(** X2.  The same on the background side: [BackgroundModel.__add__] and
    [BackgroundModels.__iadd__] refuse an operand that is neither a
    background model nor a background collection. *)
Theorem background_operators_reject_other_operands h x :
  not_background h x →
  (∀ self, BackgroundModel_add self x h
           = (Raise NotImplementedError, h ++ [PyList [self]]))
  ∧ (∀ self, BackgroundModels_iadd self x h = (Raise NotImplementedError, h)).
Proof.
  intros Hx. split; intros self.
  - unfold BackgroundModel_add. rewrite run_bind_alloc.
    by rewrite (run_bind_raise _ _ _ _ _
                  (run_background_operand_other _ _
                     (not_background_grow _ _ _ Hx))).
  - unfold BackgroundModels_iadd.
    by rewrite (run_bind_raise _ _ _ _ _ (run_background_operand_other _ _ Hx)).
Qed.

(** X3.  A collection keeps the list object its constructor is given.
    Two collections built over one list therefore share their members:
    [+=] on the first extends that list in place, and the second
    collection and the caller's list show the new members too. *)
Theorem collections_over_one_list_share_members h lst items pss x items' :
  h !! lst = Some (PyList items) →
  Forall2 (λ m ps, parameters_of h m = Some ps) items pss →
  sky_members h x = Some items' →
  ∃ c1 c2 h',
    (c1 ← SkyModels_init lst; c2 ← SkyModels_init lst;
     SkyModels_iadd c1 x;; mret (c1, c2)) h = (Return (c1, c2), h') ∧
    c1 ≠ c2 ∧
    members h' c1 = Some (items ++ items') ∧
    members h' c2 = Some (items ++ items') ∧
    h' !! lst = Some (PyList (items ++ items')).
Proof.
  intros Hl Hall Hx.
  rewrite (run_bind _ _ _ _ _ (run_SkyModels_init _ _ _ _ Hl Hall)).
  set (o := SkyModelsObj lst (Parameters_init (mjoin pss))).
  rewrite (run_bind _ _ _ _ _
    (run_SkyModels_init (h ++ [o]) lst items pss
       (lookup_grow _ _ _ _ Hl) (Forall2_parameters_grow _ _ _ _ Hall))).
  rewrite length_app, Nat.add_1_r.
  assert (Hc1 : ((h ++ [o]) ++ [o]) !! length h = Some o)
    by (apply lookup_grow, lookup_fresh).
  assert (Hc2 : ((h ++ [o]) ++ [o]) !! S (length h) = Some o).
  { rewrite lookup_app_r by (rewrite length_app; cbn; lia).
    rewrite length_app, Nat.add_1_r, Nat.sub_diag. done. }
  assert (Hlst : ((h ++ [o]) ++ [o]) !! lst = Some (PyList items))
    by by do 2 apply lookup_grow.
  assert (Hx' : sky_members ((h ++ [o]) ++ [o]) x = Some items').
  { apply (sky_members_grow h); [|done]. rewrite <-app_assoc. by eexists. }
  rewrite (run_bind _ _ _ _ _
             (run_SkyModels_iadd _ _ _ _ _ _ _ Hc1 Hlst Hx')).
  assert (lst < length h) by by eapply lookup_lt_Some.
  eexists _, _, _. split; [done|].
  assert (Hlst' : <[lst := PyList (items ++ items')]> ((h ++ [o]) ++ [o]) !! lst
                  = Some (PyList (items ++ items'))).
  { apply list_lookup_insert_eq. rewrite !length_app. lia. }
  split_and!; [lia | | | done].
  - unfold members. rewrite list_lookup_insert_ne, Hc1 by lia.
    subst o. cbv beta iota. by rewrite Hlst'.
  - unfold members. rewrite list_lookup_insert_ne, Hc2 by lia.
    subst o. cbv beta iota. by rewrite Hlst'.
Qed.

(** X4.  The collection [__add__] returns has a member list of its own:
    extending the sum with [+=] leaves the operands of the addition as
    they were. *)
Theorem addition_result_has_its_own_list h c x y own items items' :
  is_sky_collection h c → members h c = Some own →
  sky_members h x = Some items → sky_members h y = Some items' →
  Forall (is_model h) own → Forall (is_model h) items →
  ∃ d h',
    (d ← SkyModels_add c x; SkyModels_iadd d y) h = (Return d, h') ∧
    h !! d = None ∧
    members h' d = Some ((own ++ items) ++ items') ∧
    members h' c = Some own ∧
    sky_members h' x = Some items ∧
    sky_members h' y = Some items'.
Proof.
  intros Hc Hown Hx Hy [pss Hall]%models_parameters
    [pss' Hall']%models_parameters.
  rewrite (run_bind _ _ _ _ _
             (run_SkyModels_add _ _ _ _ _ _ _ Hc Hown Hx Hall Hall')).
  set (o := SkyModelsObj (length h)
              (Parameters_init (mjoin pss ++ mjoin pss'))).
  assert (Hpre : h `prefix_of` h ++ [PyList (own ++ items); o]) by by eexists.
  assert (Hd : (h ++ [PyList (own ++ items); o]) !! S (length h) = Some o).
  { rewrite lookup_app_r by lia.
    by replace (S (length h) - length h) with 1 by lia. }
  rewrite (run_SkyModels_iadd _ _ _ _ _ _ _ Hd (lookup_fresh _ _ _)
             (sky_members_grow _ _ _ _ Hpre Hy)).
  rewrite insert_app_r_alt, Nat.sub_diag by lia. cbn [list_insert insert].
  assert (Hpre' : h `prefix_of`
                    h ++ [PyList ((own ++ items) ++ items'); o]) by by eexists.
  eexists _, _. split; [done|]. split_and!.
  - apply lookup_ge_None. lia.
  - assert (Hd' : (h ++ [PyList ((own ++ items) ++ items'); o])
                    !! S (length h) = Some o).
    { rewrite lookup_app_r by lia.
      by replace (S (length h) - length h) with 1 by lia. }
    unfold members. rewrite Hd'. unfold o. by rewrite lookup_fresh.
  - by apply (members_grow h).
  - by apply (sky_members_grow h).
  - by apply (sky_members_grow h).
Qed.
(** the parameters of a model are among the objects it holds *)
Lemma model_parameters_references (o : object (F:=F) (U:=U)) ps p :
  model_parameters o = Some ps → p ∈ ps → p ∈ references o.
Proof.
  destruct o; cbn; intros [= <-] Hp; try done;
    repeat (apply elem_of_cons; right); done.
Qed.

(** X18.  [BackgroundModels.__add__] does not aggregate the parameters
    of its result anew.  The collection it returns keeps the parameter
    list of the copy it started from: as many parameters as the left
    operand has, all of them new objects.  The members of the right
    operand are in its member list, and none of their parameters is in
    its parameter list. *)
Theorem BackgroundModels_add_keeps_copied_parameters h c x l ps own items :
  closed h →
  h !! c = Some (BackgroundModelsObj l ps) → h !! l = Some (PyList own) →
  background_members h x = Some items →
  ∃ c' h' own' ps',
    BackgroundModels_add c x h = (Return c', h') ∧
    members h' c' = Some (own' ++ items) ∧
    parameters_of h' c' = Some ps' ∧
    length ps' = length ps ∧
    Forall (λ p, h !! p = None) ps' ∧
    ∀ m pm p, parameters_of h m = Some pm → p ∈ pm → p ∉ ps'.
Proof.
  intros Hclosed Hc Hl Hx.
  destruct (run_BackgroundModels_add h c x l ps own items Hclosed Hc Hl Hx)
    as (σ & h1 & l' & ps' & own' & [Hcopies Hinj] & Hpre & Hσc & Hσl & Hps
        & _ & Hc' & Hlist & Hrun).
  assert (Hne : length h ≠ l').
  { intros <-. assert (c = l) as -> by by eapply Hinj. congruence. }
  assert (Hnew : Forall (λ p, h !! p = None) ps').
  { clear Hc Hc'. induction Hps as [|p p' ? ? Hp _ IH]; constructor; [|done].
    apply lookup_ge_None. by destruct (Hcopies _ _ Hp). }
  exists (length h), (<[l' := PyList (own' ++ items)]> h1), own', ps'.
  split_and!; [done | | | | done |].
  - unfold members. rewrite list_lookup_insert_ne, Hc' by done.
    rewrite list_lookup_insert_eq; [done|]. by eapply lookup_lt_Some.
  - unfold parameters_of. by rewrite list_lookup_insert_ne, Hc' by done.
  - symmetry. by eapply Forall2_length.
  - intros m pm p Hm Hp Hin. unfold parameters_of in Hm.
    destruct (h !! m) as [o|] eqn:Ho; [|done]. cbn in Hm.
    pose proof (model_parameters_references o pm p Hm Hp) as Href.
    unfold closed in Hclosed. rewrite Forall_lookup in Hclosed.
    specialize (Hclosed m o Ho). rewrite Forall_forall in Hclosed.
    specialize (Hclosed p Href).
    rewrite Forall_forall in Hnew. apply Hnew in Hin.
    apply lookup_ge_None in Hin. lia.
Qed.
End more_algebra.

(** * Further properties of the sky side *)

Section more_evaluate.
Context {F U : Type} `{Scalar F} `{Units F U} `{!Interpolator (F:=F) (U:=U)}.
Implicit Types (h : list (object (F:=F) (U:=U))) (l c m self : loc).
Implicit Types (lon lat energy : Quantity (F:=F) (U:=U)).

Lemma reads_bind {A B} (m : M (F:=F) (U:=U) A) (k : A → M (F:=F) (U:=U) B) :
  reads m → (∀ v, reads (k v)) → reads (m ≫= k).
Proof.
  intros Hm Hk h o h'.
  intros [(e & ->%Hm & _) | (v & h1 & ->%Hm & Hrun)]%bind_inv; [done|].
  by apply Hk in Hrun.
Qed.

Lemma reads_ret {A} (v : A) : reads (mret v : M (F:=F) (U:=U) A).
Proof. intros h o h'. unfold mret, M_ret. congruence. Qed.

Lemma reads_raise {A} e : reads (raise e : M (F:=F) (U:=U) A).
Proof. intros h o h'. unfold raise. congruence. Qed.

Lemma reads_lift {A} (r : outcome A) : reads (lift r : M (F:=F) (U:=U) A).
Proof. intros h o h'. apply lift_reads. Qed.

Lemma reads_deref l : reads (deref l : M (object (F:=F) (U:=U))).
Proof. intros h o h'. unfold deref. destruct (h !! l); congruence. Qed.

Lemma reads_parameter_quantities ps :
  reads (parameter_quantities ps : M (list (Quantity (F:=F) (U:=U)))).
Proof.
  induction ps as [|p ps IH]; cbn [parameter_quantities].
  - apply reads_ret.
  - apply reads_bind; [intros h o h'; apply get_parameter_reads|].
    intros par. apply reads_bind; [done|]. intros qs. apply reads_ret.
Qed.

Lemma reads_call_spatial model lon lat : reads (call_spatial model lon lat).
Proof.
  apply reads_bind; [apply reads_deref|].
  intros []; try apply reads_raise.
  apply reads_bind; [apply reads_parameter_quantities|].
  intros qs. apply reads_lift.
Qed.

Lemma reads_call_spectral model energy : reads (call_spectral model energy).
Proof.
  apply reads_bind; [apply reads_deref|].
  intros []; try apply reads_raise.
  apply reads_bind; [apply reads_parameter_quantities|].
  intros qs. apply reads_lift.
Qed.

Lemma reads_SkyModel_evaluate self lon lat energy :
  reads (SkyModel_evaluate self lon lat energy).
Proof.
  apply reads_bind; [apply reads_deref|].
  intros []; try apply reads_raise.
  apply reads_bind; [apply reads_call_spatial|]. intros vs.
  apply reads_bind; [apply reads_call_spectral|]. intros ve.
  apply reads_lift.
Qed.

Lemma reads_SkyDiffuseCube_evaluate self lon lat energy :
  reads (SkyDiffuseCube_evaluate self lon lat energy).
Proof.
  apply reads_bind; [apply reads_deref|].
  intros []; try apply reads_raise.
  apply reads_bind; [apply reads_lift|]. intros lon_deg.
  apply reads_bind; [apply reads_lift|]. intros lat_deg.
  apply reads_bind; [intros h o h'; apply get_map_reads|].
  intros [[geom d] unit].
  apply reads_bind; [intros h o h'; apply get_array_reads|]. intros arr.
  apply reads_bind; [intros h o h'; apply get_dict_reads|]. intros kwargs.
  apply reads_bind; [apply reads_lift|]. intros val.
  apply reads_bind; [intros h o h'; apply parameters_getitem_reads|].
  intros par. apply reads_ret.
Qed.

Lemma reads_accumulate (evaluate : loc → M (F:=F) (U:=U) Quantity) skymodels out :
  (∀ m, reads (evaluate m)) → reads (accumulate evaluate skymodels out).
Proof.
  intros Hev. revert out; induction skymodels as [|m ms IH]; intros out;
    cbn [accumulate].
  - apply reads_ret.
  - apply reads_bind; [apply Hev|]. intros val.
    apply reads_bind; [apply reads_lift|]. intros out'. apply IH.
Qed.

Lemma reads_SkyModels_evaluate_with (evaluate : loc → M (F:=F) (U:=U) Quantity) self :
  (∀ m, reads (evaluate m)) → reads (SkyModels_evaluate_with evaluate self).
Proof.
  intros Hev. apply reads_bind.
  { apply reads_bind; [apply reads_deref|].
    intros []; first [apply reads_ret | apply reads_raise]. }
  intros skymodels. apply reads_bind; [intros h o h'; apply get_items_reads|].
  intros [|first rest]; [apply reads_raise|].
  apply reads_bind; [apply Hev|]. intros out. by apply reads_accumulate.
Qed.

Lemma reads_sky_evaluate depth lon lat energy m :
  reads (sky_evaluate depth lon lat energy m).
Proof.
  revert m. induction depth as [|depth IH]; intros m; cbn [sky_evaluate].
  - apply reads_raise.
  - apply reads_bind; [apply reads_deref|].
    intros []; try apply reads_raise.
    + apply reads_SkyModel_evaluate.
    + apply reads_SkyDiffuseCube_evaluate.
    + by apply reads_SkyModels_evaluate_with.
Qed.

(** X5.  Evaluation on the sky side only reads: whatever its outcome, a
    call of [evaluate] on a sky model, a template cube or a collection,
    nested or not, leaves every object of the arena as it was. *)
Theorem sky_evaluation_leaves_arena_unchanged depth lon lat energy m h :
  (sky_evaluate depth lon lat energy m h).2 = h ∧
  (SkyModels_evaluate depth m lon lat energy h).2 = h.
Proof.
  split.
  - destruct (sky_evaluate _ _ _ _ _ _) as [o h'] eqn:Hrun.
    by apply reads_sky_evaluate in Hrun.
  - destruct (SkyModels_evaluate _ _ _ _ _ _) as [o h'] eqn:Hrun.
    apply reads_SkyModels_evaluate_with in Hrun; [done|].
    intros m'. apply reads_sky_evaluate.
Qed.

Lemma accumulate_quantities_raise e (qs : list (Quantity (F:=F) (U:=U))) :
  foldl (λ acc q, obind acc (λ out, quantity_iadd out q)) (Raise e) qs
  = Raise e.
Proof. by induction qs. Qed.

Lemma run_accumulate (evaluate : loc → M (F:=F) (U:=U) Quantity) h rest qs out :
  Forall2 (λ m q, evaluate m h = (Return q, h)) rest qs →
  accumulate evaluate rest out h = (accumulate_quantities out qs, h).
Proof.
  intros Hall; revert out.
  induction Hall as [|m q rest qs Hm _ IH]; intros out; [done|].
  cbn [accumulate]. rewrite (run_bind _ _ _ _ _ Hm).
  unfold accumulate_quantities. cbn [foldl obind].
  destruct (quantity_iadd out q) as [out'|e].
  - rewrite run_bind_lift. apply IH.
  - by rewrite run_bind_lift_raise, accumulate_quantities_raise.
Qed.

(** X6.  [SkyModels.evaluate] on a collection with members is the first
    member's value with the values of the others added to it in place,
    one after the other in member order; a collection of one member
    evaluates to exactly that member's value.  An addition that fails
    (units or shapes that do not fit) ends the evaluation with its
    error. *)
Theorem SkyModels_evaluate_accumulates_in_order
    depth h c l ps first rest lon lat energy q0 qs :
  h !! c = Some (SkyModelsObj l ps) →
  h !! l = Some (PyList (first :: rest)) →
  sky_evaluate depth lon lat energy first h = (Return q0, h) →
  Forall2 (λ m q, sky_evaluate depth lon lat energy m h = (Return q, h))
    rest qs →
  SkyModels_evaluate depth c lon lat energy h
  = (accumulate_quantities q0 qs, h) ∧
  (rest = [] →
   SkyModels_evaluate depth c lon lat energy h = (Return q0, h)).
Proof.
  intros Hc Hl Hfirst Hrest.
  assert (Hrun : SkyModels_evaluate depth c lon lat energy h
                 = (accumulate_quantities q0 qs, h)).
  { unfold SkyModels_evaluate, SkyModels_evaluate_with.
    rewrite (run_bind _ _ _ _ _ (run_get_skymodels _ _ _ _ Hc)).
    rewrite (run_bind _ _ _ _ _ (run_get_items _ _ _ Hl)).
    rewrite (run_bind _ _ _ _ _ Hfirst). by apply run_accumulate. }
  split; [done|]. intros ->. rewrite Hrun.
  by apply Forall2_nil_inv_l in Hrest as ->.
Qed.

(** *** Construction of the template cube *)

Lemma run_defaults_and_object_frame h map pn meta kw given :
  h !! kw = Some (PyDict given) →
  ∃ h' kwargs,
    (dict_setdefault kw "interp" (PyStr "linear");;
     dict_setdefault kw "fill_value" (PyNum f_zero);;
     alloc (SkyDiffuseCubeObj map pn meta kw [pn])) h
    = (Return (length h), h') ∧
    h' !! length h = Some (SkyDiffuseCubeObj map pn meta kw [pn]) ∧
    h' !! kw = Some (PyDict kwargs) ∧
    (∀ k v, given !! k = Some v → kwargs !! k = Some v) ∧
    (∀ k, k ≠ "interp" → k ≠ "fill_value" → kwargs !! k = given !! k) ∧
    (∀ l obj, l ≠ kw → h !! l = Some obj → h' !! l = Some obj).
Proof.
  intros Hkw.
  destruct (run_dict_setdefault h kw "interp" (PyStr "linear") given Hkw)
    as (h1 & d1 & Hrun1 & Hlen1 & Hkw1 & Hi1 & Ho1 & Hl1).
  destruct (run_dict_setdefault h1 kw "fill_value" (PyNum f_zero) d1 Hkw1)
    as (h2 & d2 & Hrun2 & Hlen2 & Hkw2 & Hi2 & Ho2 & Hl2).
  exists (h2 ++ [SkyDiffuseCubeObj map pn meta kw [pn]]), d2.
  rewrite (run_bind _ _ _ _ _ Hrun1), (run_bind _ _ _ _ _ Hrun2).
  unfold alloc. rewrite Hlen2, Hlen1. split_and!; [done | | | | |].
  - rewrite <-Hlen1, <-Hlen2. apply lookup_fresh.
  - by apply lookup_grow.
  - intros k v Hk.
    destruct (decide (k = "fill_value")) as [->|Hne];
      [rewrite Hi2, Ho1 by done; by rewrite Hk|].
    rewrite Ho2 by done.
    destruct (decide (k = "interp")) as [->|Hne'];
      [rewrite Hi1; by rewrite Hk|].
    by rewrite Ho1.
  - intros k Hne Hne'. by rewrite Ho2, Ho1.
  - intros l obj Hl Hobj. apply lookup_grow. by rewrite Hl2, Hl1.
Qed.

Lemma run_SkyDiffuseCube_init_refused h map geom d unit axis :
  h !! map = Some (MapObj geom d unit) →
  get_axis_by_name geom "energy" = Return axis →
  node_type axis ≠ "center" →
  ∀ norm meta interp_kwargs,
    SkyDiffuseCube_init map norm meta interp_kwargs h
    = (Raise center_error, h).
Proof.
  intros Hmap Haxis Hnode *. rewrite SkyDiffuseCube_init_unfold.
  rewrite (run_bind _ _ _ _ _ (run_get_map _ _ _ _ _ Hmap)).
  cbv beta iota. rewrite Haxis, run_bind_lift. by rewrite decide_True.
Qed.

Lemma run_BackgroundModel_init_refused h map geom d unit axis :
  h !! map = Some (MapObj geom d unit) →
  get_axis_by_name geom "energy" = Return axis →
  node_type axis ≠ "edges" →
  ∀ norm tilt reference,
    BackgroundModel_init map norm tilt reference h = (Raise edges_error, h).
Proof.
  intros Hmap Haxis Hnode *. unfold BackgroundModel_init.
  rewrite (run_bind _ _ _ _ _ (run_get_map _ _ _ _ _ Hmap)).
  cbv beta iota. rewrite Haxis, run_bind_lift. by rewrite decide_True.
Qed.

Lemma SkyDiffuseCube_init_inv map norm meta interp_kwargs h c h' :
  SkyDiffuseCube_init map norm meta interp_kwargs h = (Return c, h') →
  ∃ geom d unit axis,
    h !! map = Some (MapObj geom d unit) ∧
    get_axis_by_name geom "energy" = Return axis ∧
    node_type axis = "center".
Proof.
  rewrite SkyDiffuseCube_init_unfold. intros Hrun.
  apply bind_inv in Hrun
    as [(e & _ & [=]) | ([[geom d] unit] & h1 & Hmap & Hrun)].
  pose proof (get_map_reads _ _ _ _ Hmap) as ->.
  apply get_map_inv in Hmap.
  apply bind_inv in Hrun as [(e & _ & [=]) | (axis & h1 & Haxis & Hrun)].
  unfold lift in Haxis. injection Haxis as Haxis <-.
  case_decide as Hnode; [by unfold raise in Hrun|].
  exists geom, d, unit, axis. split_and!; [done..|].
  by destruct (decide (node_type axis = "center")).
Qed.

Lemma BackgroundModel_init_inv map norm tilt reference h c h' :
  BackgroundModel_init map norm tilt reference h = (Return c, h') →
  ∃ geom d unit axis,
    h !! map = Some (MapObj geom d unit) ∧
    get_axis_by_name geom "energy" = Return axis ∧
    node_type axis = "edges".
Proof.
  unfold BackgroundModel_init. intros Hrun.
  apply bind_inv in Hrun
    as [(e & _ & [=]) | ([[geom d] unit] & h1 & Hmap & Hrun)].
  pose proof (get_map_reads _ _ _ _ Hmap) as ->.
  apply get_map_inv in Hmap.
  apply bind_inv in Hrun as [(e & _ & [=]) | (axis & h1 & Haxis & Hrun)].
  unfold lift in Haxis. injection Haxis as Haxis <-.
  case_decide as Hnode; [by unfold raise in Hrun|].
  exists geom, d, unit, axis. split_and!; [done..|].
  by destruct (decide (node_type axis = "edges")).
Qed.

(** X7.  A keyword dictionary passed to [SkyDiffuseCube] is kept, not
    copied, and completed in place: the cube holds the caller's
    dictionary, every entry the caller had put there keeps its value,
    only "interp" and "fill_value" can be added, and no other object is
    touched. *)
Theorem SkyDiffuseCube_init_keeps_callers_dictionary
    h map geom d unit axis norm meta kw given :
  h !! map = Some (MapObj geom d unit) →
  get_axis_by_name geom "energy" = Return axis →
  node_type axis = "center" →
  h !! kw = Some (PyDict given) →
  ∃ self h' pn m kwargs,
    SkyDiffuseCube_init map norm meta (Some kw) h = (Return self, h') ∧
    h' !! self = Some (SkyDiffuseCubeObj map pn m kw [pn]) ∧
    h' !! kw = Some (PyDict kwargs) ∧
    (∀ k v, given !! k = Some v → kwargs !! k = Some v) ∧
    (∀ k, k ≠ "interp" → k ≠ "fill_value" → kwargs !! k = given !! k) ∧
    (∀ l obj, l ≠ kw → h !! l = Some obj → h' !! l = Some obj).
Proof.
  intros Hmap Haxis Hnode Hkw. rewrite SkyDiffuseCube_init_unfold.
  rewrite (run_bind _ _ _ _ _ (run_get_map _ _ _ _ _ Hmap)).
  cbv beta iota. rewrite Haxis, run_bind_lift, Hnode.
  rewrite decide_False by (intros Hne; by apply Hne).
  rewrite run_bind_alloc.
  set (p := mk_parameter "norm" norm dimensionless None None false).
  destruct meta as [m|];
    repeat (rewrite run_bind_alloc || rewrite run_bind_ret).
  - destruct (run_defaults_and_object_frame (h ++ [ParameterObj p]) map
                (length h) m kw given)
      as (h' & kwargs & Hrun & Hself & Hkw' & Hkeep & Hother & Hframe);
      [by apply lookup_grow|].
    rewrite Hrun. eexists _, _, _, _, _.
    split_and!; [done | exact Hself | exact Hkw' | done | done |].
    intros l obj Hl Hobj. apply Hframe; [done|]. by apply lookup_grow.
  - destruct (run_defaults_and_object_frame
                ((h ++ [ParameterObj p]) ++ [PyDict ∅]) map
                (length h) (length (h ++ [ParameterObj p])) kw given)
      as (h' & kwargs & Hrun & Hself & Hkw' & Hkeep & Hother & Hframe);
      [by do 2 apply lookup_grow|].
    rewrite Hrun. eexists _, _, _, _, _.
    split_and!; [done | exact Hself | exact Hkw' | done | done |].
    intros l obj Hl Hobj. apply Hframe; [done|]. by do 2 apply lookup_grow.
Qed.

(** X8.  No map is accepted by both constructors: a map on which a
    template cube can be built is refused by [BackgroundModel], and a map
    on which a background model can be built is refused by
    [SkyDiffuseCube]. *)
Theorem constructors_never_accept_the_same_map h map :
  (∀ norm meta interp_kwargs c h1,
     SkyDiffuseCube_init map norm meta interp_kwargs h = (Return c, h1) →
     ∀ norm' tilt reference,
       BackgroundModel_init map norm' tilt reference h
       = (Raise edges_error, h))
  ∧ (∀ norm tilt reference b h1,
       BackgroundModel_init map norm tilt reference h = (Return b, h1) →
       ∀ norm' meta interp_kwargs,
         SkyDiffuseCube_init map norm' meta interp_kwargs h
         = (Raise center_error, h)).
Proof.
  split.
  - intros norm meta kw c h1
      (geom & d & unit & axis & Hmap & Haxis & Hnode)%SkyDiffuseCube_init_inv.
    apply (run_BackgroundModel_init_refused _ _ _ _ _ _ Hmap Haxis).
    by rewrite Hnode.
  - intros norm tilt reference b h1
      (geom & d & unit & axis & Hmap & Haxis & Hnode)%BackgroundModel_init_inv.
    apply (run_SkyDiffuseCube_init_refused _ _ _ _ _ _ Hmap Haxis).
    by rewrite Hnode.
Qed.

(** *** Members of the wrong kind *)

(** X9.  [SkyModels] does not look at the family of its members: a list
    that starts with a background model is accepted at construction, and
    it is the evaluation of the collection that fails, with the
    [TypeError] of calling [BackgroundModel.evaluate] with coordinates. *)
Theorem SkyModels_init_accepts_background_members h lst b rest pss :
  h !! lst = Some (PyList (b :: rest)) →
  is_background_leaf h b →
  Forall2 (λ m ps, parameters_of h m = Some ps) (b :: rest) pss →
  ∃ c h',
    SkyModels_init lst h = (Return c, h') ∧
    members h' c = Some (b :: rest) ∧
    ∀ depth lon lat energy,
      SkyModels_evaluate (S depth) c lon lat energy h' = (Raise TypeError, h').
Proof.
  intros Hl Hb Hall. rewrite (run_SkyModels_init _ _ _ _ Hl Hall).
  eexists _, _. split; [done|].
  set (h' := h ++ _).
  assert (Hc : h' !! length h
               = Some (SkyModelsObj lst (Parameters_init (mjoin pss))))
    by apply lookup_fresh.
  assert (Hl' : h' !! lst = Some (PyList (b :: rest))) by by apply lookup_grow.
  split; [unfold members; by rewrite Hc, Hl'|].
  intros depth lon lat energy.
  unfold SkyModels_evaluate, SkyModels_evaluate_with.
  rewrite (run_bind _ _ _ _ _ (run_get_skymodels _ _ _ _ Hc)).
  rewrite (run_bind _ _ _ _ _ (run_get_items _ _ _ Hl')).
  unfold is_background_leaf in Hb.
  destruct (h !! b) as [[]|] eqn:Hobj; try done.
  assert (Hobj' : h' !! b = Some (BackgroundModelObj map norm tilt reference
                                    parameters)) by by apply lookup_grow.
  apply run_bind_raise. cbn [sky_evaluate].
  by rewrite (run_bind _ _ _ _ _ (run_deref _ _ _ Hobj')).
Qed.

(** X10.  The constructors of the collections need every member to be a
    model: at the first member that has no parameter container the
    construction stops with an [AttributeError], and no collection is
    made. *)
Theorem collection_init_needs_models h lst pre m post pss o :
  h !! lst = Some (PyList (pre ++ m :: post)) →
  Forall2 (λ m ps, parameters_of h m = Some ps) pre pss →
  h !! m = Some o → model_parameters o = None →
  SkyModels_init lst h = (Raise AttributeError, h) ∧
  BackgroundModels_init lst h = (Raise AttributeError, h).
Proof.
  intros Hl Hpre Hm Ho.
  assert (Hget : get_parameters m h = (Raise AttributeError, h)).
  { unfold get_parameters.
    by rewrite (run_bind _ _ _ _ _ (run_deref _ _ _ Hm)), Ho. }
  assert (Hrun : ∀ acc, collect_parameters (pre ++ m :: post) acc h
                        = (Raise AttributeError, h)).
  { clear Hl. induction Hpre as [|m' ps pre pss Hm' _ IH]; intros acc; cbn.
    - by rewrite (run_bind_raise _ _ _ _ _ Hget).
    - rewrite (run_bind _ _ _ _ _ (run_get_parameters _ _ _ Hm')). apply IH. }
  split.
  - unfold SkyModels_init.
    rewrite (run_bind _ _ _ _ _ (run_get_items _ _ _ Hl)).
    by rewrite (run_bind_raise _ _ _ _ _ (Hrun [])).
  - unfold BackgroundModels_init.
    rewrite (run_bind _ _ _ _ _ (run_get_items _ _ _ Hl)).
    by rewrite (run_bind_raise _ _ _ _ _ (Hrun [])).
Qed.
End more_evaluate.

(** * Reading and copying a template cube *)

Section more_cube.
Context {F U : Type} `{Scalar F} `{Units F U} `{!Interpolator (F:=F) (U:=U)}.
Context `{EqDecision U}.
Implicit Types (h : list (object (F:=F) (U:=U))) (l c m self : loc).
Implicit Types (lon lat energy : Quantity (F:=F) (U:=U)).

Lemma run_dict_setdefault_absent h d k v entries :
  h !! d = Some (PyDict entries) → entries !! k = None →
  dict_setdefault d k v h
  = (Return (), <[d := PyDict (<[k := v]> entries)]> h).
Proof.
  intros Hd Hk. unfold dict_setdefault.
  by rewrite (run_bind _ _ _ _ _ (run_deref _ _ _ Hd)), Hk.
Qed.

(** the cube that is built when only the map is given *)
Lemma run_SkyDiffuseCube_init_default h map geom d unit axis norm :
  h !! map = Some (MapObj geom d unit) →
  get_axis_by_name geom "energy" = Return axis →
  node_type axis = "center" →
  SkyDiffuseCube_init map norm None None h
  = (Return (3 + length h),
     h ++ [ParameterObj
             (mk_parameter "norm" norm dimensionless None None false);
           PyDict ∅;
           PyDict (<["fill_value" := PyNum f_zero]>
                     (<["interp" := PyStr "linear"]> ∅));
           SkyDiffuseCubeObj map (length h) (1 + length h) (2 + length h)
             [length h]]).
Proof.
  intros Hmap Haxis Hnode. rewrite SkyDiffuseCube_init_unfold.
  rewrite (run_bind _ _ _ _ _ (run_get_map _ _ _ _ _ Hmap)).
  cbv beta iota. rewrite Haxis, run_bind_lift, Hnode.
  rewrite decide_False by (intros Hne; by apply Hne).
  repeat (rewrite run_bind_alloc || rewrite run_bind_ret).
  rewrite !length_app. cbn [length]. rewrite <-!app_assoc. cbn [app].
  replace (length h + 1 + 1) with (2 + length h) by lia.
  replace (length h + 1) with (1 + length h) by lia.
  set (p := ParameterObj _).
  assert (Hkw : ∀ D, (h ++ [p; PyDict ∅; PyDict D]) !! (2 + length h)
                     = Some (PyDict D)).
  { intros D. rewrite lookup_app_r by lia.
    by replace (2 + length h - length h) with 2 by lia. }
  assert (Hins : ∀ D D', <[2 + length h := PyDict D']>
                           (h ++ [p; PyDict ∅; PyDict D])
                         = h ++ [p; PyDict ∅; PyDict D']).
  { intros D D'. rewrite insert_app_r_alt by lia.
    by replace (2 + length h - length h) with 2 by lia. }
  rewrite (run_bind _ _ _ _ _
             (run_dict_setdefault_absent _ _ "interp" (PyStr "linear") ∅
                (Hkw ∅) (lookup_empty _))).
  rewrite Hins.
  assert (Hnone : (<["interp" := PyStr "linear"]> ∅
                     : gmap string (pyvalue (F:=F)))
                    !! "fill_value" = None)
    by by rewrite lookup_insert_ne.
  rewrite (run_bind _ _ _ _ _
             (run_dict_setdefault_absent _ _ "fill_value" (PyNum f_zero) _
                (Hkw _) Hnone)).
  rewrite Hins. unfold alloc. rewrite length_app. cbn [length].
  replace (length h + 3) with (3 + length h) by lia.
  by rewrite <-app_assoc.
Qed.

(** X11.  [SkyDiffuseCube.read] gives the map it has read the default
    unit when the map has none and leaves the unit it has otherwise;
    the cube is built on that very map, with norm 1, linear
    interpolation and fill value 0.  The unit is set before the energy
    axis is checked: a map that is then refused has been given the
    default unit all the same. *)
Theorem SkyDiffuseCube_read_default_unit
    (default_unit : U) h m geom d unit axis :
  h !! m = Some (MapObj geom d unit) →
  get_axis_by_name geom "energy" = Return axis →
  let unit' := if decide (unit = dimensionless) then default_unit else unit in
  let h0 := <[m := MapObj geom d unit']> h in
  (node_type axis = "center" →
   ∃ self h' pn meta kw kwargs,
     SkyDiffuseCube_read default_unit m h = (Return self, h') ∧
     h' !! self = Some (SkyDiffuseCubeObj m pn meta kw [pn]) ∧
     map_unit h' m = Some unit' ∧
     parameter_value h' pn = Some f_one ∧
     h' !! kw = Some (PyDict kwargs) ∧
     kwargs !! "interp" = Some (PyStr "linear") ∧
     kwargs !! "fill_value" = Some (PyNum f_zero) ∧
     h0 `prefix_of` h')
  ∧ (node_type axis ≠ "center" →
     SkyDiffuseCube_read default_unit m h = (Raise center_error, h0)).
Proof.
  intros Hm Haxis unit' h0.
  assert (m < length h) by by eapply lookup_lt_Some.
  assert (Hm0 : h0 !! m = Some (MapObj geom d unit'))
    by by apply list_lookup_insert_eq.
  assert (Hrun : ∀ k : M loc,
            (get_map m ≫= λ '(geom, d, unit),
               (if decide (unit = dimensionless)
                then store m (MapObj geom d default_unit) else mret ());; k) h
            = k h0).
  { intros k. rewrite (run_bind _ _ _ _ _ (run_get_map _ _ _ _ _ Hm)).
    cbv beta iota. subst h0 unit'. case_decide.
    - done.
    - rewrite run_bind_ret. by rewrite list_insert_id. }
  unfold SkyDiffuseCube_read. rewrite Hrun. split; intros Hnode.
  - rewrite (run_SkyDiffuseCube_init_default _ _ _ _ _ _ _ Hm0 Haxis Hnode).
    set (h' := h0 ++ _).
    eexists _, h', (length h0), (1 + length h0), (2 + length h0), _.
    split; [done|].
    assert (Hat : ∀ i o, [ParameterObj
             (mk_parameter "norm" f_one dimensionless None None false);
           PyDict ∅;
           PyDict (<["fill_value" := PyNum f_zero]>
                     (<["interp" := PyStr "linear"]> ∅));
           SkyDiffuseCubeObj m (length h0) (1 + length h0) (2 + length h0)
             [length h0]] !! i = Some o → h' !! (i + length h0) = Some o).
    { intros i o Hi. unfold h'. rewrite lookup_app_r by lia.
      by replace (i + length h0 - length h0) with i by lia. }
    split_and!.
    + by apply (Hat 3).
    + unfold map_unit, h'. by rewrite (lookup_grow _ _ _ _ Hm0).
    + unfold parameter_value. pose proof (Hat 0 _ eq_refl) as Hp.
      cbn [Nat.add] in Hp. by rewrite Hp.
    + by apply (Hat 2).
    + rewrite lookup_insert_ne by done. by rewrite lookup_insert_eq.
    + by rewrite lookup_insert_eq.
    + by eexists.
  - by apply (run_SkyDiffuseCube_init_refused _ _ _ _ _ _ Hm0 Haxis).
Qed.

Lemma SkyDiffuseCube_evaluate_same_object h a b o lon lat energy :
  h !! a = Some o → h !! b = Some o →
  SkyDiffuseCube_evaluate a lon lat energy h
  = SkyDiffuseCube_evaluate b lon lat energy h.
Proof.
  intros Ha Hb. unfold SkyDiffuseCube_evaluate.
  by rewrite (run_bind _ _ _ _ _ (run_deref _ _ _ Ha)),
             (run_bind _ _ _ _ _ (run_deref _ _ _ Hb)).
Qed.

(** X12.  [SkyDiffuseCube.copy] makes a new cube that shares the map,
    the norm parameter and the dictionaries of the original: after the
    norm has been given a new value through the parameter, the copy and
    the original still evaluate alike. *)
Theorem SkyDiffuseCube_copy_shares_norm h self map pn meta kw ps :
  h !! self = Some (SkyDiffuseCubeObj map pn meta kw ps) →
  ∃ c h',
    SkyDiffuseCube_copy self h = (Return c, h') ∧
    h !! c = None ∧ h `prefix_of` h' ∧
    h' !! c = Some (SkyDiffuseCubeObj map pn meta kw ps) ∧
    ∀ v lon lat energy,
      (Parameter_set_value pn v;; SkyDiffuseCube_evaluate c lon lat energy) h'
      = (Parameter_set_value pn v;;
         SkyDiffuseCube_evaluate self lon lat energy) h'.
Proof.
  intros Hself. unfold SkyDiffuseCube_copy.
  rewrite (run_bind _ _ _ _ _ (run_deref _ _ _ Hself)). unfold alloc.
  set (o := SkyDiffuseCubeObj map pn meta kw ps).
  assert (self < length h) by by eapply lookup_lt_Some.
  eexists _, _. split; [done|].
  split_and!; [apply lookup_ge_None; lia | by eexists | apply lookup_fresh |].
  intros v lon lat energy.
  destruct (Parameter_set_value pn v (h ++ [o])) as [[[]|e] h2] eqn:Hset.
  - rewrite !(run_bind _ _ _ _ _ Hset).
    unfold Parameter_set_value, get_parameter in Hset.
    unfold mbind, M_bind, deref, store, mret, M_ret, raise in Hset.
    destruct ((h ++ [o]) !! pn) as [[]|] eqn:Hpn; try done.
    injection Hset as <-.
    assert (pn < length (h ++ [o])) by by eapply lookup_lt_Some.
    assert (pn ≠ self).
    { intros ->. rewrite (lookup_grow _ _ _ _ Hself) in Hpn. done. }
    assert (pn ≠ length h).
    { intros ->. rewrite lookup_fresh in Hpn. done. }
    apply (SkyDiffuseCube_evaluate_same_object _ _ _ o).
    + rewrite list_lookup_insert_ne by done. apply lookup_fresh.
    + rewrite list_lookup_insert_ne by done. by apply lookup_grow.
  - by rewrite !(run_bind_raise _ _ _ _ _ Hset).
Qed.
End more_cube.

(** * Further properties of the background side *)

Section more_background.
Context {F U : Type} `{Scalar F} `{Units F U}.
Implicit Types (h : list (object (F:=F) (U:=U))) (l c m self : loc).
Implicit Types (norm tilt reference : FitParameter (F:=F) (U:=U)).

(** the entry of the evaluated data at an index of the wrapped data *)
Lemma background_entry (data : ndarray F) (centers : list F)
    (vnorm vtilt vref s : F) ny nx idx :
  wf_ndarray data → shape data = [length centers; ny; nx] →
  in_range (shape data) idx →
  f_mul (bitem (map_ndarray (f_mul vnorm) data) idx)
    (bitem (map_ndarray (λ x, f_pow x (f_neg vtilt))
       (map_ndarray (λ x, f_mul x s)
          (mk_ndarray [length centers; 1; 1]
             ((λ idx, f_div (bitem (newaxis2 (array1 centers)) idx)
                            (bitem (scalar vref) idx))
                <$> ndindex [length centers; 1; 1])))) idx)
  = f_mul (f_mul vnorm (item data idx))
      (f_pow (f_mul (f_div (nth (default 0 (head idx)) centers f_zero) vref) s)
             (f_neg vtilt)).
Proof.
  intros Hwf Hshape Hidx. rewrite bitem_in_range by done.
  rewrite item_map_ndarray by done. rewrite Hshape in Hidx.
  destruct idx as [|k [|j [|i [|]]]]; cbn in Hidx; try tauto.
  destruct Hidx as (Hk & Hj & Hi & _).
  rewrite (bitem_column _ (length centers)) by done.
  by rewrite tilt_factor_column.
Qed.

Lemma run_BackgroundModel_init h map geom d unit axis vnorm vtilt vref uref :
  h !! map = Some (MapObj geom d unit) →
  get_axis_by_name geom "energy" = Return axis →
  node_type axis = "edges" →
  BackgroundModel_init map vnorm vtilt (vref, uref) h
  = (Return (3 + length h),
     h ++ [ParameterObj
             (mk_parameter "norm" vnorm dimensionless (Some f_zero) None false);
           ParameterObj
             (mk_parameter "tilt" vtilt dimensionless None None true);
           ParameterObj (mk_parameter "reference" vref uref None None true);
           BackgroundModelObj map (length h) (1 + length h) (2 + length h)
             [length h; 1 + length h; 2 + length h]]).
Proof.
  intros Hmap Haxis Hnode. unfold BackgroundModel_init.
  rewrite (run_bind _ _ _ _ _ (run_get_map _ _ _ _ _ Hmap)).
  cbv beta iota. rewrite Haxis, run_bind_lift, Hnode.
  rewrite decide_False by (intros Hne; by apply Hne).
  repeat rewrite run_bind_alloc. unfold alloc.
  rewrite !length_app. cbn [length fst snd]. rewrite <-!app_assoc. cbn [app].
  replace (length h + 1 + 1 + 1) with (3 + length h) by lia.
  replace (length h + 1 + 1) with (2 + length h) by lia.
  replace (length h + 1) with (1 + length h) by lia.
  by rewrite (Parameters_init_three (length h)).
Qed.

(** the three lookups by name in the parameter list of a model that is
    as its constructor makes it *)
Lemma run_parameters_getitem_constructed h pn pt pr norm tilt reference :
  h !! pn = Some (ParameterObj norm) → par_name norm = "norm" →
  h !! pt = Some (ParameterObj tilt) → par_name tilt = "tilt" →
  h !! pr = Some (ParameterObj reference) → par_name reference = "reference" →
  parameters_getitem [pn; pt; pr] "norm" h = (Return norm, h) ∧
  parameters_getitem [pn; pt; pr] "tilt" h = (Return tilt, h) ∧
  parameters_getitem [pn; pt; pr] "reference" h = (Return reference, h).
Proof.
  intros Hn Hnn Ht Htn Hr Hrn. split_and!; cbn [parameters_getitem].
  - rewrite (run_bind _ _ _ _ _ (run_get_parameter _ _ _ Hn)), Hnn.
    by rewrite decide_True.
  - rewrite (run_bind _ _ _ _ _ (run_get_parameter _ _ _ Hn)), Hnn.
    rewrite decide_False by done.
    rewrite (run_bind _ _ _ _ _ (run_get_parameter _ _ _ Ht)), Htn.
    by rewrite decide_True.
  - rewrite (run_bind _ _ _ _ _ (run_get_parameter _ _ _ Hn)), Hnn.
    rewrite decide_False by done.
    rewrite (run_bind _ _ _ _ _ (run_get_parameter _ _ _ Ht)), Htn.
    rewrite decide_False by done.
    rewrite (run_bind _ _ _ _ _ (run_get_parameter _ _ _ Hr)), Hrn.
    by rewrite decide_True.
Qed.

(** a model as its constructor makes it, evaluated *)
Lemma run_evaluate_constructed
    h self map pn pt pr norm tilt reference geom d unit data axis ny nx s :
  h !! self = Some (BackgroundModelObj map pn pt pr [pn; pt; pr]) →
  h !! pn = Some (ParameterObj norm) → par_name norm = "norm" →
  h !! pt = Some (ParameterObj tilt) → par_name tilt = "tilt" →
  h !! pr = Some (ParameterObj reference) → par_name reference = "reference" →
  h !! map = Some (MapObj geom d unit) →
  h !! d = Some (NdArrayObj data) →
  wf_ndarray data →
  get_axis_by_name geom "energy" = Return axis →
  shape data = [length (axis_center axis); ny; nx] →
  unit_to (unit_div (axis_unit axis) (par_unit reference)) dimensionless
    = Some s →
  ∃ res,
    BackgroundModel_evaluate self h
    = (Return (S (length h)),
       h ++ [NdArrayObj res; MapObj geom (length h) unit]) ∧
    shape res = shape data ∧
    ∀ k j i, k < length (axis_center axis) → j < ny → i < nx →
      item res [k; j; i]
      = f_mul (f_mul (par_value norm) (item data [k; j; i]))
          (f_pow (f_mul (f_div (nth k (axis_center axis) f_zero)
                               (par_value reference)) s)
                 (f_neg (par_value tilt))).
Proof.
  intros Hs Hn Hnn Ht Htn Hr Hrn Hm Hd Hwf Hax Hshape Hu.
  destruct (run_parameters_getitem_constructed _ _ _ _ _ _ _
              Hn Hnn Ht Htn Hr Hrn) as (Hgn & Hgt & Hgr).
  rewrite (run_BackgroundModel_evaluate _ _ _ _ _ _ _ _ _ _ _ _ _ _ _ _ _ _
             Hs Hgn Hgt Hgr Hm Hd Hax Hshape Hu).
  eexists. split; [done|]. split; [done|].
  intros k j i Hk Hj Hi.
  assert (Hidx : in_range (shape data) [k; j; i])
    by (rewrite Hshape; cbn; lia).
  rewrite item_tabulate by done.
  by rewrite (background_entry _ _ _ _ _ _ ny nx _ Hwf Hshape Hidx).
Qed.

Lemma map_data_tail h res geom unit :
  map_data (h ++ [NdArrayObj res; MapObj geom (length h) unit]) (S (length h))
  = Some res.
Proof.
  unfold map_data. rewrite lookup_app_r by lia.
  replace (S (length h) - length h) with 1 by lia. cbn.
  by rewrite lookup_fresh.
Qed.

(** X13.  Construction and evaluation fit together: a background model
    built on an integrated map evaluates, its three parameters being
    found under the names the constructor gave them, to a new map whose
    entry at energy bin [k] and pixel [(j, i)] is
    [norm * data[k, j, i] * (center[k] / reference)^(-tilt)] for the
    values the constructor was given; the wrapped map keeps its data. *)
Theorem BackgroundModel_init_then_evaluate
    h map geom d unit data axis ny nx vnorm vtilt vref uref s :
  h !! map = Some (MapObj geom d unit) →
  h !! d = Some (NdArrayObj data) →
  wf_ndarray data →
  get_axis_by_name geom "energy" = Return axis →
  node_type axis = "edges" →
  shape data = [length (axis_center axis); ny; nx] →
  unit_to (unit_div (axis_unit axis) uref) dimensionless = Some s →
  ∃ self r h' res,
    (self ← BackgroundModel_init map vnorm vtilt (vref, uref);
     r ← BackgroundModel_evaluate self; mret (self, r)) h
    = (Return (self, r), h') ∧
    is_background_leaf h' self ∧
    map_data h' r = Some res ∧
    map_data h' map = Some data ∧
    shape res = shape data ∧
    ∀ k j i, k < length (axis_center axis) → j < ny → i < nx →
      item res [k; j; i]
      = f_mul (f_mul vnorm (item data [k; j; i]))
          (f_pow (f_mul (f_div (nth k (axis_center axis) f_zero) vref) s)
                 (f_neg vtilt)).
Proof.
  intros Hm Hd Hwf Hax Hnode Hshape Hu.
  rewrite (run_bind _ _ _ _ _
             (run_BackgroundModel_init _ _ _ _ _ _ vnorm vtilt vref uref
                Hm Hax Hnode)).
  set (h1 := h ++ _).
  assert (Hat : ∀ i o, (drop (length h) h1) !! i = Some o →
                       h1 !! (i + length h) = Some o).
  { intros i o. rewrite lookup_drop. by rewrite Nat.add_comm. }
  unfold h1 in Hat. rewrite drop_app_length in Hat. fold h1 in Hat.
  destruct (run_evaluate_constructed h1 (3 + length h) map (length h)
              (1 + length h) (2 + length h) _ _ _ geom d unit data axis
              ny nx s (Hat 3 _ eq_refl) (Hat 0 _ eq_refl) eq_refl
              (Hat 1 _ eq_refl) eq_refl (Hat 2 _ eq_refl) eq_refl
              (lookup_grow _ _ _ _ Hm) (lookup_grow _ _ _ _ Hd) Hwf Hax
              Hshape Hu) as (res & Hrun & Hsh & Hitem).
  rewrite (run_bind _ _ _ _ _ Hrun).
  eexists _, _, _, res. split; [done|].
  assert (Hpre : ∀ l obj, h !! l = Some obj →
            (h1 ++ [NdArrayObj res; MapObj geom (length h1) unit]) !! l
            = Some obj) by (intros; by do 2 apply lookup_grow).
  split_and!.
  - unfold is_background_leaf.
    by rewrite (lookup_grow _ _ _ _ (Hat 3 _ eq_refl)).
  - apply map_data_tail.
  - unfold map_data. by rewrite (Hpre _ _ Hm), (Hpre _ _ Hd).
  - done.
  - exact Hitem.
Qed.

(** X14.  Evaluating a background model twice gives two distinct new
    maps with the same data: nothing of the first evaluation is reused or
    changed by the second, and the wrapped map keeps its data. *)
Theorem BackgroundModel_evaluate_twice
    h self map pn pt pr norm tilt reference geom d unit data axis ny nx s :
  h !! self = Some (BackgroundModelObj map pn pt pr [pn; pt; pr]) →
  h !! pn = Some (ParameterObj norm) → par_name norm = "norm" →
  h !! pt = Some (ParameterObj tilt) → par_name tilt = "tilt" →
  h !! pr = Some (ParameterObj reference) → par_name reference = "reference" →
  h !! map = Some (MapObj geom d unit) →
  h !! d = Some (NdArrayObj data) →
  get_axis_by_name geom "energy" = Return axis →
  shape data = [length (axis_center axis); ny; nx] →
  unit_to (unit_div (axis_unit axis) (par_unit reference)) dimensionless
    = Some s →
  ∃ r1 r2 h' res,
    (r1 ← BackgroundModel_evaluate self; r2 ← BackgroundModel_evaluate self;
     mret (r1, r2)) h = (Return (r1, r2), h') ∧
    r1 ≠ r2 ∧ r1 ≠ map ∧ r2 ≠ map ∧
    map_data h' r1 = Some res ∧ map_data h' r2 = Some res ∧
    map_data h' map = Some data.
Proof.
  intros Hs Hn Hnn Ht Htn Hr Hrn Hm Hd Hax Hshape Hu.
  destruct (run_parameters_getitem_constructed _ _ _ _ _ _ _
              Hn Hnn Ht Htn Hr Hrn) as (Hgn & Hgt & Hgr).
  rewrite (run_bind _ _ _ _ _
             (run_BackgroundModel_evaluate _ _ _ _ _ _ _ _ _ _ _ _ _ _ _ _ _ _
                Hs Hgn Hgt Hgr Hm Hd Hax Hshape Hu)).
  set (res := mk_ndarray (shape data) _).
  set (h1 := h ++ [NdArrayObj res; MapObj geom (length h) unit]).
  assert (Hg : ∀ l obj, h !! l = Some obj → h1 !! l = Some obj)
    by (intros; by apply lookup_grow).
  destruct (run_parameters_getitem_constructed h1 _ _ _ _ _ _
              (Hg _ _ Hn) Hnn (Hg _ _ Ht) Htn (Hg _ _ Hr) Hrn)
    as (Hgn' & Hgt' & Hgr').
  rewrite (run_bind _ _ _ _ _
             (run_BackgroundModel_evaluate _ _ _ _ _ _ _ _ _ _ _ _ _ _ _ _ _ _
                (Hg _ _ Hs) Hgn' Hgt' Hgr' (Hg _ _ Hm) (Hg _ _ Hd)
                Hax Hshape Hu)).
  fold res.
  assert (map < length h) by by eapply lookup_lt_Some.
  assert (length h1 = 2 + length h)
    by (unfold h1; rewrite length_app; cbn; lia).
  eexists _, _, _, res. split; [done|].
  split_and!; [lia | lia | lia | | apply map_data_tail |].
  - unfold map_data.
    assert (Hr1 : h1 !! S (length h) = Some (MapObj geom (length h) unit)).
    { unfold h1. rewrite lookup_app_r by lia.
      by replace (S (length h) - length h) with 1 by lia. }
    rewrite (lookup_grow _ _ _ _ Hr1).
    assert (Hd1 : h1 !! length h = Some (NdArrayObj res)) by apply lookup_fresh.
    by rewrite (lookup_grow _ _ _ _ Hd1).
  - unfold map_data.
    rewrite (lookup_grow _ _ _ _ (Hg _ _ Hm)).
    by rewrite (lookup_grow _ _ _ _ (Hg _ _ Hd)).
Qed.

Lemma run_Parameter_set_value h p par v :
  h !! p = Some (ParameterObj par) →
  Parameter_set_value p v h
  = (Return (),
     <[p := ParameterObj
              (mk_parameter (par_name par) v (par_unit par)
                 (par_min par) (par_max par) (par_frozen par))]> h).
Proof.
  intros Hp. unfold Parameter_set_value.
  by rewrite (run_bind _ _ _ _ _ (run_get_parameter _ _ _ Hp)).
Qed.

(** X15.  Evaluation reads the parameters where they are: once the norm
    parameter has been given the value [v], the model evaluates with [v]
    in the place of the norm it was built with, the tilt and the
    reference being what they were. *)
Theorem BackgroundModel_evaluate_follows_norm
    h self map pn pt pr norm tilt reference geom d unit data axis ny nx s v :
  h !! self = Some (BackgroundModelObj map pn pt pr [pn; pt; pr]) →
  h !! pn = Some (ParameterObj norm) → par_name norm = "norm" →
  h !! pt = Some (ParameterObj tilt) → par_name tilt = "tilt" →
  h !! pr = Some (ParameterObj reference) → par_name reference = "reference" →
  h !! map = Some (MapObj geom d unit) →
  h !! d = Some (NdArrayObj data) →
  wf_ndarray data →
  get_axis_by_name geom "energy" = Return axis →
  shape data = [length (axis_center axis); ny; nx] →
  unit_to (unit_div (axis_unit axis) (par_unit reference)) dimensionless
    = Some s →
  ∃ r h' res,
    (Parameter_set_value pn v;; BackgroundModel_evaluate self) h
    = (Return r, h') ∧
    parameter_value h' pn = Some v ∧
    map_data h' r = Some res ∧
    ∀ k j i, k < length (axis_center axis) → j < ny → i < nx →
      item res [k; j; i]
      = f_mul (f_mul v (item data [k; j; i]))
          (f_pow (f_mul (f_div (nth k (axis_center axis) f_zero)
                               (par_value reference)) s)
                 (f_neg (par_value tilt))).
Proof.
  intros Hs Hn Hnn Ht Htn Hr Hrn Hm Hd Hwf Hax Hshape Hu.
  rewrite (run_bind _ _ _ _ _ (run_Parameter_set_value _ _ _ v Hn)).
  set (norm' := mk_parameter _ v _ _ _ _).
  set (h1 := <[pn := ParameterObj norm']> h).
  assert (pn < length h) by by eapply lookup_lt_Some.
  assert (Hn1 : h1 !! pn = Some (ParameterObj norm'))
    by by apply list_lookup_insert_eq.
  assert (Hg : ∀ l obj, l ≠ pn → h !! l = Some obj → h1 !! l = Some obj).
  { intros l obj Hne Hl. unfold h1. by rewrite list_lookup_insert_ne. }
  assert (pt ≠ pn) by (intros ->; congruence).
  assert (pr ≠ pn) by (intros ->; congruence).
  assert (self ≠ pn) by (intros ->; congruence).
  assert (map ≠ pn) by (intros ->; congruence).
  assert (d ≠ pn) by (intros ->; congruence).
  destruct (run_evaluate_constructed h1 self map pn pt pr norm' tilt reference
              geom d unit data axis ny nx s)
    as (res & Hrun & Hsh & Hitem); [by auto..|].
  rewrite Hrun. eexists _, _, res. split; [done|].
  split_and!.
  - unfold parameter_value. by rewrite (lookup_grow _ _ _ _ Hn1).
  - apply map_data_tail.
  - exact Hitem.
Qed.

(** X16.  The unit of the reference energy is not looked at when the
    model is built.  A reference whose unit does not convert with the
    unit of the energy axis is accepted by the constructor; it is
    [evaluate] that fails, with a [UnitConversionError], and it makes no
    map. *)
Theorem BackgroundModel_reference_unit_checked_at_evaluate
    h map geom d unit axis vnorm vtilt vref uref :
  h !! map = Some (MapObj geom d unit) →
  get_axis_by_name geom "energy" = Return axis →
  node_type axis = "edges" →
  unit_to (unit_div (axis_unit axis) uref) dimensionless = None →
  ∃ self h',
    BackgroundModel_init map vnorm vtilt (vref, uref) h = (Return self, h') ∧
    is_background_leaf h' self ∧
    BackgroundModel_evaluate self h' = (Raise UnitConversionError, h').
Proof.
  intros Hm Hax Hnode Hu.
  rewrite (run_BackgroundModel_init _ _ _ _ _ _ vnorm vtilt vref uref
             Hm Hax Hnode).
  set (h1 := h ++ _).
  assert (Hat : ∀ i o, (drop (length h) h1) !! i = Some o →
                       h1 !! (i + length h) = Some o).
  { intros i o. rewrite lookup_drop. by rewrite Nat.add_comm. }
  unfold h1 in Hat. rewrite drop_app_length in Hat. fold h1 in Hat.
  pose proof (Hat 3 _ eq_refl) as Hs.
  destruct (run_parameters_getitem_constructed h1
              (length h) (1 + length h) (2 + length h) _ _ _
              (Hat 0 _ eq_refl) eq_refl (Hat 1 _ eq_refl) eq_refl
              (Hat 2 _ eq_refl) eq_refl) as (Hgn & Hgt & Hgr).
  pose proof (lookup_grow _ _ _ _ Hm : h1 !! map = _) as Hm1.
  eexists _, _. split; [done|]. split.
  { unfold is_background_leaf. by rewrite Hs. }
  unfold BackgroundModel_evaluate.
  rewrite (run_bind _ _ _ _ _ (run_get_background _ _ _ _ _ _ _ Hs)).
  rewrite (run_bind _ _ _ _ _ Hgn), (run_bind _ _ _ _ _ Hgt),
    (run_bind _ _ _ _ _ Hgr).
  rewrite (run_bind _ _ _ _ _
             (run_energy_center _ _ _ _ _ _ _ _ _ _ _ Hs Hm1 Hax)).
  unfold quantity_div, np_divide, broadcast2. cbn [q_value q_unit par_quantity].
  replace (shape (newaxis2 (array1 (axis_center axis))))
    with [length (axis_center axis); 1; 1] by done.
  cbn [scalar shape]. rewrite broadcast_shapes_nil_r. cbn [obind].
  rewrite run_bind_lift.
  unfold quantity_to, to_value. cbn [q_value q_unit par_unit]. rewrite Hu.
  done.
Qed.

(** *** Evaluation of a collection *)












End more_background.

(** * The further properties at work on the example arenas *)

Section more_examples.
Import Example.

(** a background model as operand of the sky-side operators *)
Lemma sky_operators_reject_other_operands_witness :
  SkyModelBase_add 9 20 mixed
  = (Raise NotImplementedError, mixed ++ [PyList [9]])
  ∧ SkyModels_add 16 20 mixed
    = (Raise NotImplementedError, mixed ++ [PyList [9]])
  ∧ SkyModels_iadd 16 20 mixed = (Raise NotImplementedError, mixed).
Proof.
  destruct (sky_operators_reject_other_operands mixed 20 I) as [Hadd Hcoll].
  split; [exact (Hadd 9)|].
  exact (Hcoll 16 15 [4; 5] [9] eq_refl eq_refl).
Defined.

(** a sky model as operand of the background-side operators *)
Lemma background_operators_reject_other_operands_witness :
  BackgroundModel_add 20 9 mixed
  = (Raise NotImplementedError, mixed ++ [PyList [20]])
  ∧ BackgroundModels_iadd 22 9 mixed = (Raise NotImplementedError, mixed).
Proof.
  destruct (background_operators_reject_other_operands mixed 9 I)
    as [Hadd Hiadd].
  split; [exact (Hadd 20) | exact (Hiadd 22)].
Defined.

(** two collections over the list [[9; 10; 14]], the first extended by
    the cube *)
Lemma collections_over_one_list_share_members_witness :
  ∃ c1 c2 h',
    (c1 ← SkyModels_init 15; c2 ← SkyModels_init 15;
     SkyModels_iadd c1 14;; mret (c1, c2)) sky_list = (Return (c1, c2), h') ∧
    c1 ≠ c2 ∧
    members h' c1 = Some ([9; 10; 14] ++ [14]) ∧
    members h' c2 = Some ([9; 10; 14] ++ [14]) ∧
    h' !! 15 = Some (PyList ([9; 10; 14] ++ [14])).
Proof.
  apply (collections_over_one_list_share_members sky_list 15 [9; 10; 14]
           [[4; 5]; [4; 5]; [11]] 14 [14]);
    [reflexivity | repeat constructor | reflexivity].
Defined.

(** [d = c + cube; d += b] on the collection [c = SkyModels([a])] *)
Lemma addition_result_has_its_own_list_witness :
  ∃ d h',
    (d ← SkyModels_add 16 14; SkyModels_iadd d 10) sky_collection
    = (Return d, h') ∧
    sky_collection !! d = None ∧
    members h' d = Some (([9] ++ [14]) ++ [10]) ∧
    members h' 16 = Some [9] ∧
    sky_members h' 14 = Some [14] ∧
    sky_members h' 10 = Some [10].
Proof.
  apply (addition_result_has_its_own_list sky_collection 16 14 10
           [9] [14] [10]);
    [exact I | reflexivity | reflexivity | reflexivity | |];
    repeat constructor; vm_compute; eauto.
Defined.

(** the collection of the sky model and the cube: 6 and then 7 added *)
Lemma SkyModels_evaluate_accumulates_in_order_witness :
  SkyModels_evaluate 3 16 lon lat energy sky_pair
  = (accumulate_quantities
       (mk_quantity (mk_ndarray [2; 2] [6; 6; 6; 6]%Z) (-1, -2)%Z)
       [mk_quantity (mk_ndarray [2; 2] [7; 7; 7; 7]%Z) (-1, -2)%Z],
     sky_pair)
  ∧ SkyModels_evaluate 3 16 lon lat energy sky_collection
    = (Return (mk_quantity (mk_ndarray [2; 2] [6; 6; 6; 6]%Z) (-1, -2)%Z),
       sky_collection).
Proof.
  split.
  - apply (SkyModels_evaluate_accumulates_in_order 3 sky_pair 16 15
             [4; 5; 11] 9 [14] lon lat energy);
      [reflexivity | reflexivity | reflexivity |].
    repeat constructor.
  - apply (SkyModels_evaluate_accumulates_in_order 3 sky_collection 16 15
             [4; 5] 9 [] lon lat energy _ []);
      [reflexivity | reflexivity | reflexivity | constructor | reflexivity].
Defined.

(** the caller asks for nearest-neighbour interpolation *)
Lemma SkyDiffuseCube_init_keeps_callers_dictionary_witness :
  ∃ self h' pn m kwargs,
    SkyDiffuseCube_init 2 1%Z None (Some 9) with_kwargs = (Return self, h') ∧
    h' !! self = Some (SkyDiffuseCubeObj 2 pn m 9 [pn]) ∧
    h' !! 9 = Some (PyDict kwargs) ∧
    kwargs !! "interp" = Some (PyStr "nearest").
Proof.
  destruct (SkyDiffuseCube_init_keeps_callers_dictionary with_kwargs 2
              center_geom 3 (-1, -2)%Z
              (mk_axis "energy" "center" TeV [1; 10]%Z) 1%Z None 9
              {[ "interp" := PyStr "nearest" ]}
              eq_refl eq_refl eq_refl eq_refl)
    as (self & h' & pn & m & kwargs & Hrun & Hself & Hkw & Hgiven & _).
  exists self, h', pn, m, kwargs. split_and!; [done..|].
  by apply Hgiven.
Defined.

(** the template map is refused by [BackgroundModel], the integrated map
    by [SkyDiffuseCube] *)
Lemma constructors_never_accept_the_same_map_witness :
  BackgroundModel_init 2 1%Z 0%Z (1%Z, TeV) base = (Raise edges_error, base)
  ∧ SkyDiffuseCube_init 0 1%Z None None base = (Raise center_error, base).
Proof.
  split.
  - eapply (proj1 (constructors_never_accept_the_same_map base 2)
              1%Z None None).
    vm_compute. reflexivity.
  - eapply (proj2 (constructors_never_accept_the_same_map base 0)
              1%Z 0%Z (1%Z, TeV)).
    vm_compute. reflexivity.
Defined.

(** a sky collection over two background models *)
Lemma SkyModels_init_accepts_background_members_witness :
  ∃ c h',
    SkyModels_init 17 background_list = (Return c, h') ∧
    members h' c = Some [12; 16] ∧
    SkyModels_evaluate 3 c lon lat energy h' = (Raise TypeError, h').
Proof.
  destruct (SkyModels_init_accepts_background_members background_list 17
              12 [16] [[9; 10; 11]; [13; 14; 15]])
    as (c & h' & Hrun & Hm & Hev);
    [reflexivity | exact I | repeat constructor |].
  exists c, h'. split_and!; [done..|]. apply Hev.
Defined.

(** a list with a map between two sky models *)
Lemma collection_init_needs_models_witness :
  SkyModels_init 15 broken_list = (Raise AttributeError, broken_list) ∧
  BackgroundModels_init 15 broken_list = (Raise AttributeError, broken_list).
Proof.
  apply (collection_init_needs_models broken_list 15 [9] 0 [10] [[4; 5]]
           (MapObj edges_geom 1 (0, 0)%Z));
    [reflexivity | repeat constructor | reflexivity | reflexivity].
Defined.

(** a template map without a unit is given the default unit; an
    integrated map without a unit is given it too, and then refused *)
Lemma SkyDiffuseCube_read_default_unit_witness :
  (∃ self h',
     SkyDiffuseCube_read default_unit 0 unitless = (Return self, h') ∧
     map_unit h' 0 = Some default_unit)
  ∧ SkyDiffuseCube_read default_unit 0 base
    = (Raise center_error, <[0 := MapObj edges_geom 1 default_unit]> base).
Proof.
  split.
  - destruct (proj1 (SkyDiffuseCube_read_default_unit default_unit unitless
                       0 center_geom 1 (0, 0)%Z
                       (mk_axis "energy" "center" TeV [1; 10]%Z)
                       eq_refl eq_refl) eq_refl)
      as (self & h' & pn & meta & kw & kwargs & Hrun & _ & Hunit & _).
    by exists self, h'.
  - pose proof (proj2 (SkyDiffuseCube_read_default_unit default_unit base
                         0 edges_geom 1 (0, 0)%Z
                         (mk_axis "energy" "edges" TeV [1; 10]%Z)
                         eq_refl eq_refl)) as Hrefused.
    apply Hrefused. discriminate.
Defined.

(** the copy of the cube, after the norm has been set to 5 *)
Lemma SkyDiffuseCube_copy_shares_norm_witness :
  ∃ c h',
    SkyDiffuseCube_copy 14 sky = (Return c, h') ∧
    sky !! c = None ∧
    (Parameter_set_value 11 5%Z;; SkyDiffuseCube_evaluate c lon lat energy) h'
    = (Parameter_set_value 11 5%Z;;
       SkyDiffuseCube_evaluate 14 lon lat energy) h'.
Proof.
  destruct (SkyDiffuseCube_copy_shares_norm sky 14 2 11 12 13 [11] eq_refl)
    as (c & h' & Hrun & Hfresh & _ & _ & Heval).
  exists c, h'. split_and!; [done..|]. apply Heval.
Defined.

(** norm 3 and tilt -1 on the integrated map: the second energy bin, of
    centre 10, is scaled by 3 * 10 *)
Lemma BackgroundModel_init_then_evaluate_witness :
  ∃ self r h' res,
    (self ← BackgroundModel_init 0 3%Z (-1)%Z (1%Z, TeV);
     r ← BackgroundModel_evaluate self; mret (self, r)) base
    = (Return (self, r), h') ∧
    map_data h' r = Some res ∧
    map_data h' 0 = Some (mk_ndarray [2; 1; 2] [1; 2; 3; 4]%Z) ∧
    item res [1; 0; 1] = 120%Z.
Proof.
  destruct (BackgroundModel_init_then_evaluate base 0 edges_geom 1 (0, 0)%Z
              (mk_ndarray [2; 1; 2] [1; 2; 3; 4]%Z)
              (mk_axis "energy" "edges" TeV [1; 10]%Z) 1 2
              3%Z (-1)%Z 1%Z TeV 1%Z)
    as (self & r & h' & res & Hrun & _ & Hres & Hmap & _ & Hitem);
    [reflexivity .. |].
  exists self, r, h', res. split_and!; [done..|].
  rewrite Hitem; [reflexivity | cbn; lia ..].
Defined.

Lemma BackgroundModel_evaluate_twice_witness :
  ∃ r1 r2 h' res,
    (r1 ← BackgroundModel_evaluate 12; r2 ← BackgroundModel_evaluate 12;
     mret (r1, r2)) background = (Return (r1, r2), h') ∧
    r1 ≠ r2 ∧ r1 ≠ 0 ∧ r2 ≠ 0 ∧
    map_data h' r1 = Some res ∧ map_data h' r2 = Some res ∧
    map_data h' 0 = Some (mk_ndarray [2; 1; 2] [1; 2; 3; 4]%Z).
Proof.
  apply (BackgroundModel_evaluate_twice background 12 0 9 10 11
           (mk_parameter "norm" 2%Z (0, 0)%Z (Some 0%Z) None false)
           (mk_parameter "tilt" 0%Z (0, 0)%Z None None true)
           (mk_parameter "reference" 1%Z TeV None None true)
           edges_geom 1 (0, 0)%Z (mk_ndarray [2; 1; 2] [1; 2; 3; 4]%Z)
           (mk_axis "energy" "edges" TeV [1; 10]%Z) 1 2 1%Z);
    reflexivity.
Defined.

(** the norm of the second background model set to 5 *)
Lemma BackgroundModel_evaluate_follows_norm_witness :
  ∃ r h' res,
    (Parameter_set_value 13 5%Z;; BackgroundModel_evaluate 16) background
    = (Return r, h') ∧
    parameter_value h' 13 = Some 5%Z ∧
    map_data h' r = Some res ∧
    item res [1; 0; 1] = 200%Z.
Proof.
  destruct (BackgroundModel_evaluate_follows_norm background 16 0 13 14 15
              (mk_parameter "norm" 3%Z (0, 0)%Z (Some 0%Z) None false)
              (mk_parameter "tilt" (-1)%Z (0, 0)%Z None None true)
              (mk_parameter "reference" 1%Z TeV None None true)
              edges_geom 1 (0, 0)%Z (mk_ndarray [2; 1; 2] [1; 2; 3; 4]%Z)
              (mk_axis "energy" "edges" TeV [1; 10]%Z) 1 2 1%Z 5%Z)
    as (r & h' & res & Hrun & Hv & Hres & Hitem);
    [reflexivity .. |].
  exists r, h', res. split_and!; [done..|].
  rewrite Hitem; [reflexivity | cbn; lia ..].
Defined.

(** a reference of one degree for an energy axis in TeV *)
Lemma BackgroundModel_reference_unit_checked_at_evaluate_witness :
  ∃ self h',
    BackgroundModel_init 0 1%Z 0%Z (1%Z, deg) base = (Return self, h') ∧
    is_background_leaf h' self ∧
    BackgroundModel_evaluate self h' = (Raise UnitConversionError, h').
Proof.
  apply (BackgroundModel_reference_unit_checked_at_evaluate base 0
           edges_geom 1 (0, 0)%Z (mk_axis "energy" "edges" TeV [1; 10]%Z));
    reflexivity.
Defined.


(** [BackgroundModels([12]) + 16]: the norm, tilt and reference of the
    model [16] are at [13], [14] and [15] *)
Lemma BackgroundModels_add_keeps_copied_parameters_witness :
  ∃ c' h' own' ps',
    BackgroundModels_add 18 16 background_collection = (Return c', h') ∧
    members h' c' = Some (own' ++ [16]) ∧
    parameters_of h' c' = Some ps' ∧
    length ps' = 3 ∧
    (13 ∉ ps') ∧ (14 ∉ ps') ∧ (15 ∉ ps').
Proof.
  destruct (BackgroundModels_add_keeps_copied_parameters
              background_collection 18 16 17 [9; 10; 11] [12] [16])
    as (c' & h' & own' & ps' & Hrun & Hm & Hps & Hlen & _ & Hnot);
    [ | reflexivity | reflexivity | reflexivity |].
  - apply (bool_decide_unpack (closed background_collection)).
    vm_compute. exact I.
  - exists c', h', own', ps'. split_and!; [done..| | |];
      apply (Hnot 16 [13; 14; 15]); first [reflexivity | set_solver].
Defined.
End more_examples.
